(** * Sales forecasting pipeline: generator, aggregation, forecaster, insights

    A shallow embedding of the Python sources

      - [src/data_generator.py]    (synthetic transaction generator),
      - [src/forecasting_model.py] (the [SalesForecaster] wrapper),
      - [src/insight_engine.py]    (the rule based [InsightEngine]),
      - [backend/model.py]         (the [ForecastingService] behind the REST layer),

    together with the properties the specification states about them.

    Numbers.  Python floats are embedded as exact rationals ([Q]); rounding
    error of binary floating point is not modelled.  Where the source divides
    by a value that can be zero (percentage errors, percentage changes) the
    embedding uses [fnum], the rationals extended with the IEEE special values
    [+inf], [-inf] and [NaN], with the arithmetic numpy applies to them.
    Where a property turns on the rounding itself, the aggregation is run on
    IEEE doubles (the primitive floats) beside the rationals.

    Libraries.  Prophet, scikit-learn's [r2_score], [np.sqrt], [np.sin], the
    two random number generators, [pd.to_datetime] and the float format
    specifications are not part of the repository; they enter as parameters
    (section variables or classes).  Small stand-ins for them are defined where
    a method has to be run on a concrete input. *)

From Stdlib Require Import ZArith QArith Qround Qabs Lqa Lia Ascii String Sorted.
From stdpp Require Import gmap strings list pretty.
From Stdlib Require PrimFloat.

(* ===================================================================== *)
(** * Python numerics on rationals *)
(* ===================================================================== *)

Module PyNum.
Local Open Scope Q_scope.

(** [max(a, b)] of Python: the first argument unless the second is greater. *)
Definition py_max (a b : Q) : Q := if Qlt_le_dec a b then b else a.

(** [int(x)]: truncation toward zero. *)
Definition py_int (x : Q) : Z := Z.quot (Qnum x) (Z.pos (Qden x)).

(** Round to the nearest integer, ties to the even neighbour. *)
Definition round_half_even (x : Q) : Z :=
  let f := Qfloor x in
  match Qcompare (x - inject_Z f) (1 # 2) with
  | Lt => f
  | Gt => (f + 1)%Z
  | Eq => if Z.even f then f else (f + 1)%Z
  end.

(** [round(x, 2)], and [Series.round(2)]. *)
Definition round2 (x : Q) : Q := inject_Z (round_half_even (x * 100)) / 100.

Lemma py_max_lower (a b : Q) : a <= py_max a b.
Proof. unfold py_max. destruct (Qlt_le_dec a b); lra. Qed.

Lemma py_max_upper (a b : Q) : b <= py_max a b.
Proof. unfold py_max. destruct (Qlt_le_dec a b); lra. Qed.

Lemma round_half_even_near (x : Q) :
  x - (1 # 2) <= inject_Z (round_half_even x) <= x + (1 # 2).
Proof.
  unfold round_half_even.
  pose proof (Qfloor_le x) as Hlo. pose proof (Qlt_floor x) as Hhi.
  rewrite inject_Z_plus in Hhi. change (inject_Z 1) with 1 in Hhi.
  destruct (Qcompare_spec (x - inject_Z (Qfloor x)) (1 # 2)) as [He|Hl|Hg].
  - destruct (Z.even (Qfloor x)).
    + lra.
    + rewrite inject_Z_plus. change (inject_Z 1) with 1. lra.
  - lra.
  - rewrite inject_Z_plus. change (inject_Z 1) with 1. lra.
Qed.

(** An integer within a half of [x] on the low side bounds the rounding. *)
Lemma round_half_even_ge (x : Q) (k : Z) :
  inject_Z k <= x -> (k <= round_half_even x)%Z.
Proof.
  intros Hk.
  pose proof (round_half_even_near x) as [Hlo _].
  assert (H : inject_Z k < inject_Z (round_half_even x + 1)).
  { rewrite inject_Z_plus. change (inject_Z 1) with 1. lra. }
  rewrite <- Zlt_Qlt in H. lia.
Qed.

Lemma round2_near (x : Q) : x - (1 # 200) <= round2 x <= x + (1 # 200).
Proof.
  unfold round2. pose proof (round_half_even_near (x * 100)) as [Hlo Hhi].
  set (r := inject_Z (round_half_even (x * 100))) in *.
  unfold Qdiv. change (/ 100) with (1 # 100). lra.
Qed.

(** A bound that is itself a whole number of hundredths survives rounding. *)
Lemma round2_ge (x : Q) (k : Z) : inject_Z k / 100 <= x -> inject_Z k / 100 <= round2 x.
Proof.
  intros Hk. unfold round2.
  assert (Hz : (k <= round_half_even (x * 100))%Z).
  { apply round_half_even_ge. unfold Qdiv in Hk. change (/ 100) with (1 # 100) in Hk. lra. }
  rewrite Zle_Qle in Hz. unfold Qdiv. change (/ 100) with (1 # 100). lra.
Qed.

Lemma round_half_even_floor (x : Q) :
  (Qfloor x <= round_half_even x <= Qfloor x + 1)%Z.
Proof.
  unfold round_half_even.
  destruct (Qcompare _ _); [destruct (Z.even _)| |]; lia.
Qed.

(** Rounding never reverses an order. *)
Lemma round_half_even_mono (x y : Q) :
  x <= y -> (round_half_even x <= round_half_even y)%Z.
Proof.
  intros Hxy. pose proof (Qfloor_resp_le x y Hxy) as Hf.
  destruct (Z_lt_le_dec (Qfloor x) (Qfloor y)) as [Hlt|Hge].
  - pose proof (round_half_even_floor x). pose proof (round_half_even_floor y). lia.
  - assert (E : Qfloor y = Qfloor x) by lia.
    unfold round_half_even. rewrite E.
    destruct (Qcompare_spec (x - inject_Z (Qfloor x)) (1 # 2)) as [Hx|Hx|Hx];
      destruct (Qcompare_spec (y - inject_Z (Qfloor x)) (1 # 2)) as [Hy|Hy|Hy];
      try destruct (Z.even (Qfloor x)); try lia; lra.
Qed.

Lemma round2_mono (x y : Q) : x <= y -> round2 x <= round2 y.
Proof.
  intros Hxy. unfold round2.
  assert (H : (round_half_even (x * 100) <= round_half_even (y * 100))%Z).
  { apply round_half_even_mono. lra. }
  rewrite Zle_Qle in H. unfold Qdiv. change (/ 100) with (1 # 100). lra.
Qed.

End PyNum.

(* ===================================================================== *)
(** * Calendar dates *)
(* ===================================================================== *)

(** A [pd.Timestamp] at midnight is its day number, counted from 1970-01-01.
    The attributes [.year], [.month], [.day] and [.dayofweek] the source reads
    are those of the proleptic Gregorian calendar. *)
Module Calendar.
Local Open Scope Z_scope.

Definition date := Z.

Definition civil_from_days (n : date) : Z * Z * Z :=
  let z := n + 719468 in
  let era := z / 146097 in
  let doe := z - era * 146097 in
  let yoe := (doe - doe / 1460 + doe / 36524 - doe / 146096) / 365 in
  let doy := doe - (365 * yoe + yoe / 4 - yoe / 100) in
  let mp := (5 * doy + 2) / 153 in
  let d := doy - (153 * mp + 2) / 5 + 1 in
  let m := if mp <? 10 then mp + 3 else mp - 9 in
  let y := yoe + era * 400 + (if m <=? 2 then 1 else 0) in
  (y, m, d).

Definition days_from_civil (y m d : Z) : date :=
  let y' := if m <=? 2 then y - 1 else y in
  let era := y' / 400 in
  let yoe := y' - era * 400 in
  let doy := (153 * (if 2 <? m then m - 3 else m + 9) + 2) / 5 + d - 1 in
  let doe := yoe * 365 + yoe / 4 - yoe / 100 + doy in
  era * 146097 + doe - 719468.

Definition year (n : date) : Z := let '(y, _, _) := civil_from_days n in y.
Definition month (n : date) : Z := let '(_, m, _) := civil_from_days n in m.
Definition day (n : date) : Z := let '(_, _, d) := civil_from_days n in d.

(** Monday is 0 and Sunday 6; 1970-01-01 was a Thursday. *)
Definition dayofweek (n : date) : Z := (n + 3) mod 7.

(** [dt.to_period('M')]: months are ordered as the dates are. *)
Definition to_period_M (n : date) : Z := year n * 12 + (month n - 1).

(** [pd.date_range(start, end, freq='D')]: both ends included. *)
Definition date_range (start stop : date) : list date :=
  map (fun i => start + Z.of_nat i) (seq 0 (Z.to_nat (stop - start + 1))).

Example epoch : civil_from_days 0 = (1970, 1, 1).
Proof. reflexivity. Qed.

Example weekdays_2020 :
  (dayofweek (days_from_civil 2020 1 1), dayofweek (days_from_civil 2020 1 4),
   dayofweek (days_from_civil 2020 6 1)) = (2, 5, 0).
Proof. reflexivity. Qed.

Example civil_2020_03_31 : civil_from_days (days_from_civil 2020 3 31) = (2020, 3, 31).
Proof. reflexivity. Qed.

Example civil_leap_day : civil_from_days (days_from_civil 2024 2 28 + 1) = (2024, 2, 29).
Proof. reflexivity. Qed.

Example dayofweek_2024_10_31 : dayofweek (days_from_civil 2024 10 31) = 3.
Proof. reflexivity. Qed.

Example date_range_q1_2020 :
  length (date_range (days_from_civil 2020 1 1) (days_from_civil 2020 3 31)) = 91%nat.
Proof. reflexivity. Qed.

End Calendar.

(* ===================================================================== *)
(** * The transaction table *)
(* ===================================================================== *)

Record Transaction := mkTransaction {
  transaction_id : Z;
  date : Calendar.date;
  region : string;
  product_category : string;
  customer_segment : string;
  quantity : Z;
  unit_price : Q;
  total_sales : Q;
  currency : string
}.

(* ===================================================================== *)
(** * [src/data_generator.py]: EthiopiaSalesDataGenerator *)
(* ===================================================================== *)

Module Generator.
Import PyNum.

Record EthiopiaSalesDataGenerator := mkGenerator {
  start_date : Calendar.date;
  end_date : Calendar.date;
  seed : Z;
  regions : list string;
  product_categories : list string;
  customer_segments : list string
}.

(** The fixed lookup table of [generate_sales_data]. *)
Definition base_amounts : gmap string Z :=
  list_to_map
    [("Coffee", 5000%Z); ("Teff", 3000%Z); ("Electronics", 15000%Z);
     ("Textiles", 8000%Z); ("Spices", 2000%Z); ("Livestock", 20000%Z);
     ("Vegetables", 1500%Z); ("Injera", 1000%Z); ("Leather Goods", 12000%Z);
     ("Cereals", 4000%Z)].

Section WithRandomSources.

(** The two process-wide random sources: Python's [random] module and
    numpy's legacy global generator.  [randbelow n] is the primitive behind
    [random.randint] and [random.choice]; [normal mu sigma] is
    [np.random.normal].  [np_sin_month m] stands for
    [np.sin(2 * np.pi * m / 12)]. *)
Variables PyRng NpRng : Type.
Variable py_seed : Z -> PyRng.
Variable np_seed : Z -> NpRng.
Variable randbelow : Z -> PyRng -> Z * PyRng.
Variable normal : Q -> Q -> NpRng -> Q * NpRng.
Variable np_sin_month : Z -> Q.

(** The interpreter state the generator reads and writes. *)
Record World := mkWorld { py_rng : PyRng; np_rng : NpRng }.

(** [__init__]: store the arguments, seed both global sources. *)
Definition init (start stop : Calendar.date) (sd : Z) (w : World)
  : EthiopiaSalesDataGenerator * World :=
  (mkGenerator start stop sd
     ["Addis Ababa"; "Oromia"; "Amhara"; "Tigray"; "SNNPR"; "Somali"; "Afar"; "Dire Dawa"]
     ["Coffee"; "Teff"; "Electronics"; "Textiles"; "Spices";
      "Livestock"; "Vegetables"; "Injera"; "Leather Goods"; "Cereals"]
     ["Retail"; "Wholesale"; "Export"; "B2B"; "Direct Consumer"],
   mkWorld (py_seed sd) (np_seed sd)).

Definition randint (a b : Z) (r : PyRng) : Z * PyRng :=
  let '(k, r') := randbelow (b - a + 1) r in ((a + k)%Z, r').

Definition choice (l : list string) (r : PyRng) : string * PyRng :=
  let '(k, r') := randbelow (Z.of_nat (length l)) r in (nth (Z.to_nat k) l "", r').

Local Open Scope Q_scope.

Definition add_seasonality (base_value : Q) (d : Calendar.date) : Q :=
  let m := Calendar.month d in
  let dd := Calendar.day d in
  let month_factor := 1 + 0.2 * np_sin_month m in
  let month_factor :=
    if ((m =? 9) && (1 <=? dd) && (dd <=? 15))%Z then month_factor * 1.5
    else if ((m =? 1) && (7 <=? dd) && (dd <=? 20))%Z then month_factor * 1.4
    else if ((m =? 9) && (27 <=? dd) && (dd <=? 30))%Z then month_factor * 1.3
    else if (m =? 12)%Z then month_factor * 1.6
    else month_factor in
  let month_factor :=
    if (5 <=? Calendar.dayofweek d)%Z then month_factor * 0.85 else month_factor in
  base_value * month_factor.

Definition add_trend (base_value : Q) (days_from_start : Z) : Q :=
  let annual_growth := 0.10 in
  let daily_growth := annual_growth / 365 in
  base_value * (1 + daily_growth * inject_Z days_from_start).

Definition add_noise (value : Q) (r : NpRng) : Q * NpRng :=
  let '(noise_factor, r') := normal 1 0.15 r in (value * noise_factor, r').

(** The body of the inner loop once the three choices and the noisy amount
    are known: floor, quantity, regional and segment adjustment, the row. *)
Definition make_row (tid : Z) (d : Calendar.date) (rg product segment : string)
    (base_amount : Z) (noisy : Q) : Transaction :=
  let amount := py_max 100 noisy in
  let unit_price0 := inject_Z base_amount / 10 in
  let quantity0 := Z.max 1 (py_int (amount / unit_price0)) in
  let amount :=
    if String.eqb rg "Addis Ababa" then amount * 1.3
    else if String.eqb rg "Oromia" then amount * 1.1
    else if String.eqb rg "Afar" then amount * 0.7
    else amount in
  let '(amount, quantity1) :=
    if String.eqb segment "Wholesale" then (amount * 1.5, (quantity0 * 2)%Z)
    else if String.eqb segment "Export" then (amount * 2.0, (quantity0 * 3)%Z)
    else (amount, quantity0) in
  mkTransaction tid d rg product segment quantity1
    (round2 (amount / inject_Z quantity1)) (round2 amount) "ETB".

(** One pass of the inner loop. *)
Definition gen_transaction (g : EthiopiaSalesDataGenerator) (d : Calendar.date)
    (days_from_start : Z) (tid : Z) (w : World) : Transaction * World :=
  let '(rg, r1) := choice (regions g) (py_rng w) in
  let '(product, r2) := choice (product_categories g) r1 in
  let '(segment, r3) := choice (customer_segments g) r2 in
  let base_amount := default 5000%Z (base_amounts !! product) in
  let amount := add_trend (inject_Z base_amount) days_from_start in
  let amount := add_seasonality amount d in
  let '(amount, n1) := add_noise amount (np_rng w) in
  (make_row tid d rg product segment base_amount amount, mkWorld r3 n1).

(** Loop state: the next transaction id, the rows appended so far, the world. *)
Record LoopState := mkLoop { next_id : Z; data : list Transaction; world : World }.

Fixpoint gen_day (g : EthiopiaSalesDataGenerator) (d : Calendar.date)
    (days_from_start : Z) (n : nat) (s : LoopState) : LoopState :=
  match n with
  | O => s
  | S n' =>
      let '(row, w') := gen_transaction g d days_from_start (next_id s) (world s) in
      gen_day g d days_from_start n'
        (mkLoop (next_id s + 1)%Z (data s ++ [row]) w')
  end.

Definition gen_date (g : EthiopiaSalesDataGenerator) (s : LoopState) (d : Calendar.date)
  : LoopState :=
  let days_from_start := (d - start_date g)%Z in
  let '(num_transactions, r') := randint 5 20 (py_rng (world s)) in
  gen_day g d days_from_start (Z.to_nat num_transactions)
    (mkLoop (next_id s) (data s) (mkWorld r' (np_rng (world s)))).

(** [generate_sales_data]: the table, and the world it leaves behind. *)
Definition generate_sales_data (g : EthiopiaSalesDataGenerator) (w : World)
  : list Transaction * World :=
  let s := fold_left (gen_date g)
             (Calendar.date_range (start_date g) (end_date g))
             (mkLoop 1000 [] w) in
  (data s, world s).

(** A run, as [main] and [setup.py] perform it: construct, then generate. *)
Definition run (start stop : Calendar.date) (sd : Z) (w : World) : list Transaction :=
  let '(g, w') := init start stop sd w in fst (generate_sales_data g w').

(** ** Every generated row is a [make_row] *)

Lemma gen_transaction_row (P : Transaction -> Prop) :
  (forall tid d rg product segment base noisy,
      P (make_row tid d rg product segment base noisy)) ->
  forall g d dfs tid w, P (fst (gen_transaction g d dfs tid w)).
Proof.
  intros HP g d dfs tid w. unfold gen_transaction.
  destruct (choice (regions g) (py_rng w)) as [rg r1].
  destruct (choice (product_categories g) r1) as [product r2].
  destruct (choice (customer_segments g) r2) as [segment r3].
  destruct (add_noise _ (np_rng w)) as [amount n1]. simpl. apply HP.
Qed.

Lemma gen_day_rows (P : Transaction -> Prop) :
  (forall tid d rg product segment base noisy,
      P (make_row tid d rg product segment base noisy)) ->
  forall g d dfs n s, Forall P (data s) -> Forall P (data (gen_day g d dfs n s)).
Proof.
  intros HP g d dfs n. induction n as [|n IH]; intros s Hs; simpl; [assumption|].
  pose proof (gen_transaction_row P HP g d dfs (next_id s) (world s)) as Hrow.
  destruct (gen_transaction g d dfs (next_id s) (world s)) as [row w'].
  apply IH. simpl. apply Forall_app. split; [assumption|].
  constructor; [exact Hrow | constructor].
Qed.

Lemma generate_sales_data_rows (P : Transaction -> Prop) :
  (forall tid d rg product segment base noisy,
      P (make_row tid d rg product segment base noisy)) ->
  forall g w, Forall P (fst (generate_sales_data g w)).
Proof.
  intros HP g w. unfold generate_sales_data. simpl.
  assert (Hinit : Forall P (data (mkLoop 1000 [] w))) by constructor.
  revert Hinit. generalize (mkLoop 1000 [] w).
  induction (Calendar.date_range (start_date g) (end_date g)) as [|d ds IH];
    intros s Hs; simpl; [assumption|].
  apply IH. unfold gen_date.
  destruct (randint 5 20 (py_rng (world s))) as [num r'].
  apply gen_day_rows; assumption.
Qed.

End WithRandomSources.

(** ** A replayable random source

    To run the generator inside Rocq the random sources are instantiated by
    tapes: the state is the list of raw draws still to come.  Any trace of
    the real generators can be replayed this way. *)

Definition tape_randbelow (n : Z) (t : list Z) : Z * list Z :=
  match t with
  | [] => (0%Z, [])
  | x :: t' => ((x mod n)%Z, t')
  end.

(** A standard normal draw [z] becomes [mu + sigma * z]. *)
Definition tape_normal (mu sigma : Q) (t : list Q) : Q * list Q :=
  match t with
  | [] => (mu, [])
  | z :: t' => (Qred (mu + sigma * z)%Q, t')
  end.

(** [sin(2 pi m / 12)], exact where it is rational, to seven places otherwise. *)
Definition sin_month_table (m : Z) : Q :=
  match m with
  | 1 | 5 => 0.5%Q
  | 2 | 4 => 0.8660254%Q
  | 3 => 1%Q
  | 7 | 11 => (-0.5)%Q
  | 8 | 10 => (-0.8660254)%Q
  | 9 => (-1)%Q
  | _ => 0%Q
  end%Z.

Definition tape_run (py : Z -> list Z) (np : Z -> list Q)
    (start stop : Calendar.date) (sd : Z) (w : World (list Z) (list Q))
  : list Transaction :=
  run (list Z) (list Q) py np tape_randbelow tape_normal sin_month_table start stop sd w.

End Generator.

(* ===================================================================== *)
(** * Floats with infinities and NaN *)
(* ===================================================================== *)

(** Finite values are exact rationals; overflow and the sign of zero are not
    modelled (a zero divisor counts as [+0.0]). *)
Module Float.
Local Open Scope Q_scope.

Inductive fnum := Fin (q : Q) | PInf | NInf | NaN.


Definition is_nan (x : fnum) : bool :=
  match x with NaN => true | _ => false end.

Definition fopp (x : fnum) : fnum :=
  match x with
  | Fin q => Fin (- q)
  | PInf => NInf
  | NInf => PInf
  | NaN => NaN
  end.

Definition fabs (x : fnum) : fnum :=
  match x with
  | Fin q => Fin (Qabs q)
  | PInf | NInf => PInf
  | NaN => NaN
  end.

Definition fadd (x y : fnum) : fnum :=
  match x, y with
  | NaN, _ | _, NaN => NaN
  | Fin a, Fin b => Fin (a + b)
  | PInf, NInf | NInf, PInf => NaN
  | PInf, _ | _, PInf => PInf
  | NInf, _ | _, NInf => NInf
  end.

Definition fsub (x y : fnum) : fnum := fadd x (fopp y).

(** An infinity with the sign of [q] times the sign of the infinity;
    [0 * inf] is NaN. *)
Definition signed_inf (q : Q) (positive : bool) : fnum :=
  match Qcompare q 0 with
  | Eq => NaN
  | Gt => if positive then PInf else NInf
  | Lt => if positive then NInf else PInf
  end.

Definition fmul (x y : fnum) : fnum :=
  match x, y with
  | NaN, _ | _, NaN => NaN
  | Fin a, Fin b => Fin (a * b)
  | Fin a, PInf | PInf, Fin a => signed_inf a true
  | Fin a, NInf | NInf, Fin a => signed_inf a false
  | PInf, PInf | NInf, NInf => PInf
  | PInf, NInf | NInf, PInf => NInf
  end.

Definition fdiv (x y : fnum) : fnum :=
  match x, y with
  | NaN, _ | _, NaN => NaN
  | Fin a, Fin b => if Qeq_bool b 0 then signed_inf a true else Fin (a / b)
  | Fin _, (PInf | NInf) => Fin 0
  | PInf, Fin b => if Qle_bool 0 b then PInf else NInf
  | NInf, Fin b => if Qle_bool 0 b then NInf else PInf
  | (PInf | NInf), (PInf | NInf) => NaN
  end.

(** [x > y] and [x < y]: false as soon as one side is NaN. *)
Definition fgt (x y : fnum) : bool :=
  match x, y with
  | NaN, _ | _, NaN => false
  | Fin a, Fin b => negb (Qle_bool a b)
  | PInf, PInf => false
  | PInf, _ => true
  | _, NInf => match x with NInf => false | _ => true end
  | _, _ => false
  end.

Definition flt (x y : fnum) : bool := fgt y x.

Definition fsum (l : list fnum) : fnum := fold_left fadd l (Fin 0).

(** [np.mean] of an array: NaN propagates, the empty array gives NaN. *)
Definition np_mean (l : list fnum) : fnum :=
  fdiv (fsum l) (Fin (inject_Z (Z.of_nat (length l)))).

(** [Series.mean()] of pandas: NaN entries are skipped first. *)
Definition series_mean (l : list fnum) : fnum :=
  np_mean (filter (fun x => negb (is_nan x)) l).

Example fgt_table :
  (fgt PInf (Fin 5), fgt (Fin 6) (Fin 5), fgt NaN (Fin 5), fgt (Fin 5) NaN,
   fgt NInf NInf, fgt (Fin 0) NInf, fgt NInf (Fin 0), fgt PInf NInf)
  = (true, true, false, false, false, true, false, true).
Proof. reflexivity. Qed.

Example np_mean_empty : np_mean [] = NaN.
Proof. reflexivity. Qed.

Example series_mean_skips : series_mean [NaN; Fin 1; Fin 3] = Fin (4 / 2).
Proof. reflexivity. Qed.

End Float.

(* ===================================================================== *)
(** * Exceptions *)
(* ===================================================================== *)

Inductive exn :=
| ValueError (msg : string)
| AttributeError (msg : string)
| TypeError (msg : string)
| KeyError (key : string)
| IndexError (msg : string)
| Exception (msg : string).

Inductive result (A : Type) :=
| Ok (a : A)
| Raise (e : exn).
Arguments Ok {A} a.
Arguments Raise {A} e.

#[global] Instance result_ret : MRet result := fun A a => Ok a.
#[global] Instance result_bind : MBind result := fun A B k m =>
  match m with
  | Ok a => k a
  | Raise e => Raise e
  end.

Definition is_ok {A : Type} (r : result A) : bool :=
  match r with Ok _ => true | Raise _ => false end.

(* ===================================================================== *)
(** * Slices and group-by *)
(* ===================================================================== *)

Module Frame.

Section Slices.
Context {A : Type}.

(** [l[k:]] with Python's reading of a negative [k]. *)
Definition slice_from (k : Z) (l : list A) : list A :=
  if (0 <=? k)%Z then drop (Z.to_nat k) l
  else drop (Z.to_nat (Z.of_nat (length l) + k)) l.

(** [l[:k]]. *)
Definition slice_to (k : Z) (l : list A) : list A :=
  if (0 <=? k)%Z then take (Z.to_nat k) l
  else take (Z.to_nat (Z.of_nat (length l) + k)) l.

End Slices.

Section GroupBy.
Context {K V : Type} (cmp : K -> K -> comparison) (op : V -> V -> V).

(** Merge one row into the groups collected so far; the groups stay ordered
    by key, as [groupby] (with its default [sort=True]) returns them. *)
Fixpoint group_insert (k : K) (v : V) (acc : list (K * V)) : list (K * V) :=
  match acc with
  | [] => [(k, v)]
  | (k', v') :: rest =>
      match cmp k k' with
      | Lt => (k, v) :: acc
      | Eq => (k', op v' v) :: rest
      | Gt => (k', v') :: group_insert k v rest
      end
  end.

Definition groupby (rows : list (K * V)) : list (K * V) :=
  fold_left (fun acc kv => group_insert (fst kv) (snd kv) acc) rows [].

End GroupBy.

(** [Series.sum()] over finite values. *)
Definition Qsum (l : list Q) : Q := fold_right Qplus 0%Q l.

(** [groupby(key)[value].sum()]. *)
Definition groupby_sum {K : Type} (cmp : K -> K -> comparison) (rows : list (K * Q))
  : list (K * Q) :=
  groupby cmp Qplus rows.

(** [df.groupby('date')['total_sales'].sum().reset_index()]: the DailySeries. *)
Definition daily_sales (df : list Transaction) : list (Calendar.date * Q) :=
  groupby_sum Z.compare (map (fun t => (date t, total_sales t)) df).

Example slice_examples :
  (slice_from (-2) [1; 2; 3; 4; 5], slice_to (-2) [1; 2; 3; 4; 5],
   slice_from 0 [1; 2; 3], slice_to 0 [1; 2; 3], slice_from (-9) [1; 2; 3])
  = ([4; 5], [1; 2; 3], [1; 2; 3], [], [1; 2; 3]).
Proof. reflexivity. Qed.

Example groupby_sum_orders_keys :
  groupby_sum Z.compare [(3%Z, 1%Q); (1%Z, 2%Q); (3%Z, 4%Q); (2%Z, 8%Q)]
  = [(1%Z, 2%Q); (2%Z, 8%Q); (3%Z, (1 + 4)%Q)].
Proof. reflexivity. Qed.

End Frame.

(** The aggregation on IEEE doubles, as the code computes it: the same
    [groupby] with the addition of doubles, which rounds and is therefore
    not associative. *)
Module Doubles.
Import Frame PrimFloat.

(** [Series.sum()]: the values are added in row order. *)
Definition double_sum (l : list float) : float := fold_left PrimFloat.add l 0%float.

(** [df.groupby('date')['total_sales'].sum()] on rows [(date, total_sales)]. *)
Definition daily_sales (rows : list (Calendar.date * float)) : list (Calendar.date * float) :=
  groupby Z.compare PrimFloat.add rows.

(** The double nearest to the decimal [n / d], as Python reads a literal. *)
Definition decimal (n d : float) : float := (n / d)%float.

(** Sales of 0.1 and 1.1 on 2020-01-01 and of 100.01 on 2020-01-02, in the
    order 0.1, 100.01, 1.1. *)
Definition three_sales : list (Calendar.date * float) :=
  [(Calendar.days_from_civil 2020 1 1, decimal 1 10);
   (Calendar.days_from_civil 2020 1 2, decimal 10001 100);
   (Calendar.days_from_civil 2020 1 1, decimal 11 10)].

(** 101.21. *)
Definition sum_101_21 : float := decimal 10121 100.

End Doubles.

(* ===================================================================== *)
(** * The libraries behind the forecaster *)
(* ===================================================================== *)

Module Prophet.

(** One row of the frame [Prophet.predict] returns (the columns the sources read). *)
Record ForecastRow := mkForecastRow {
  ds : Calendar.date;
  yhat : Q;
  yhat_lower : Q;
  yhat_upper : Q
}.

Record Seasonality := mkSeasonality {
  s_name : string;
  s_period : Q;
  s_fourier_order : Z
}.

(** The constructor arguments the sources pass; [daily_seasonality = None]
    is the library default ['auto']. *)
Record Config := mkConfig {
  yearly_seasonality : bool;
  weekly_seasonality : bool;
  daily_seasonality : option bool;
  changepoint_prior_scale : Q;
  seasonality_mode : string;
  seasonalities : list Seasonality
}.

(** [add_seasonality(name, period, fourier_order)]. *)
Definition add_seasonality (c : Config) (s : Seasonality) : Config :=
  mkConfig (yearly_seasonality c) (weekly_seasonality c) (daily_seasonality c)
    (changepoint_prior_scale c) (seasonality_mode c) (seasonalities c ++ [s]).

(** What the library does: fitting a configured model to a daily series,
    extending the history by a horizon, predicting on a frame of dates. *)
Class Lib := {
  Fitted : Type;
  fit : Config -> list (Calendar.date * Q) -> result Fitted;
  future_dates : Fitted -> Z -> result (list Calendar.date);
  predict_fitted : Fitted -> list Calendar.date -> result (list ForecastRow)
}.

(** A [Prophet] object: configured at construction, fitted by [fit]. *)
Record Model `{Lib} := mkModel {
  config : Config;
  state : option Fitted
}.
Arguments mkModel {_} _ _.

Section Methods.
Context `{Lib}.

Definition make_future_dataframe (m : Model) (periods : Z) : result (list Calendar.date) :=
  match state m with
  | None => Raise (Exception "Model has not been fit.")
  | Some f => future_dates f periods
  end.

Definition predict (m : Model) (future : list Calendar.date) : result (list ForecastRow) :=
  match state m with
  | None => Raise (Exception "Model has not been fit.")
  | Some f => predict_fitted f future
  end.

End Methods.

End Prophet.

(** numpy arrays and scikit-learn metrics. *)
Module Numpy.
Import Float.

(** Elementwise binary operation with numpy's broadcasting of a length-one
    operand; other length mismatches raise. *)
Definition np_zip_with (f : fnum -> fnum -> fnum) (a b : list fnum) : result (list fnum) :=
  if (length a =? length b)%nat then Ok (zip_with f a b)
  else match a, b with
       | [x], _ => Ok (map (f x) b)
       | _, [y] => Ok (map (fun x => f x y) a)
       | _, _ => Raise (ValueError "operands could not be broadcast together")
       end.

Definition of_Q (l : list Q) : list fnum := map Fin l.

(** The input validation shared by the scikit-learn regression metrics: the
    two lengths are compared first, then an empty array is refused. *)
Definition check_targets (y_true y_pred : list fnum) : result unit :=
  if negb (length y_true =? length y_pred)%nat
  then Raise (ValueError
                ("Found input variables with inconsistent numbers of samples: ["
                   ++ pretty (length y_true) ++ ", " ++ pretty (length y_pred) ++ "]"))
  else if (length y_true =? 0)%nat
  then Raise (ValueError
                "Found array with 0 sample(s) (shape=(0,)) while a minimum of 1 is required.")
  else Ok tt.

Definition mean_absolute_error (y_true y_pred : list fnum) : result fnum :=
  _ ← check_targets y_true y_pred;
  Ok (np_mean (zip_with (fun p t => fabs (fsub p t)) y_pred y_true)).

Definition mean_squared_error (y_true y_pred : list fnum) : result fnum :=
  _ ← check_targets y_true y_pred;
  Ok (np_mean (zip_with (fun t p => let d := fsub t p in fmul d d) y_true y_pred)).

(** [np.mean(np.abs((y_true - y_pred) / y_true)) * 100], as both
    [evaluate_model] and [generate_forecast] spell it. *)
Definition mape (y_true y_pred : list fnum) : result fnum :=
  diff ← np_zip_with fsub y_true y_pred;
  ratio ← np_zip_with fdiv diff y_true;
  Ok (fmul (np_mean (map fabs ratio)) (Fin 100)).

(** [np.sqrt] and [sklearn.metrics.r2_score] stay abstract. *)
Class Lib := {
  np_sqrt : fnum -> fnum;
  r2_score : list fnum -> list fnum -> fnum
}.

End Numpy.

(* ===================================================================== *)
(** * [src/forecasting_model.py]: SalesForecaster *)
(* ===================================================================== *)

Module SalesForecaster.
Import Float Frame Numpy.

Section WithLibraries.
Context `{PL : Prophet.Lib} `{NL : Numpy.Lib}.

(** The object's attributes; [None] is Python's [None]. *)
Record SalesForecaster := mkForecaster {
  model : option Prophet.Model;
  df_train : option (list (Calendar.date * Q));
  df_test : option (list (Calendar.date * Q))
}.

Record Metrics := mkMetrics { MAE : fnum; RMSE : fnum; MAPE : fnum; R2 : fnum }.

(** [__init__]. *)
Definition new : SalesForecaster := mkForecaster None None None.

(** [prepare_data(df, test_size=...)]. *)
Definition prepare_data (df : list Transaction) (test_size : Z) (self : SalesForecaster)
  : SalesForecaster :=
  let df_daily := daily_sales df in
  let split_idx := (Z.of_nat (length df_daily) - test_size)%Z in
  mkForecaster (model self)
    (Some (slice_to split_idx df_daily)) (Some (slice_from split_idx df_daily)).

(** [train_model(...)]: the attribute [model] is assigned before [fit] runs,
    so a failing [fit] leaves an unfitted model behind. *)
Definition train_model (yearly weekly daily : bool) (cps : Q) (self : SalesForecaster)
  : SalesForecaster * result unit :=
  let cfg := Prophet.add_seasonality
               (Prophet.mkConfig yearly weekly (Some daily) cps "multiplicative" [])
               (Prophet.mkSeasonality "monthly" 30.5 5) in
  let unfitted := mkForecaster (Some (Prophet.mkModel cfg None)) (df_train self) (df_test self) in
  match df_train self with
  | None => (unfitted, Raise (TypeError "argument of type 'NoneType' is not iterable"))
  | Some train =>
      match Prophet.fit cfg train with
      | Raise e => (unfitted, Raise e)
      | Ok f =>
          (mkForecaster (Some (Prophet.mkModel cfg (Some f))) (df_train self) (df_test self),
           Ok tt)
      end
  end.

(** [forecast(periods=...)]. *)
Definition forecast (periods : Z) (self : SalesForecaster)
  : result (list Prophet.ForecastRow) :=
  match model self with
  | None => Raise (ValueError "Model not trained. Call train_model() first.")
  | Some m =>
      future ← Prophet.make_future_dataframe m periods;
      Prophet.predict m future
  end.

(** [evaluate_model()]. *)
Definition evaluate_model (self : SalesForecaster) : result Metrics :=
  train ← match df_train self with
          | Some t => Ok t
          | None => Raise (AttributeError "'NoneType' object has no attribute 'copy'")
          end;
  test ← match df_test self with
         | Some t => Ok t
         | None => Raise (TypeError "'NoneType' object is not subscriptable")
         end;
  let future := map fst train ++ map fst test in
  m ← match model self with
      | Some m => Ok m
      | None => Raise (AttributeError "'NoneType' object has no attribute 'predict'")
      end;
  fc ← Prophet.predict m future;
  let test_forecast := slice_from (- Z.of_nat (length test)) fc in
  let y_true := of_Q (map snd test) in
  let y_pred := of_Q (map Prophet.yhat test_forecast) in
  mae ← mean_absolute_error y_true y_pred;
  mse ← mean_squared_error y_true y_pred;
  let rmse := np_sqrt mse in
  mape ← Numpy.mape y_true y_pred;
  let r2 := r2_score y_true y_pred in
  Ok (mkMetrics mae rmse mape r2).

End WithLibraries.

End SalesForecaster.

(* ===================================================================== *)
(** * [backend/model.py]: ForecastingService *)
(* ===================================================================== *)

Module ForecastingService.
Import Float Frame Numpy PyNum.

Section WithLibraries.
Context `{PL : Prophet.Lib}.

Record ForecastingService := mkService {
  df : option (list Transaction);
  model : option Prophet.Model;
  data_loaded : bool;
  model_trained : bool
}.

Record ResponseMetrics := mkResponseMetrics {
  mae : fnum;
  mape : fnum;
  total_forecast : fnum;
  avg_daily : fnum
}.

(** The dictionary [generate_forecast] returns; dates stay day numbers
    instead of their ['%Y-%m-%d'] rendering. *)
Record ForecastResponse := mkResponse {
  dates : list Calendar.date;
  predictions : list Q;
  lower_bound : list Q;
  upper_bound : list Q;
  metrics : ResponseMetrics
}.

Record HistoricalResponse := mkHistorical {
  h_dates : list Calendar.date;
  h_sales : list Q
}.

(** [__init__]. *)
Definition new : ForecastingService := mkService None None false false.

(** [load_data()]: [csv] is what [pd.read_csv] plus the date conversion
    yields; a failure is printed and swallowed. *)
Definition load_data (csv : result (list Transaction)) (self : ForecastingService)
  : ForecastingService :=
  match csv with
  | Ok table => mkService (Some table) (model self) true (model_trained self)
  | Raise _ => mkService (df self) (model self) false (model_trained self)
  end.

Definition read_df (self : ForecastingService) : result (list Transaction) :=
  match df self with
  | Some table => Ok table
  | None => Raise (AttributeError "'NoneType' object has no attribute 'copy'")
  end.

(** The model of [train_model], with its monthly seasonality, and the
    throw-away model [generate_forecast] fits to a filtered table. *)
Definition global_config : Prophet.Config :=
  Prophet.add_seasonality
    (Prophet.mkConfig true true (Some false) 0.05 "multiplicative" [])
    (Prophet.mkSeasonality "monthly" 30.5 5).

Definition filtered_config : Prophet.Config :=
  Prophet.mkConfig true true None 0.05 "multiplicative" [].

(** [train_model()]. *)
Definition train_model (self : ForecastingService) : ForecastingService * result unit :=
  if negb (data_loaded self) then (self, Raise (ValueError "Data not loaded"))
  else
    match df self with
    | None => (self, Raise (AttributeError "'NoneType' object has no attribute 'groupby'"))
    | Some table =>
        let df_daily := daily_sales table in
        let cfg := global_config in
        let unfitted := mkService (df self) (Some (Prophet.mkModel cfg None))
                          (data_loaded self) (model_trained self) in
        match Prophet.fit cfg df_daily with
        | Raise e => (unfitted, Raise e)
        | Ok f =>
            (mkService (df self) (Some (Prophet.mkModel cfg (Some f))) (data_loaded self) true,
             Ok tt)
        end
    end.

(** Truth value of an optional string argument: [None] and [''] are false. *)
Definition truthy (s : option string) : bool :=
  match s with
  | Some x => negb (String.eqb x "")
  | None => false
  end.

(** [df[df[col] == value]] when the filter argument is truthy. *)
Definition filter_by (proj : Transaction -> string) (arg : option string)
    (table : list Transaction) : list Transaction :=
  match arg with
  | Some x => if truthy arg then filter (fun t => String.eqb (proj t) x) table else table
  | None => table
  end.

(** The block "calculate metrics on historical data" of [generate_forecast]:
    the pair [(mae, mape)]. *)
Definition history_metrics (historical : list Prophet.ForecastRow)
    (df_daily : list (Calendar.date * Q)) : result (fnum * fnum) :=
  if (0 <? length historical)%nat && (0 <? length df_daily)%nat then
    let yh := of_Q (map Prophet.yhat historical) in
    let ys := of_Q (map snd df_daily) in
    diff ← np_zip_with fsub yh ys;
    pe ← Numpy.mape ys yh;
    Ok (np_mean (map fabs diff), pe)
  else Ok (Fin 0, Fin 0).

(** [generate_forecast(periods, category, region)]. *)
Definition generate_forecast (periods : Z) (category rg : option string)
    (self : ForecastingService) : result ForecastResponse :=
  if negb (model_trained self) then Raise (ValueError "Model not trained")
  else
    table ← read_df self;
    let df_filtered := filter_by region rg (filter_by product_category category table) in
    m ← (if truthy category || truthy rg then
           let df_daily := daily_sales df_filtered in
           f ← Prophet.fit filtered_config df_daily;
           Ok (Prophet.mkModel filtered_config (Some f))
         else
           match model self with
           | Some m => Ok m
           | None =>
               Raise (AttributeError
                        "'NoneType' object has no attribute 'make_future_dataframe'")
           end);
    future ← Prophet.make_future_dataframe m periods;
    fc ← Prophet.predict m future;
    let forecast_future := slice_from (- periods) fc in
    let historical := slice_to (- periods) fc in
    let df_daily := daily_sales df_filtered in
    '(mae, mape) ← history_metrics historical df_daily;
    Ok (mkResponse
          (map Prophet.ds forecast_future)
          (map (fun r => round2 (Prophet.yhat r)) forecast_future)
          (map (fun r => round2 (Prophet.yhat_lower r)) forecast_future)
          (map (fun r => round2 (Prophet.yhat_upper r)) forecast_future)
          (mkResponseMetrics mae mape
             (Fin (Qsum (map Prophet.yhat forecast_future)))
             (series_mean (of_Q (map Prophet.yhat forecast_future))))).

(** [get_historical_data(start_date, end_date, category)]; the date bounds
    arrive already parsed, [None] standing for an absent or empty argument. *)
Definition get_historical_data (start stop : option Calendar.date)
    (category : option string) (self : ForecastingService) : result HistoricalResponse :=
  table ← read_df self;
  let df_filtered :=
    match start with
    | Some d => filter (fun t => (d <=? date t)%Z) table
    | None => table
    end in
  let df_filtered :=
    match stop with
    | Some d => filter (fun t => (date t <=? d)%Z) df_filtered
    | None => df_filtered
    end in
  let df_filtered := filter_by product_category category df_filtered in
  let daily := daily_sales df_filtered in
  Ok (mkHistorical (map fst daily) (map (fun p => round2 (snd p)) daily)).

End WithLibraries.

End ForecastingService.

(* ===================================================================== *)
(** * [src/insight_engine.py]: InsightEngine *)
(* ===================================================================== *)

Module InsightEngine.
Import Float Frame PyNum.

(** ** Data frames as objects on a heap

    A data frame maps column names to columns; [df[name] = values] replaces
    or adds a column.  Frames live on a heap and are passed by reference, so
    that a frame shared with the caller and a private copy can be told apart.
    Tables have no missing cells, and all columns of a frame have one length. *)

Inductive cell :=
| CInt (z : Z)
| CFloat (q : Q)
| CStr (s : string)
| CDate (d : Calendar.date).

Abbreviation DataFrame := (gmap string (list cell)).
Abbreviation Heap := (gmap positive (gmap string (list cell))).

Record Insight := mkInsight {
  category : string;
  severity : string;
  title : string;
  description : string;
  recommendation : string
}.

Record InsightEngine := mkEngine {
  sales_df : positive;
  forecast_df : option positive;
  insights : list Insight
}.

Record State := mkState {
  objects : Heap;
  engine : InsightEngine
}.


(** The frame of a Prophet forecast. *)
Definition frame_of_forecast (rows : list Prophet.ForecastRow) : DataFrame :=
  list_to_map
    [("ds", map (fun r => CDate (Prophet.ds r)) rows);
     ("yhat", map (fun r => CFloat (Prophet.yhat r)) rows);
     ("yhat_lower", map (fun r => CFloat (Prophet.yhat_lower r)) rows);
     ("yhat_upper", map (fun r => CFloat (Prophet.yhat_upper r)) rows)].

(** ** Reading columns *)

Definition get_col (df : DataFrame) (name : string) : result (list cell) :=
  match df !! name with
  | Some c => Ok c
  | None => Raise (KeyError name)
  end.

Definition as_float (c : cell) : result Q :=
  match c with
  | CFloat q => Ok q
  | CInt z => Ok (inject_Z z)
  | _ => Raise (TypeError "unsupported operand type(s)")
  end.

Definition as_str (c : cell) : result string :=
  match c with
  | CStr s => Ok s
  | _ => Raise (TypeError "group key is not a string")
  end.

Definition as_date (c : cell) : result Calendar.date :=
  match c with
  | CDate d => Ok d
  | _ => Raise (TypeError "group key is not a timestamp")
  end.

Definition float_col (df : DataFrame) (name : string) : result (list Q) :=
  c ← get_col df name; mapM as_float c.

Definition str_col (df : DataFrame) (name : string) : result (list string) :=
  c ← get_col df name; mapM as_str c.

(** ** Series helpers *)

(** [Series.pct_change()]: the first entry has no predecessor. *)
Definition pct_change (l : list Q) : list fnum :=
  match l with
  | [] => []
  | _ :: rest =>
      NaN :: zip_with (fun prev cur => fsub (fdiv (Fin cur) (Fin prev)) (Fin 1)) l rest
  end.

Section Sorting.
Context {K : Type}.

(** Insert before the first entry that [before] does not put ahead. *)
Fixpoint insert_sorted (before : Q -> Q -> bool) (x : K * Q) (l : list (K * Q))
  : list (K * Q) :=
  match l with
  | [] => [x]
  | y :: rest =>
      if before (snd y) (snd x) then y :: insert_sorted before x rest
      else x :: l
  end.

(** A stable sort by value; entries of equal value keep their order. *)
Definition sort_by (before : Q -> Q -> bool) (l : list (K * Q)) : list (K * Q) :=
  fold_left (fun acc x => insert_sorted before x acc) l [].

(** [sort_values(ascending=False)] and [sort_values()]. *)
Definition sort_descending := sort_by (fun a b => Qle_bool b a).
Definition sort_ascending := sort_by (fun a b => Qle_bool a b).

End Sorting.

(** [groupby(key)[value].mean()]. *)
Definition groupby_mean {K : Type} (cmp : K -> K -> comparison) (rows : list (K * Q))
  : list (K * Q) :=
  map (fun '(k, (s, n)) => (k, (s / inject_Z (Z.of_nat n))%Q))
    (groupby cmp (fun a b => ((fst a + fst b)%Q, (snd a + snd b)%nat))
       (map (fun '(k, v) => (k, (v, 1%nat))) rows)).

(** [groupby(key).agg({'total_sales': [...]}).round(2)], reduced to the
    [sum] column, then [sort_values('total_sales', ascending=False)].  Groups
    of equal total keep their key order; pandas leaves the order of ties to
    its sorting algorithm. *)
Definition ranked_totals (keys : list string) (vals : list Q) : list (string * Q) :=
  sort_descending
    (map (fun '(k, v) => (k, round2 v)) (groupby_sum String.compare (zip keys vals))).

Definition month_names : gmap Z string :=
  list_to_map
    [(1%Z, "January"); (2%Z, "February"); (3%Z, "March"); (4%Z, "April");
     (5%Z, "May"); (6%Z, "June"); (7%Z, "July"); (8%Z, "August");
     (9%Z, "September"); (10%Z, "October"); (11%Z, "November"); (12%Z, "December")].

Definition month_name (m : Z) : result string :=
  match month_names !! m with
  | Some s => Ok s
  | None => Raise (KeyError "month")
  end.

Example pct_change_example :
  pct_change [100; 150; 0; 0]%Q = [NaN; Fin ((150 / 100) + - 1); Fin ((0 / 150) + - 1); NaN]%Q.
Proof. reflexivity. Qed.

Example sort_descending_stable :
  sort_descending [("a", 1%Q); ("b", 3%Q); ("c", 1%Q); ("d", 3%Q)]
  = [("b", 3%Q); ("d", 3%Q); ("a", 1%Q); ("c", 1%Q)].
Proof. reflexivity. Qed.

(** ** The engine's methods

    A method runs on the heap and the engine object; it ends normally or
    raises, and what it wrote until then stays written.  Console output is
    not modelled. *)

Definition M (A : Type) : Type := State -> State * result A.

Definition ret {A : Type} (a : A) : M A := fun st => (st, Ok a).

Definition bind {A B : Type} (m : M A) (k : A -> M B) : M B :=
  fun st =>
    match m st with
    | (st', Ok a) => k a st'
    | (st', Raise e) => (st', Raise e)
    end.

Declare Scope engine_scope.
Delimit Scope engine_scope with engine.
Notation "'do' x <- m 'in' k" := (bind m (fun x => k))
  (at level 10, x name, m at level 100, k at level 200) : engine_scope.
Notation "m >> k" := (bind m (fun _ => k))
  (at level 100, k at level 200, right associativity) : engine_scope.
Local Open Scope engine_scope.

(** Propagate the outcome of a computation that touches no object. *)
Definition lift {A : Type} (r : result A) : M A := fun st => (st, r).

(** Dereference [self.sales_df]. *)
Definition sales_frame : M DataFrame :=
  fun st => (st, Ok (default ∅ (objects st !! sales_df (engine st)))).

(** [self.sales_df[name] = values]. *)
Definition set_sales_col (name : string) (values : list cell) : M unit :=
  fun st =>
    let l := sales_df (engine st) in
    let df := default ∅ (objects st !! l) in
    (mkState (<[l := <[name := values]> df]> (objects st)) (engine st), Ok tt).

(** [self.insights.append(...)]. *)
Definition append (i : Insight) : M unit :=
  fun st =>
    let e := engine st in
    (mkState (objects st) (mkEngine (sales_df e) (forecast_df e) (insights e ++ [i])), Ok tt).

Definition append_all (l : list Insight) : M unit :=
  fun st =>
    let e := engine st in
    (mkState (objects st) (mkEngine (sales_df e) (forecast_df e) (insights e ++ l)), Ok tt).

(** [InsightEngine(sales_df, forecast_df)]: the sales frame is copied into a
    fresh object, the forecast frame is kept by reference. *)
Definition init (sales_arg : positive) (forecast_arg : option positive) (h : Heap) : State :=
  let l := fresh (dom h) in
  mkState (<[l := default ∅ (h !! sales_arg)]> h) (mkEngine l forecast_arg []).

Section WithFormats.

(** [pd.to_datetime] on one cell, reduced to the calendar day, and the two
    float format specifications of the descriptions, ['.1f'] and [',.2f']. *)
Variable to_datetime : cell -> result Calendar.date.
Variable fmt_1f : fnum -> string.
Variable fmt_2f : fnum -> string.

Local Open Scope string_scope.

(** The monthly totals of [analyze_trends]. *)
Definition monthly_sales (ds : list Calendar.date) (vals : list Q) : list Q :=
  map snd (groupby_sum Z.compare (zip (map Calendar.to_period_M ds) vals)).

Definition growth_rates (monthly : list Q) : list fnum :=
  map (fun x => fmul x (Fin 100)) (pct_change monthly).

Definition avg_growth (monthly : list Q) : fnum := series_mean (growth_rates monthly).

Definition recent_growth (monthly : list Q) : fnum :=
  series_mean (slice_from (-3) (growth_rates monthly)).

(** The trend rules, on the monthly totals. *)
Definition trend_insights (monthly : list Q) : list Insight :=
  let avg := avg_growth monthly in
  let recent := recent_growth monthly in
  (if fgt avg (Fin 5) then
     [mkInsight "Growth" "positive" "Strong Overall Growth"
        ("Average monthly growth rate is " ++ fmt_1f avg ++ "%")
        "Scale operations to meet increasing demand"]
   else if flt avg (Fin (-5)) then
     [mkInsight "Growth" "warning" "Declining Sales Trend"
        ("Average monthly decline of " ++ fmt_1f (fabs avg) ++ "%")
        "Review pricing, marketing, and product mix"]
   else [])
  ++
  (if fgt recent (fadd avg (Fin 5)) then
     [mkInsight "Growth" "positive" "Accelerating Growth"
        ("Recent growth (" ++ fmt_1f recent ++ "%) exceeds average ("
           ++ fmt_1f avg ++ "%)")
        "Invest in inventory and marketing to capitalize on momentum"]
   else []).

(** [analyze_trends()]. *)
Definition analyze_trends : M unit :=
  do df <- sales_frame in
  do col <- lift (get_col df "date") in
  do ds <- lift (mapM to_datetime col) in
  set_sales_col "date" (map CDate ds) >>
  do vals <- lift (float_col df "total_sales") in
  append_all (trend_insights (monthly_sales ds vals)).

(** [analyze_seasonality()]. *)
Definition analyze_seasonality : M unit :=
  do df <- sales_frame in
  do col <- lift (get_col df "date") in
  do ds <- lift (mapM to_datetime col) in
  let months := map Calendar.month ds in
  set_sales_col "month" (map CInt months) >>
  do vals <- lift (float_col df "total_sales") in
  let monthly_avg := groupby_mean Z.compare (zip months vals) in
  let peak_months := map fst (take 3 (sort_descending monthly_avg)) in
  let low_months := map fst (take 3 (sort_ascending monthly_avg)) in
  do peak_names <- lift (mapM month_name peak_months) in
  do low_names <- lift (mapM month_name low_months) in
  append (mkInsight "Seasonality" "info" "Peak Sales Periods"
            ("Highest sales occur in " ++ String.concat ", " peak_names)
            ("Increase inventory and staffing during " ++ String.concat ", " peak_names)) >>
  append (mkInsight "Seasonality" "info" "Low Sales Periods"
            ("Lowest sales occur in " ++ String.concat ", " low_names)
            ("Run promotions and marketing campaigns during "
               ++ String.concat ", " low_names)).

Definition first_row (l : list (string * Q)) : result (string * Q) :=
  match l with
  | x :: _ => Ok x
  | [] => Raise (IndexError "index 0 is out of bounds for axis 0 with size 0")
  end.

Definition last_row (l : list (string * Q)) : result (string * Q) :=
  match last l with
  | Some x => Ok x
  | None => Raise (IndexError "index -1 is out of bounds for axis 0 with size 0")
  end.

(** [analyze_products()]. *)
Definition analyze_products : M unit :=
  do df <- sales_frame in
  do keys <- lift (str_col df "product_category") in
  do vals <- lift (float_col df "total_sales") in
  let product_sales := ranked_totals keys vals in
  do top <- lift (first_row product_sales) in
  do bottom <- lift (last_row product_sales) in
  let '(top_product, top_revenue) := top in
  let '(bottom_product, bottom_revenue) := bottom in
  append (mkInsight "Products" "positive" (top_product ++ " - Top Performer")
            ("Generated ETB " ++ fmt_2f (Fin top_revenue) ++ " in total sales")
            ("Expand " ++ top_product
               ++ " product line and increase marketing investment")) >>
  let revenue_ratio := fdiv (Fin top_revenue) (Fin bottom_revenue) in
  if fgt revenue_ratio (Fin 10) then
    append (mkInsight "Products" "warning" (bottom_product ++ " - Underperforming")
              ("Only ETB " ++ fmt_2f (Fin bottom_revenue) ++ " in sales (vs ETB "
                 ++ fmt_2f (Fin top_revenue) ++ " for top product)")
              ("Consider discontinuing or repositioning " ++ bottom_product))
  else ret tt.

(** [analyze_regions()]. *)
Definition analyze_regions : M unit :=
  do df <- sales_frame in
  do keys <- lift (str_col df "region") in
  do vals <- lift (float_col df "total_sales") in
  let regional_sales := ranked_totals keys vals in
  do top <- lift (first_row regional_sales) in
  do bottom <- lift (last_row regional_sales) in
  let '(top_region, top_total) := top in
  let '(bottom_region, bottom_total) := bottom in
  append (mkInsight "Geography" "positive" (top_region ++ " - Top Regional Market")
            ("Leading region with ETB " ++ fmt_2f (Fin top_total) ++ " in sales")
            ("Use " ++ top_region ++ " as model for other regions")) >>
  append (mkInsight "Geography" "warning" (bottom_region ++ " - Growth Opportunity")
            ("Underdeveloped market with only ETB " ++ fmt_2f (Fin bottom_total))
            ("Increase marketing and distribution efforts in " ++ bottom_region)).

(** [analyze_customer_segments()]. *)
Definition analyze_customer_segments : M unit :=
  do df <- sales_frame in
  do keys <- lift (str_col df "customer_segment") in
  do vals <- lift (float_col df "total_sales") in
  let segment_sales := ranked_totals keys vals in
  do top <- lift (first_row segment_sales) in
  let '(top_segment, top_total) := top in
  append (mkInsight "Customers" "info" (top_segment ++ " - Primary Customer Base")
            (top_segment ++ " generates most revenue with ETB " ++ fmt_2f (Fin top_total))
            ("Develop loyalty programs and exclusive offers for "
               ++ top_segment ++ " customers")).

(** The forecast rule, on the two 30-day means. *)
Definition forecast_insight (recent_avg forecast_avg : fnum) : Insight :=
  let change_pct := fmul (fdiv (fsub forecast_avg recent_avg) recent_avg) (Fin 100) in
  if fgt change_pct (Fin 10) then
    mkInsight "Forecast" "positive" "Strong Growth Expected"
      ("Forecasted sales " ++ fmt_1f change_pct ++ "% higher than current levels")
      "Prepare for increased demand with inventory and staffing"
  else if flt change_pct (Fin (-10)) then
    mkInsight "Forecast" "warning" "Sales Decline Expected"
      ("Forecasted sales " ++ fmt_1f (fabs change_pct) ++ "% lower than current levels")
      "Implement promotional campaigns and review pricing strategy"
  else
    mkInsight "Forecast" "info" "Stable Sales Expected"
      "Forecasted sales remain within Â±10% of current levels"
      "Maintain current operations and monitor for changes".

(** [groupby('date')['total_sales'].sum()] on the engine's frame: the keys
    are timestamps once [analyze_trends] has run, and strings before. *)
Definition daily_totals (col : list cell) (vals : list Q) : result (list Q) :=
  match mapM as_date col with
  | Ok ds => Ok (map snd (groupby_sum Z.compare (zip ds vals)))
  | Raise _ =>
      keys ← mapM as_str col;
      Ok (map snd (groupby_sum String.compare (zip keys vals)))
  end.

(** The body of [analyze_forecast()] once [self.forecast_df] is known not to
    be [None]. *)
Definition analyze_forecast_with (fdf : DataFrame) : M unit :=
  do df <- sales_frame in
  do col <- lift (get_col df "date") in
  do vals <- lift (float_col df "total_sales") in
  do daily <- lift (daily_totals col vals) in
  let recent_avg := series_mean (map Fin (slice_from (-30) daily)) in
  do yh <- lift (float_col fdf "yhat") in
  let forecast_avg := series_mean (map Fin (slice_from (-30) yh)) in
  append (forecast_insight recent_avg forecast_avg).

(** [analyze_forecast()]. *)
Definition analyze_forecast : M unit :=
  fun st =>
    match forecast_df (engine st) with
    | None => (st, Ok tt)
    | Some fl => analyze_forecast_with (default ∅ (objects st !! fl)) st
    end.

(** [generate_all_insights()]: the list it returns is [self.insights]. *)
Definition generate_all_insights : M (list Insight) :=
  analyze_trends >>
  analyze_seasonality >>
  analyze_products >>
  analyze_regions >>
  analyze_customer_segments >>
  analyze_forecast >>
  (fun st => (st, Ok (insights (engine st)))).

End WithFormats.

(** ** A concrete date parser and formatters, to run the engine *)

Definition digit (a : Ascii.ascii) : option Z :=
  let n := Z.of_nat (Ascii.nat_of_ascii a) in
  if ((48 <=? n) && (n <=? 57))%Z then Some (n - 48)%Z else None.

Fixpoint digits (acc : Z) (l : list Ascii.ascii) : option Z :=
  match l with
  | [] => Some acc
  | a :: rest => d ← digit a; digits (acc * 10 + d)%Z rest
  end.

(** ['YYYY-MM-DD'] of an existing day. *)
Definition parse_iso_date (s : string) : option Calendar.date :=
  match String.list_ascii_of_string s with
  | [y1; y2; y3; y4; "-"%char; m1; m2; "-"%char; d1; d2] =>
      y ← digits 0 [y1; y2; y3; y4];
      m ← digits 0 [m1; m2];
      d ← digits 0 [d1; d2];
      let n := Calendar.days_from_civil y m d in
      if decide (Calendar.civil_from_days n = (y, m, d)) then Some n else None
  | _ => None
  end.

Definition iso_to_datetime (c : cell) : result Calendar.date :=
  match c with
  | CDate d => Ok d
  | CStr s =>
      match parse_iso_date s with
      | Some d => Ok d
      | None => Raise (ValueError "Unknown datetime string format")
      end
  | _ => Raise (TypeError "not convertible to datetime")
  end.

(** Fixed-point rendering with [places] decimals (no thousands separators);
    ['inf'] and ['nan'] as Python prints them. *)
Definition fmt_fixed (places : nat) (x : fnum) : string :=
  match x with
  | Fin q =>
      let scale := (10 ^ Z.of_nat places)%Z in
      let n := round_half_even (q * inject_Z scale) in
      let whole := pretty (Z.abs n / scale)%Z in
      let frac := pretty (scale + Z.abs n mod scale)%Z in
      ((if (n <? 0)%Z then "-" else "") ++ whole ++ "."
         ++ String.substring 1 places frac)%string
  | PInf => "inf"
  | NInf => "-inf"
  | NaN => "nan"
  end.

Example fmt_fixed_examples :
  (fmt_fixed 1 (Fin 12.345), fmt_fixed 2 (Fin (-3.005)), fmt_fixed 2 (Fin 1234.5), fmt_fixed 1 PInf)
  = ("12.3", "-3.00", "1234.50", "inf").
Proof. vm_compute. reflexivity. Qed.

Example parse_iso_date_ok : parse_iso_date "2020-02-29" = Some (Calendar.days_from_civil 2020 2 29).
Proof. reflexivity. Qed.

Example parse_iso_date_rejects : parse_iso_date "2021-02-29" = None.
Proof. reflexivity. Qed.

End InsightEngine.

(* ===================================================================== *)
(** * Properties of the generator *)
(* ===================================================================== *)

Module GeneratorProps.
Import PyNum Generator.
Local Open Scope Q_scope.

Lemma make_row_region tid d rg product segment base noisy :
  region (make_row tid d rg product segment base noisy) = rg.
Proof.
  unfold make_row.
  destruct (String.eqb segment "Wholesale"); [reflexivity|].
  destruct (String.eqb segment "Export"); reflexivity.
Qed.

Lemma round2_ge_70 (x : Q) : 70 <= x -> 70 <= round2 x.
Proof.
  intros H. assert (Hc : inject_Z 7000 / 100 == 70) by reflexivity.
  rewrite <- Hc. apply round2_ge. rewrite Hc. exact H.
Qed.

Lemma round2_ge_100 (x : Q) : 100 <= x -> 100 <= round2 x.
Proof.
  intros H. assert (Hc : inject_Z 10000 / 100 == 100) by reflexivity.
  rewrite <- Hc at 1. apply round2_ge. rewrite Hc. exact H.
Qed.

(** What the floor of 100 still guarantees after the two adjustments. *)
Lemma make_row_total tid d rg product segment base noisy :
  let t := make_row tid d rg product segment base noisy in
  70 <= total_sales t /\ (region t <> "Afar" -> 100 <= total_sales t).
Proof.
  intros t. subst t. rewrite make_row_region. unfold make_row.
  pose proof (py_max_lower 100 noisy) as Hfloor.
  set (a := py_max 100 noisy) in *.
  set (q0 := Z.max 1 (py_int (a / (inject_Z base / 10)))).
  destruct (String.eqb_spec rg "Addis Ababa") as [Ha|Ha];
    [|destruct (String.eqb_spec rg "Oromia") as [Ho|Ho];
      [|destruct (String.eqb_spec rg "Afar") as [Hf|Hf]]];
    (destruct (String.eqb segment "Wholesale");
      [|destruct (String.eqb segment "Export")]);
    simpl; (split; [apply round2_ge_70|intros Hne; try contradiction; apply round2_ge_100]);
    lra.
Qed.

(** C4 (as amended). Every generated transaction has [total_sales >= 70],
    which is the floor of 100 times the smallest regional factor (0.7, Afar);
    outside Afar the recorded total stays at or above the floor of 100. *)
Theorem total_sales_floor_after_adjustment
    (PyRng NpRng : Type) (randbelow : Z -> PyRng -> Z * PyRng)
    (normal : Q -> Q -> NpRng -> Q * NpRng) (np_sin_month : Z -> Q)
    (g : EthiopiaSalesDataGenerator) (w : World PyRng NpRng) :
  Forall (fun t => 70 <= total_sales t /\ (region t <> "Afar" -> 100 <= total_sales t))
    (fst (generate_sales_data PyRng NpRng randbelow normal np_sin_month g w)).
Proof.
  apply generate_sales_data_rows. intros. apply make_row_total.
Qed.

(** The first transaction of 2020-01-01 drawn as Afar / Injera / Retail with
    a noise factor of [1 - 7 * 0.15 < 0]: the amount is floored at 100 and the
    Afar factor then takes it to 70. *)
Definition afar_table : list Transaction :=
  tape_run (fun _ => [0; 6; 7; 0]%Z) (fun _ => [-7]%Q)
    (Calendar.days_from_civil 2020 1 1) (Calendar.days_from_civil 2020 1 1) 42
    (mkWorld _ _ [] []).

Example afar_table_rows : length afar_table = 5%nat.
Proof. reflexivity. Qed.

(** C4 (as stated) fails: a generated transaction records a total below 100. *)
Lemma total_sales_below_floor :
  exists t, In t afar_table /\ region t = "Afar" /\ total_sales t == 70 /\
            ~ 100 <= total_sales t.
Proof.
  eexists. split; [left; reflexivity|].
  split; [reflexivity|]. split; [vm_compute; reflexivity|].
  intros H. vm_compute in H. apply H. reflexivity.
Qed.

(** C5. Two runs of the generator with the same [(start_date, end_date, seed)]
    produce the same transaction table, row for row, whatever state the two
    global random sources were in before each run: the constructor reseeds
    both, and the table is a function of the seeded sources alone. *)
Theorem run_deterministic
    (PyRng NpRng : Type) (py_seed : Z -> PyRng) (np_seed : Z -> NpRng)
    (randbelow : Z -> PyRng -> Z * PyRng) (normal : Q -> Q -> NpRng -> Q * NpRng)
    (np_sin_month : Z -> Q)
    (start stop : Calendar.date) (sd : Z) (w1 w2 : World PyRng NpRng) :
  run PyRng NpRng py_seed np_seed randbelow normal np_sin_month start stop sd w1 =
  run PyRng NpRng py_seed np_seed randbelow normal np_sin_month start stop sd w2.
Proof. unfold run, init. reflexivity. Qed.

(** Reseeding is what makes the run repeatable: calling
    [generate_sales_data] a second time on the same object continues the
    random streams and yields another table. *)
Lemma generate_twice_differs :
  let tape := [0; 0; 0; 0; 0; 0; 0; 0; 0; 0; 0; 0; 0; 0; 0; 0; 0; 1]%Z in
  let '(g, w0) := init (list Z) (list Q) (fun _ => tape) (fun _ => [])
                    0%Z 0%Z 42%Z (mkWorld _ _ [] []) in
  let '(first, w1) := generate_sales_data _ _ tape_randbelow tape_normal sin_month_table g w0 in
  let '(second, _) := generate_sales_data _ _ tape_randbelow tape_normal sin_month_table g w1 in
  map region first <> map region second.
Proof. vm_compute. intros H. discriminate H. Qed.

Lemma round2_times_quantity (a : Q) (q : Z) :
  (1 <= q)%Z ->
  Qabs (round2 a - inject_Z q * round2 (a / inject_Z q)) <= inject_Z (q + 1) / 200.
Proof.
  intros Hq.
  assert (Hq' : 1 <= inject_Z q).
  { change 1 with (inject_Z 1). rewrite <- Zle_Qle. exact Hq. }
  assert (Hx : inject_Z q * (a / inject_Z q) == a).
  { apply Qmult_div_r. lra. }
  pose proof (round2_near a) as [Ht1 Ht2].
  pose proof (round2_near (a / inject_Z q)) as [Hu1 Hu2].
  set (x := a / inject_Z q) in *. set (u := round2 x) in *. set (t := round2 a) in *.
  rewrite inject_Z_plus. change (inject_Z 1) with 1.
  set (n := inject_Z q) in *.
  assert (Hup : n * u <= a + n * (1 # 200)) by nra.
  assert (Hlo : a - n * (1 # 200) <= n * u) by nra.
  unfold Qdiv. change (/ 200) with (1 # 200).
  apply Qabs_case; intros _; lra.
Qed.

Lemma make_row_quantity tid d rg product segment base noisy :
  let t := make_row tid d rg product segment base noisy in
  (1 <= quantity t)%Z /\
  Qabs (total_sales t - inject_Z (quantity t) * unit_price t)
    <= inject_Z (quantity t + 1) / 200.
Proof.
  intros t. subst t. unfold make_row.
  set (a := py_max 100 noisy).
  set (q0 := Z.max 1 (py_int (a / (inject_Z base / 10)))).
  assert (Hq0 : (1 <= q0)%Z) by (subst q0; lia).
  set (a1 := if String.eqb rg "Addis Ababa" then _ else _).
  destruct (String.eqb segment "Wholesale");
    [|destruct (String.eqb segment "Export")];
    simpl; (split; [lia | apply round2_times_quantity; lia]).
Qed.

(** C6 (as amended). Every generated transaction has [quantity >= 1], and its
    [total_sales] differs from [quantity * unit_price] by at most
    [0.005 * (quantity + 1)]: half a cent from rounding the total, and half
    a cent from rounding the unit price for each unit sold. *)
Theorem total_sales_quantity_unit_price
    (PyRng NpRng : Type) (randbelow : Z -> PyRng -> Z * PyRng)
    (normal : Q -> Q -> NpRng -> Q * NpRng) (np_sin_month : Z -> Q)
    (g : EthiopiaSalesDataGenerator) (w : World PyRng NpRng) :
  Forall (fun t =>
            (1 <= quantity t)%Z /\
            Qabs (total_sales t - inject_Z (quantity t) * unit_price t)
              <= inject_Z (quantity t + 1) / 200)
    (fst (generate_sales_data PyRng NpRng randbelow normal np_sin_month g w)).
Proof.
  apply generate_sales_data_rows. intros. apply make_row_quantity.
Qed.

(** The first transaction of 2020-06-01 (a Monday in a month without
    seasonal factor) drawn as Amhara / Injera / Export with a noise factor of
    exactly 1: the amount is 1000, the quantity 10, and the export adjustment
    makes them 2000 and 30. *)
Definition export_table : list Transaction :=
  tape_run (fun _ => [0; 2; 7; 2]%Z) (fun _ => [0]%Q)
    (Calendar.days_from_civil 2020 6 1) (Calendar.days_from_civil 2020 6 1) 42
    (mkWorld _ _ [] []).

(** C6 (as stated) fails: 30 units at a unit price of 66.67 make 2000.10,
    the recorded total is 2000.00; the two differ by ten cents. *)
Lemma total_sales_not_quantity_times_price :
  exists t, In t export_table /\
            quantity t = 30%Z /\ unit_price t == 66.67 /\ total_sales t == 2000 /\
            round2 (inject_Z (quantity t) * unit_price t) == 2000.10 /\
            ~ Qabs (total_sales t - round2 (inject_Z (quantity t) * unit_price t)) <= 0.01.
Proof.
  eexists. split; [left; reflexivity|].
  split; [reflexivity|]. do 3 (split; [vm_compute; reflexivity|]).
  intros H. vm_compute in H. apply H. reflexivity.
Qed.

End GeneratorProps.

(* ===================================================================== *)
(** * Properties of the aggregation *)
(* ===================================================================== *)

Module AggregationProps.
Import Frame.
Local Open Scope Q_scope.

Section GroupSum.
Context {K : Type} (cmp : K -> K -> comparison).

Lemma group_insert_sum (k : K) (v : Q) (acc : list (K * Q)) :
  Qsum (map snd (group_insert cmp Qplus k v acc)) == Qsum (map snd acc) + v.
Proof.
  induction acc as [|[k' v'] rest IH]; simpl.
  - lra.
  - destruct (cmp k k'); simpl.
    + lra.
    + lra.
    + rewrite IH. lra.
Qed.

Lemma groupby_sum_from (rows acc : list (K * Q)) :
  Qsum (map snd (fold_left (fun a kv => group_insert cmp Qplus (fst kv) (snd kv) a) rows acc))
  == Qsum (map snd acc) + Qsum (map snd rows).
Proof.
  revert acc. induction rows as [|[k v] rows IH]; intros acc; simpl.
  - lra.
  - rewrite IH, group_insert_sum. lra.
Qed.

Lemma groupby_sum_total (rows : list (K * Q)) :
  Qsum (map snd (groupby_sum cmp rows)) == Qsum (map snd rows).
Proof.
  unfold groupby_sum, groupby. rewrite groupby_sum_from. simpl. lra.
Qed.

End GroupSum.

(** The groups of the daily series come out in strictly increasing date
    order, one entry per day that has a transaction. *)
Lemma group_insert_sorted (k : Z) (v : Q) (acc : list (Z * Q)) :
  StronglySorted Z.lt (map fst acc) ->
  StronglySorted Z.lt (map fst (group_insert Z.compare Qplus k v acc)) /\
  (forall x, In x (map fst (group_insert Z.compare Qplus k v acc)) ->
             x = k \/ In x (map fst acc)).
Proof.
  induction acc as [|[k' v'] rest IH]; intros Hs; simpl.
  - split; [repeat constructor|]. intros x [Hx|[]]; auto.
  - inversion Hs as [|? ? Hrest Hall]; subst.
    destruct (Z.compare_spec k k') as [He|Hl|Hg]; simpl.
    + subst. split; [assumption|]. intros x Hx. right. exact Hx.
    + split.
      * constructor; [assumption|]. constructor; [assumption|].
        eapply Forall_impl; [exact Hall|]. intros; simpl in *; lia.
      * intros x [Hx|Hx]; auto.
    + destruct (IH Hrest) as [IHs IHin]. split.
      * constructor; [assumption|].
        apply Forall_forall. intros x Hx. apply list_elem_of_In in Hx.
        destruct (IHin x Hx) as [->|Hx']; [lia|].
        rewrite Forall_forall in Hall. apply Hall. apply list_elem_of_In. exact Hx'.
      * intros x [Hx|Hx]; [right; left; exact Hx|].
        destruct (IHin x Hx) as [->|Hx']; [left; reflexivity | right; right; exact Hx'].
Qed.

Lemma daily_sales_dates_increasing (df : list Transaction) :
  StronglySorted Z.lt (map fst (daily_sales df)).
Proof.
  unfold daily_sales, groupby_sum, groupby.
  assert (H0 : StronglySorted Z.lt (map fst ([] : list (Z * Q)))) by constructor.
  revert H0. generalize ([] : list (Z * Q)).
  induction (map (fun t => (date t, total_sales t)) df) as [|[k v] rows IH];
    intros acc Hacc; simpl; [assumption|].
  apply IH. apply group_insert_sorted. exact Hacc.
Qed.

(** C7 (as amended). With the amounts taken as exact numbers, summing the
    daily series obtained by [groupby('date')['total_sales'].sum()] over a
    whole transaction table gives the sum of [total_sales] over all its
    transactions: the aggregation drops no amount and counts none twice.
    (The doubles the code computes agree only up to rounding, see below.) *)
Theorem daily_sales_sum_preserved (df : list Transaction) :
  Qsum (map snd (daily_sales df)) == Qsum (map total_sales df).
Proof.
  unfold daily_sales. rewrite groupby_sum_total.
  rewrite map_map. simpl. reflexivity.
Qed.

(** ** The same sums in double precision *)

(** C7 (as stated) fails on the doubles: for sales of 0.1, 100.01 and 1.1,
    the first and the last on one day, the direct sum (0.1 + 100.01) + 1.1
    is 101.21, and the sum (0.1 + 1.1) + 100.01 of the daily series is
    another double (101.21000000000001). *)
Lemma daily_sales_sum_differs_in_doubles :
  PrimFloat.eqb (Doubles.double_sum (map snd Doubles.three_sales)) Doubles.sum_101_21 = true /\
  PrimFloat.eqb (Doubles.double_sum (map snd (Doubles.daily_sales Doubles.three_sales)))
                Doubles.sum_101_21 = false /\
  PrimFloat.eqb (Doubles.double_sum (map snd (Doubles.daily_sales Doubles.three_sales)))
                (Doubles.double_sum (map snd Doubles.three_sales)) = false.
Proof. repeat split; vm_compute; reflexivity. Qed.

End AggregationProps.

(* ===================================================================== *)
(** * Properties of the percentage error *)
(* ===================================================================== *)

Module NumpyProps.
Import Float Numpy.
Local Open Scope Q_scope.

























(** ** What [mape] returns *)



End NumpyProps.

(* ===================================================================== *)
(** * Stand-ins for the libraries, to run the wrappers *)
(* ===================================================================== *)

Module Naive.
Import Float.

(** A naive forecaster in place of Prophet: fitting keeps the series (and,
    like Prophet, refuses fewer than two rows), the future frame appends
    [periods] days to the history, and every prediction is the last observed
    value with a band of one either side. *)
Definition last_value (series : list (Calendar.date * Q)) : Q :=
  match last series with
  | Some (_, y) => y
  | None => 0%Q
  end.

Definition prophet : Prophet.Lib :=
  {| Prophet.Fitted := list (Calendar.date * Q);
     Prophet.fit := fun _ series =>
       if (length series <? 2)%nat
       then Raise (ValueError "Dataframe has less than 2 non-NaN rows.")
       else Ok series;
     Prophet.future_dates := fun series periods =>
       match last series with
       | Some (d, _) =>
           Ok (map fst series
                 ++ map (fun i => (d + 1 + Z.of_nat i)%Z) (seq 0 (Z.to_nat periods)))
       | None => Ok []
       end;
     Prophet.predict_fitted := fun series future =>
       let v := last_value series in
       Ok (map (fun d => Prophet.mkForecastRow d v (v - 1)%Q (v + 1)%Q) future) |}.

(** Square root to six decimal places, and the coefficient of determination
    [1 - SS_res / SS_tot]. *)
Definition sqrt6 (x : fnum) : fnum :=
  match x with
  | Fin q => if Qle_bool 0 q
             then Fin (inject_Z (Z.sqrt (Qfloor (q * 1000000000000))) / 1000000)
             else NaN
  | PInf => PInf
  | _ => NaN
  end.

Definition r2 (y_true y_pred : list fnum) : fnum :=
  let m := np_mean y_true in
  let sq := fun d => fmul d d in
  let ss_res := fsum (zip_with (fun t p => sq (fsub t p)) y_true y_pred) in
  let ss_tot := fsum (map (fun t => sq (fsub t m)) y_true) in
  fsub (Fin 1) (fdiv ss_res ss_tot).

Definition numpy : Numpy.Lib := {| Numpy.np_sqrt := sqrt6; Numpy.r2_score := r2 |}.

(** A table with one transaction per day from 2020-01-01 on, of the given
    totals. *)
Definition table_of (totals : list Q) : list Transaction :=
  imap (fun i v =>
          mkTransaction (1000 + Z.of_nat i)%Z
            (Calendar.days_from_civil 2020 1 1 + Z.of_nat i)%Z
            "Amhara" "Coffee" "Retail" 1%Z v v "ETB")
       totals.

End Naive.

(* ===================================================================== *)
(** * Properties of the forecaster *)
(* ===================================================================== *)

Module ForecasterProps.
Import Float Frame Numpy NumpyProps SalesForecaster.
Local Open Scope Q_scope.





Section WithLibraries.
Context `{PL : Prophet.Lib} `{NL : Numpy.Lib}.

Lemma forecast_untrained (periods : Z) (self : SalesForecaster) :
  model self = None ->
  forecast periods self = Raise (ValueError "Model not trained. Call train_model() first.").
Proof. intros H. unfold forecast. rewrite H. reflexivity. Qed.

Lemma evaluate_model_untrained (self : SalesForecaster) :
  model self = None ->
  exists e, evaluate_model self = Raise e /\
            e <> ValueError "Model not trained. Call train_model() first.".
Proof.
  intros H. unfold evaluate_model. rewrite H.
  destruct (df_train self); simpl; [|eexists; split; [reflexivity | discriminate]].
  destruct (df_test self); simpl; eexists; (split; [reflexivity | discriminate]).
Qed.

(** C2. Before training, [forecast] fails with the "Model not trained" error,
    but [evaluate_model] does not: on a fresh forecaster, and on one whose
    data is prepared, it fails with an [AttributeError] on [None]. *)
Theorem evaluate_model_untrained_attribute_error (df : list Transaction) (test_size periods : Z) :
  forecast periods new = Raise (ValueError "Model not trained. Call train_model() first.") /\
  forecast periods (prepare_data df test_size new)
    = Raise (ValueError "Model not trained. Call train_model() first.") /\
  evaluate_model new = Raise (AttributeError "'NoneType' object has no attribute 'copy'") /\
  evaluate_model (prepare_data df test_size new)
    = Raise (AttributeError "'NoneType' object has no attribute 'predict'").
Proof. repeat split. Qed.

End WithLibraries.

End ForecasterProps.

(* ===================================================================== *)
(** * Properties of the evaluation metrics *)
(* ===================================================================== *)

Module MetricsProps.
Import Float Frame Numpy NumpyProps ForecasterProps.
Local Open Scope Q_scope.

Section WithLibraries.
Context `{PL : Prophet.Lib} `{NL : Numpy.Lib}.








End WithLibraries.

(** ** Tables with a day that sold nothing *)









End MetricsProps.

(* ===================================================================== *)
(** * Properties of the forecasting service *)
(* ===================================================================== *)

Module ServiceProps.
Import Float Frame Numpy PyNum ForecastingService.
Local Open Scope Q_scope.

Lemma filter_none {A : Type} (P : A -> bool) (l : list A) :
  Forall (fun x => P x = false) l -> filter (fun x => P x) l = [].
Proof.
  induction 1 as [|x l Hx Hl IH]; [reflexivity|].
  rewrite filter_cons. destruct (decide (P x)) as [Hp|Hp]; [|exact IH].
  rewrite Hx in Hp. contradiction.
Qed.

Lemma Forall_filter_keep {A : Type} (P : A -> Prop) (f : A -> bool) (l : list A) :
  Forall P l -> Forall P (filter (fun x => f x) l).
Proof.
  induction 1 as [|x l Hx Hl IH]; [constructor|].
  rewrite filter_cons. destruct (decide (f x)); [constructor|]; assumption.
Qed.

Lemma daily_sales_empty : daily_sales [] = [].
Proof. reflexivity. Qed.

Section WithLibraries.
Context `{PL : Prophet.Lib}.

Lemma filter_by_nil (proj : Transaction -> string) (arg : option string) :
  filter_by proj arg [] = [].
Proof. unfold filter_by. destruct arg; [destruct (truthy _)|]; reflexivity. Qed.

(** Filtering on a category no transaction has leaves nothing, also after
    any date filter. *)
Lemma filter_by_absent (c : string) (table : list Transaction) :
  c <> "" -> Forall (fun t => product_category t <> c) table ->
  filter_by product_category (Some c) table = [].
Proof.
  intros Hc Habs. unfold filter_by, truthy.
  destruct (String.eqb_spec c ""); [contradiction|]. simpl.
  apply filter_none. eapply Forall_impl; [exact Habs|].
  intros t Ht. simpl in Ht. destruct (String.eqb_spec (product_category t) c); congruence.
Qed.

(** A filter that matches nothing in a table matches nothing in a part of
    it, such as the rows within a date range. *)
Lemma filter_by_part (proj : Transaction -> string) (arg : option string)
    (f : Transaction -> bool) (table : list Transaction) :
  filter_by proj arg table = [] -> filter_by proj arg (filter (fun t => f t) table) = [].
Proof.
  unfold filter_by. destruct arg as [x|]; [destruct (truthy (Some x))|].
  - induction table as [|t table IH]; [reflexivity|].
    rewrite !filter_cons. destruct (decide (String.eqb (proj t) x)) as [Hp|Hp]; [discriminate|].
    intros H. destruct (decide (f t)); [rewrite filter_cons, decide_False by exact Hp|];
      apply IH; exact H.
  - intros ->. reflexivity.
  - intros ->. reflexivity.
Qed.

(** C1 (as amended). No request checks for an empty filter result.  When
    the category filter matches no transaction, a historical-data request
    succeeds with empty [dates] and [sales] lists, whether or not a model
    has been trained.  When the category and region filters together match
    no transaction, a forecast request hands the empty daily series to
    Prophet's [fit] and fails with whatever [fit] raises. *)
Theorem empty_filter_result
    (self : ForecastingService) (table : list Transaction)
    (start stop : option Calendar.date) (periods : Z) (category rg : option string)
    (Hloaded : df self = Some table) :
  (filter_by product_category category table = [] ->
   get_historical_data start stop category self = Ok (mkHistorical [] [])) /\
  (model_trained self = true ->
   truthy category || truthy rg = true ->
   filter_by region rg (filter_by product_category category table) = [] ->
   forall e, Prophet.fit filtered_config [] = Raise e ->
             generate_forecast periods category rg self = Raise e).
Proof.
  split.
  - intros Hempty. unfold get_historical_data, read_df. rewrite Hloaded.
    cbn [mbind result_bind].
    assert (H : filter_by product_category category
                  (match stop with
                   | Some d => filter (fun t => (date t <=? d)%Z)
                                 (match start with
                                  | Some d0 => filter (fun t => (d0 <=? date t)%Z) table
                                  | None => table
                                  end)
                   | None => match start with
                             | Some d0 => filter (fun t => (d0 <=? date t)%Z) table
                             | None => table
                             end
                   end) = []).
    { destruct stop, start; repeat apply filter_by_part; exact Hempty. }
    destruct stop, start; cbn beta iota in H |- *; rewrite H; reflexivity.
  - intros Htrained Hfilter Hempty e He. unfold generate_forecast, read_df.
    rewrite Htrained, Hloaded. cbn [negb mbind result_bind].
    rewrite Hfilter, Hempty, daily_sales_empty, He. reflexivity.
Qed.


End WithLibraries.

(** ** A table that sells coffee only *)

Definition coffee_table : list Transaction := Naive.table_of [10; 20; 30].

Definition coffee_service : @ForecastingService Naive.prophet :=
  fst (@train_model Naive.prophet
         (@load_data Naive.prophet (Ok coffee_table) (@new Naive.prophet))).

(** C1 (as stated) fails: asking for the history of a category the table
    does not have is answered with an empty series, not with an error. *)
Lemma absent_category_history_is_empty_success :
  @get_historical_data Naive.prophet None None (Some "Gold") coffee_service
    = Ok (mkHistorical [] []) /\
  is_ok (@get_historical_data Naive.prophet None None (Some "Gold") coffee_service) = true.
Proof. split; reflexivity. Qed.

(** The theorem on the coffee table: the history of the category "Gold" is
    empty, and a forecast for the category "Gold" or for the region "Mars"
    fails inside the stand-in's [fit]. *)
Lemma empty_filter_result_witness :
  @get_historical_data Naive.prophet None None (Some "Gold") coffee_service
    = Ok (mkHistorical [] []) /\
  @generate_forecast Naive.prophet 30 (Some "Gold") None coffee_service
    = Raise (ValueError "Dataframe has less than 2 non-NaN rows.") /\
  @generate_forecast Naive.prophet 30 None (Some "Mars") coffee_service
    = Raise (ValueError "Dataframe has less than 2 non-NaN rows.").
Proof.
  destruct (@empty_filter_result Naive.prophet coffee_service coffee_table
              None None 30 (Some "Gold") None eq_refl) as [Hh Hf].
  destruct (@empty_filter_result Naive.prophet coffee_service coffee_table
              None None 30 None (Some "Mars") eq_refl) as [_ Hr].
  split; [apply Hh; reflexivity|].
  split; [apply Hf | apply Hr]; reflexivity.
Defined.


(** What [generate_forecast(periods=2)] returns on the coffee service. *)
Definition coffee_response : @ForecastResponse :=
  Eval vm_compute in
    match @generate_forecast Naive.prophet 2 None None coffee_service with
    | Ok r => r
    | Raise _ => mkResponse [] [] [] [] (mkResponseMetrics NaN NaN NaN NaN)
    end.


(** ** A library whose band does not contain its estimate *)




End ServiceProps.

(* ===================================================================== *)
(** * Properties of the insight engine *)
(* ===================================================================== *)

Module InsightProps.
Import Float Frame InsightEngine.

(** ** Invariants of the engine's methods

    A relation [R] between the state before and the state after, kept by
    every primitive step, is kept by every method; [P] is what the relation
    asks of an appended insight. *)
Section StepInvariant.
Variable R : State -> State -> Prop.
Variable P : Insight -> Prop.
Hypothesis R_refl : forall st, R st st.
Hypothesis R_trans : forall a b c, R a b -> R b c -> R a c.
Hypothesis R_set : forall name values st, R st (fst (set_sales_col name values st)).
Hypothesis R_append : forall l st, Forall P l -> R st (fst (append_all l st)).
Hypothesis P_other : forall i, category i <> "Growth" -> P i.

Definition respects {A : Type} (m : M A) : Prop := forall st, R st (fst (m st)).

Lemma respects_ret {A : Type} (a : A) : respects (ret a).
Proof. intros st. apply R_refl. Qed.

Lemma respects_lift {A : Type} (r : result A) : respects (lift r).
Proof. intros st. apply R_refl. Qed.

Lemma respects_sales_frame : respects sales_frame.
Proof. intros st. apply R_refl. Qed.

Lemma respects_set (name : string) (values : list cell) : respects (set_sales_col name values).
Proof. intros st. apply R_set. Qed.

Lemma respects_append (i : Insight) : P i -> respects (append i).
Proof. intros Hi st. apply (R_append [i] st). constructor; [exact Hi | constructor]. Qed.

Lemma respects_append_all (l : list Insight) : Forall P l -> respects (append_all l).
Proof. intros Hl st. apply R_append. exact Hl. Qed.

Lemma respects_bind {A B : Type} (m : M A) (k : A -> M B) :
  respects m -> (forall a, respects (k a)) -> respects (bind m k).
Proof.
  intros Hm Hk st. unfold bind. specialize (Hm st).
  destruct (m st) as [st' [a|e]]; simpl in *.
  - eapply R_trans; [exact Hm | apply Hk].
  - exact Hm.
Qed.

Ltac respects_step :=
  first
    [ apply respects_ret
    | apply respects_lift
    | apply respects_sales_frame
    | apply respects_set
    | apply respects_append; apply P_other; simpl; discriminate
    | apply respects_bind; [|intros ?]
    | match goal with
      | |- respects (let '(_, _) := ?x in _) => destruct x
      | |- respects (if ?c then _ else _) => destruct c
      end ].

Variable to_datetime : cell -> result Calendar.date.
Variable fmt_1f : fnum -> string.
Variable fmt_2f : fnum -> string.

Lemma analyze_seasonality_respects : respects (analyze_seasonality to_datetime).
Proof. unfold analyze_seasonality. repeat respects_step. Qed.

Lemma analyze_products_respects : respects (analyze_products fmt_2f).
Proof. unfold analyze_products. repeat respects_step. Qed.

Lemma analyze_regions_respects : respects (analyze_regions fmt_2f).
Proof. unfold analyze_regions. repeat respects_step. Qed.

Lemma analyze_customer_segments_respects : respects (analyze_customer_segments fmt_2f).
Proof. unfold analyze_customer_segments. repeat respects_step. Qed.

Lemma forecast_insight_category (recent_avg forecast_avg : fnum) :
  category (forecast_insight fmt_1f recent_avg forecast_avg) = "Forecast".
Proof.
  unfold forecast_insight. destruct (fgt _ _); [reflexivity|].
  destruct (flt _ _); reflexivity.
Qed.

Lemma analyze_forecast_respects : respects (analyze_forecast fmt_1f).
Proof.
  intros st. unfold analyze_forecast.
  destruct (forecast_df (engine st)) as [fl|]; [|apply R_refl].
  generalize (default (∅ : DataFrame) (objects st !! fl)). intros fdf. revert st.
  change (respects (analyze_forecast_with fmt_1f fdf)).
  unfold analyze_forecast_with. repeat respects_step.
  apply respects_append, P_other. rewrite forecast_insight_category. discriminate.
Qed.

(** Everything [generate_all_insights] runs after [analyze_trends]. *)
Definition after_trends : M (list Insight) :=
  (analyze_seasonality to_datetime >>
   analyze_products fmt_2f >>
   analyze_regions fmt_2f >>
   analyze_customer_segments fmt_2f >>
   analyze_forecast fmt_1f >>
   (fun st => (st, Ok (insights (engine st)))))%engine.

Lemma after_trends_respects : respects after_trends.
Proof.
  unfold after_trends.
  apply respects_bind; [apply analyze_seasonality_respects | intros _].
  apply respects_bind; [apply analyze_products_respects | intros _].
  apply respects_bind; [apply analyze_regions_respects | intros _].
  apply respects_bind; [apply analyze_customer_segments_respects | intros _].
  apply respects_bind; [apply analyze_forecast_respects | intros _].
  intros st. apply R_refl.
Qed.

Lemma generate_all_insights_unfold :
  generate_all_insights to_datetime fmt_1f fmt_2f
  = bind (analyze_trends to_datetime fmt_1f) (fun _ => after_trends).
Proof. reflexivity. Qed.

(** With no condition on the appended insights, [analyze_trends] and the
    whole pass keep the relation too. *)
Hypothesis P_all : forall i, P i.

Lemma analyze_trends_respects : respects (analyze_trends to_datetime fmt_1f).
Proof.
  unfold analyze_trends. repeat respects_step.
  apply respects_append_all. apply Forall_forall. intros i _. apply P_all.
Qed.

Lemma generate_all_insights_respects :
  respects (generate_all_insights to_datetime fmt_1f fmt_2f).
Proof.
  rewrite generate_all_insights_unfold.
  apply respects_bind; [apply analyze_trends_respects | intros _; apply after_trends_respects].
Qed.

End StepInvariant.

(** ** Frames of the caller *)

(** The engine keeps its reference, and no object but the one it refers to
    changes. *)
Definition same_frames (st st' : State) : Prop :=
  sales_df (engine st') = sales_df (engine st) /\
  forall l, l <> sales_df (engine st) -> objects st' !! l = objects st !! l.

Lemma same_frames_refl (st : State) : same_frames st st.
Proof. split; [reflexivity | intros; reflexivity]. Qed.

Lemma same_frames_trans (a b c : State) :
  same_frames a b -> same_frames b c -> same_frames a c.
Proof.
  intros [Hab1 Hab2] [Hbc1 Hbc2]. split; [congruence|].
  intros l Hl. rewrite Hbc2, Hab2; [reflexivity | exact Hl | congruence].
Qed.

Lemma same_frames_set (name : string) (values : list cell) (st : State) :
  same_frames st (fst (set_sales_col name values st)).
Proof.
  split; [reflexivity|]. intros l Hl. simpl. rewrite lookup_insert_ne; [reflexivity|].
  congruence.
Qed.

Lemma same_frames_append (l : list Insight) (st : State) :
  Forall (fun _ => True) l -> same_frames st (fst (append_all l st)).
Proof. intros _. split; [reflexivity | intros; reflexivity]. Qed.

Lemma init_sales_df_fresh (sales_arg : positive) (forecast_arg : option positive) (h : Heap) :
  h !! sales_df (engine (init sales_arg forecast_arg h)) = None.
Proof. simpl. apply not_elem_of_dom. apply is_fresh. Qed.

(** C10. Generating insights leaves every frame of the caller as it was: the
    constructor copies the sales frame into a fresh object, and the date
    conversion and the month column of [analyze_trends] and
    [analyze_seasonality] are written to that copy only, whether the pass
    ends normally or raises. *)
Theorem generate_all_insights_leaves_caller_frames
    (to_datetime : cell -> result Calendar.date) (fmt_1f fmt_2f : fnum -> string)
    (h : Heap) (sales_arg : positive) (forecast_arg : option positive)
    (l : positive) (df : DataFrame)
    (Hframe : h !! l = Some df) :
  objects (fst (generate_all_insights to_datetime fmt_1f fmt_2f
                  (init sales_arg forecast_arg h))) !! l = Some df.
Proof.
  pose proof (generate_all_insights_respects same_frames (fun _ => True)
                same_frames_refl same_frames_trans same_frames_set same_frames_append
                (fun _ _ => I) to_datetime fmt_1f fmt_2f (fun _ => I)
                (init sales_arg forecast_arg h)) as [_ Hsame].
  assert (Hne : l <> sales_df (engine (init sales_arg forecast_arg h))).
  { intros ->. rewrite init_sales_df_fresh in Hframe. discriminate Hframe. }
  rewrite (Hsame l Hne). simpl. rewrite lookup_insert_ne; [exact Hframe|].
  intros E. apply Hne. simpl. symmetry. exact E.
Qed.

(** A frame as [pd.read_csv] returns it: the dates are still strings. *)
Definition csv_frame : DataFrame :=
  list_to_map
    [("date", [CStr "2020-01-15"; CStr "2020-02-15"; CStr "2020-03-15"]);
     ("region", [CStr "Amhara"; CStr "Afar"; CStr "Amhara"]);
     ("product_category", [CStr "Coffee"; CStr "Teff"; CStr "Coffee"]);
     ("customer_segment", [CStr "Retail"; CStr "Retail"; CStr "Export"]);
     ("total_sales", [CFloat 100; CFloat 101; CFloat 102])].

Definition csv_heap : Heap := {[ 1%positive := csv_frame ]}.

(** The theorem on a heap holding that frame alone. *)
Lemma generate_all_insights_leaves_caller_frames_witness :
  objects (fst (generate_all_insights iso_to_datetime (fmt_fixed 1) (fmt_fixed 2)
                  (init 1%positive None csv_heap))) !! 1%positive = Some csv_frame.
Proof.
  exact (generate_all_insights_leaves_caller_frames iso_to_datetime (fmt_fixed 1) (fmt_fixed 2)
           csv_heap 1%positive None 1%positive csv_frame eq_refl).
Defined.

(** The pass does write: the engine's copy ends with timestamps in its date
    column and with a month column. *)
Lemma working_copy_is_rewritten :
  let final := fst (generate_all_insights iso_to_datetime (fmt_fixed 1) (fmt_fixed 2)
                      (init 1%positive None csv_heap)) in
  let copy := default ∅ (objects final !! sales_df (engine final)) in
  sales_df (engine final) <> 1%positive /\
  copy !! "month" = Some [CInt 1; CInt 2; CInt 3] /\
  copy !! "date" = Some [CDate (Calendar.days_from_civil 2020 1 15);
                         CDate (Calendar.days_from_civil 2020 2 15);
                         CDate (Calendar.days_from_civil 2020 3 15)] /\
  csv_frame !! "month" = None.
Proof. vm_compute. repeat split; intros H; discriminate H. Qed.

(** Without the copy the same writes would land in the caller's frame. *)
Lemma shared_frame_would_be_rewritten :
  let aliased := mkState csv_heap (mkEngine 1%positive None []) in
  objects (fst (analyze_trends iso_to_datetime (fmt_fixed 1) aliased)) !! 1%positive
    <> Some csv_frame.
Proof.
  intros aliased H.
  apply (f_equal (fun o : option DataFrame => (default ∅ o) !! "date")) in H.
  vm_compute in H. discriminate H.
Qed.

(** ** Insights of the other analyses *)






(** ** The trend rules on a growing series *)

Local Open Scope Q_scope.












(** ** The whole pass on a growing series *)

Section Growing.
Variable to_datetime : cell -> result Calendar.date.
Variable fmt_1f : fnum -> string.
Variable fmt_2f : fnum -> string.



End Growing.

(** ** Two tables with one sale per month *)






End InsightProps.

(* ===================================================================== *)
(** * Further properties of the generator *)
(* ===================================================================== *)

Module GeneratorExtras.
Import PyNum Generator.

Section WithRandomSources.
Variables PyRng NpRng : Type.
Variable randbelow : Z -> PyRng -> Z * PyRng.
Variable normal : Q -> Q -> NpRng -> Q * NpRng.
Variable np_sin_month : Z -> Q.

Local Abbreviation gen_transaction :=
  (gen_transaction PyRng NpRng randbelow normal np_sin_month).
Local Abbreviation gen_day := (gen_day PyRng NpRng randbelow normal np_sin_month).
Local Abbreviation gen_date := (gen_date PyRng NpRng randbelow normal np_sin_month).
Local Abbreviation generate_sales_data :=
  (generate_sales_data PyRng NpRng randbelow normal np_sin_month).
Local Abbreviation LoopState := (LoopState PyRng NpRng).
Local Abbreviation data := (data PyRng NpRng).
Local Abbreviation next_id := (next_id PyRng NpRng).

(** ** Transaction ids *)

Definition ids_from (n : nat) : list Z := map (fun i => (1000 + Z.of_nat i)%Z) (seq 0 n).

(** The next id is 1000 plus the number of rows, and the rows carry the ids
    before it in order. *)
Definition numbered (s : LoopState) : Prop :=
  next_id s = (1000 + Z.of_nat (length (data s)))%Z /\
  map transaction_id (data s) = ids_from (length (data s)).

Lemma make_row_id tid d rg product segment base noisy :
  transaction_id (make_row tid d rg product segment base noisy) = tid.
Proof.
  unfold make_row.
  destruct (String.eqb segment "Wholesale"); [reflexivity|].
  destruct (String.eqb segment "Export"); reflexivity.
Qed.

Lemma make_row_date tid d rg product segment base noisy :
  date (make_row tid d rg product segment base noisy) = d.
Proof.
  unfold make_row.
  destruct (String.eqb segment "Wholesale"); [reflexivity|].
  destruct (String.eqb segment "Export"); reflexivity.
Qed.

Lemma make_row_fields tid d rg product segment base noisy :
  let t := make_row tid d rg product segment base noisy in
  product_category t = product /\ customer_segment t = segment /\ currency t = "ETB".
Proof.
  unfold make_row.
  destruct (String.eqb segment "Wholesale"); [repeat split|].
  destruct (String.eqb segment "Export"); repeat split.
Qed.

(** What one pass of the inner loop yields, with the three draws named. *)
Lemma gen_transaction_is_row g d dfs tid w :
  exists rg product segment base noisy,
    fst (gen_transaction g d dfs tid w) = make_row tid d rg product segment base noisy /\
    rg = fst (choice PyRng randbelow (regions g) (py_rng _ _ w)) /\
    (exists r, product = fst (choice PyRng randbelow (product_categories g) r)) /\
    (exists r, segment = fst (choice PyRng randbelow (customer_segments g) r)).
Proof.
  unfold Generator.gen_transaction.
  destruct (choice PyRng randbelow (regions g) (py_rng _ _ w)) as [rg r1] eqn:E1.
  destruct (choice PyRng randbelow (product_categories g) r1) as [product r2] eqn:E2.
  destruct (choice PyRng randbelow (customer_segments g) r2) as [segment r3] eqn:E3.
  destruct (add_noise _ _ _ (np_rng _ _ w)) as [amount n1]. simpl.
  exists rg, product, segment, (default 5000%Z (base_amounts !! product)), amount.
  split; [reflexivity|]. split; [reflexivity|]. split.
  - exists r1. rewrite E2. reflexivity.
  - exists r2. rewrite E3. reflexivity.
Qed.

Lemma gen_day_numbered g d dfs n s :
  numbered s -> numbered (gen_day g d dfs n s).
Proof.
  revert s. induction n as [|n IH]; intros s [Hn Hm]; simpl; [split; assumption|].
  destruct (gen_transaction_is_row g d dfs (next_id s) (Generator.world _ _ s))
    as (rg & product & segment & base & noisy & Hrow & _).
  destruct (gen_transaction g d dfs (next_id s) (Generator.world _ _ s)) as [row w'].
  simpl in Hrow. subst row. apply IH. split; simpl.
  - rewrite length_app. simpl. lia.
  - rewrite map_app, length_app. simpl. rewrite make_row_id, Hm, Hn.
    unfold ids_from. rewrite Nat.add_1_r, seq_S, map_app. reflexivity.
Qed.

(** X1. The transaction ids of a generated table are 1000, 1001, 1002, ...
    in row order: consecutive, hence unique. *)
Theorem transaction_ids_consecutive g w :
  map transaction_id (fst (generate_sales_data g w))
  = ids_from (length (fst (generate_sales_data g w))).
Proof.
  unfold Generator.generate_sales_data. simpl.
  assert (H0 : numbered (mkLoop _ _ 1000 [] w)) by (split; reflexivity).
  revert H0. generalize (mkLoop PyRng NpRng 1000 [] w).
  induction (Calendar.date_range (start_date g) (end_date g)) as [|d ds IH];
    intros s Hs; simpl; [exact (proj2 Hs)|].
  apply IH. unfold Generator.gen_date.
  destruct (randint _ _ 5 20 _) as [num r'].
  apply gen_day_numbered. exact Hs.
Qed.

(** ** One block of rows per calendar day *)

(** [random]'s primitive returns an index below its argument. *)
Definition randbelow_in_range : Prop :=
  forall n r, (0 < n)%Z -> (0 <= fst (randbelow n r) < n)%Z.

Lemma gen_day_block g d dfs n s :
  exists block,
    data (gen_day g d dfs n s) = data s ++ block /\
    length block = n /\ Forall (fun t => date t = d) block.
Proof.
  revert s. induction n as [|n IH]; intros s; simpl.
  - exists []. rewrite app_nil_r. repeat split. constructor.
  - destruct (gen_transaction_is_row g d dfs (next_id s) (Generator.world _ _ s))
      as (rg & product & segment & base & noisy & Hrow & _).
    destruct (gen_transaction g d dfs (next_id s) (Generator.world _ _ s)) as [row w'].
    simpl in Hrow. subst row.
    destruct (IH (mkLoop _ _ (next_id s + 1)%Z
                    (data s ++ [make_row (next_id s) d rg product segment base noisy]) w'))
      as (block & Hd & Hl & Hf).
    exists (make_row (next_id s) d rg product segment base noisy :: block).
    split; [|split].
    + rewrite Hd. simpl. rewrite <- app_assoc. reflexivity.
    + simpl. rewrite Hl. reflexivity.
    + constructor; [apply make_row_date | exact Hf].
Qed.

Definition day_block (d : Calendar.date) (block : list Transaction) : Prop :=
  (5 <= length block <= 20)%nat /\ Forall (fun t => date t = d) block.

Lemma gen_date_block (Hrb : randbelow_in_range) g s d :
  exists block, data (gen_date g s d) = data s ++ block /\ day_block d block.
Proof.
  unfold Generator.gen_date, randint.
  pose proof (Hrb (20 - 5 + 1)%Z (py_rng _ _ (Generator.world _ _ s)) ltac:(lia)) as Hk.
  destruct (randbelow (20 - 5 + 1)%Z (py_rng _ _ (Generator.world _ _ s))) as [k r'].
  simpl in Hk.
  destruct (gen_day_block g d (d - start_date g)%Z (Z.to_nat (5 + k))
              (mkLoop _ _ (next_id s) (data s) (mkWorld _ _ r' (np_rng _ _ (Generator.world _ _ s)))))
    as (block & Hd & Hl & Hf).
  exists block. split; [exact Hd|]. split; [lia | exact Hf].
Qed.

(** X2. A generated table is one block of rows per calendar day of the
    range, in date order; each block has between 5 and 20 rows, all dated
    that day. *)
Theorem one_block_per_day (Hrb : randbelow_in_range) g w :
  exists blocks,
    fst (generate_sales_data g w) = concat blocks /\
    Forall2 day_block (Calendar.date_range (start_date g) (end_date g)) blocks.
Proof.
  unfold Generator.generate_sales_data. simpl.
  assert (H : forall dates s, exists blocks,
             data (fold_left (gen_date g) dates s) = data s ++ concat blocks /\
             Forall2 day_block dates blocks).
  { induction dates as [|d dates IH]; intros s; simpl.
    - exists []. rewrite app_nil_r. split; [reflexivity | constructor].
    - destruct (gen_date_block Hrb g s d) as (block & Hd & Hb).
      destruct (IH (gen_date g s d)) as (blocks & Hds & Hbs).
      exists (block :: blocks). split.
      + rewrite Hds, Hd. simpl. rewrite <- app_assoc. reflexivity.
      + constructor; assumption. }
  destruct (H (Calendar.date_range (start_date g) (end_date g)) (mkLoop _ _ 1000 [] w))
    as (blocks & Hd & Hb).
  exists blocks. split; [exact Hd | exact Hb].
Qed.

(** ** Where the fields of a row come from *)

Lemma choice_member (Hrb : randbelow_in_range) (l : list string) r :
  l <> [] -> In (fst (choice PyRng randbelow l r)) l.
Proof.
  intros Hl. unfold choice.
  assert (Hpos : (0 < Z.of_nat (length l))%Z) by (destruct l; [contradiction | simpl; lia]).
  pose proof (Hrb _ r Hpos) as Hk.
  destruct (randbelow (Z.of_nat (length l)) r) as [k r']. simpl in *.
  apply nth_In. lia.
Qed.

Definition from_lists (g : EthiopiaSalesDataGenerator) (t : Transaction) : Prop :=
  In (region t) (regions g) /\
  In (product_category t) (product_categories g) /\
  In (customer_segment t) (customer_segments g) /\
  currency t = "ETB".

Lemma gen_transaction_from_lists (Hrb : randbelow_in_range) g d dfs tid w :
  regions g <> [] -> product_categories g <> [] -> customer_segments g <> [] ->
  from_lists g (fst (gen_transaction g d dfs tid w)).
Proof.
  intros Hr Hp Hs.
  destruct (gen_transaction_is_row g d dfs tid w)
    as (rg & product & segment & base & noisy & -> & -> & [r1 ->] & [r2 ->]).
  destruct (make_row_fields tid d (fst (choice PyRng randbelow (regions g) (py_rng _ _ w)))
              (fst (choice PyRng randbelow (product_categories g) r1))
              (fst (choice PyRng randbelow (customer_segments g) r2)) base noisy)
    as (Hpc & Hcs & Hcur).
  unfold from_lists. rewrite GeneratorProps.make_row_region, Hpc, Hcs.
  repeat split; try apply choice_member; assumption.
Qed.

Lemma gen_day_all (P : Transaction -> Prop) g d dfs :
  (forall tid w, P (fst (gen_transaction g d dfs tid w))) ->
  forall n s, Forall P (data s) -> Forall P (data (gen_day g d dfs n s)).
Proof.
  intros HP n. induction n as [|n IH]; intros s Hs; simpl; [exact Hs|].
  pose proof (HP (next_id s) (Generator.world _ _ s)) as Hrow.
  destruct (gen_transaction g d dfs (next_id s) (Generator.world _ _ s)) as [row w'].
  apply IH. simpl. apply Forall_app. split; [exact Hs|].
  constructor; [exact Hrow | constructor].
Qed.

Lemma generate_all (P : Transaction -> Prop) g :
  (forall d dfs tid w, P (fst (gen_transaction g d dfs tid w))) ->
  forall w, Forall P (fst (generate_sales_data g w)).
Proof.
  intros HP w. unfold Generator.generate_sales_data. simpl.
  assert (H0 : Forall P (data (mkLoop _ _ 1000 [] w))) by constructor.
  revert H0. generalize (mkLoop PyRng NpRng 1000 [] w).
  induction (Calendar.date_range (start_date g) (end_date g)) as [|d ds IH];
    intros s Hs; simpl; [exact Hs|].
  apply IH. unfold Generator.gen_date.
  destruct (randint _ _ 5 20 _) as [num r'].
  apply gen_day_all; [intros; apply HP | exact Hs].
Qed.

(** X3. Every row of a table generated by a constructed generator takes its
    region, product category and customer segment from the generator's three
    lists, and its currency is "ETB". *)
Theorem rows_from_lists (Hrb : randbelow_in_range)
    (py_seed : Z -> PyRng) (np_seed : Z -> NpRng)
    (start stop : Calendar.date) (sd : Z) (w : World PyRng NpRng) :
  Forall (from_lists (fst (init PyRng NpRng py_seed np_seed start stop sd w)))
    (run PyRng NpRng py_seed np_seed randbelow normal np_sin_month start stop sd w).
Proof.
  unfold run. simpl. apply generate_all. intros d dfs tid w0.
  apply gen_transaction_from_lists; [exact Hrb | discriminate..].
Qed.

(** ** The amount before the noise *)

Local Open Scope Q_scope.

(** X4. With [sin] between -1 and 1, the trend and the seasonal factor keep
    the amount of a non-negative base between 0.68 and 1.92 times the
    trended base: at least the 0.8 of the weakest month on a weekend (0.85),
    at most the 1.2 of the strongest month in the strongest holiday (1.6). *)
Theorem seasonal_amount_bounds (base : Q) (days : Z) (d : Calendar.date)
    (Hsin : -1 <= np_sin_month (Calendar.month d) <= 1)
    (Hbase : 0 <= base) (Hdays : (0 <= days)%Z) :
  let trended := add_trend base days in
  base <= trended /\
  0.68 * trended <= add_seasonality np_sin_month trended d <= 1.92 * trended.
Proof.
  intros trended.
  assert (Ht : base <= trended).
  { subst trended. unfold add_trend.
    assert (Hd : 0 <= inject_Z days) by (change 0 with (inject_Z 0); rewrite <- Zle_Qle; lia).
    assert (Hg : 0 <= 0.10 / 365 * inject_Z days).
    { apply Qmult_le_0_compat; [|exact Hd]. vm_compute. discriminate. }
    nra. }
  split; [exact Ht|].
  assert (Hpos : 0 <= trended) by lra.
  unfold add_seasonality. generalize dependent trended. intros trended _ Hpos.
  set (s := np_sin_month (Calendar.month d)) in *.
  destruct (_ && _ && _)%bool;
    [|destruct (_ && _ && _)%bool;
      [|destruct (_ && _ && _)%bool; [|destruct (_ =? 12)%Z]]];
    destruct (5 <=? Calendar.dayofweek d)%Z; split; nra.
Qed.

End WithRandomSources.

(** ** On the replayable sources *)

Lemma tape_randbelow_in_range : randbelow_in_range (list Z) tape_randbelow.
Proof.
  intros n r Hn. destruct r as [|x r]; simpl; [lia|]. apply Z.mod_pos_bound. exact Hn.
Qed.

(** The first three days of 2020, seeded with a short tape. *)
Definition three_days : EthiopiaSalesDataGenerator * World (list Z) (list Q) :=
  init (list Z) (list Q) (fun _ => [3; 6; 7; 0; 1; 2; 3; 9; 9; 4]%Z) (fun _ => [1; -1]%Q)
    (Calendar.days_from_civil 2020 1 1) (Calendar.days_from_civil 2020 1 3) 42
    (mkWorld _ _ [] []).

Lemma one_block_per_day_witness :
  exists blocks,
    fst (generate_sales_data (list Z) (list Q) tape_randbelow tape_normal sin_month_table
           (fst three_days) (snd three_days)) = concat blocks /\
    Forall2 day_block
      (Calendar.date_range (start_date (fst three_days)) (end_date (fst three_days))) blocks.
Proof.
  exact (one_block_per_day (list Z) (list Q) tape_randbelow tape_normal sin_month_table
           tape_randbelow_in_range (fst three_days) (snd three_days)).
Defined.

Lemma rows_from_lists_witness :
  Forall (from_lists (fst three_days))
    (tape_run (fun _ => [3; 6; 7; 0; 1; 2; 3; 9; 9; 4]%Z) (fun _ => [1; -1]%Q)
       (Calendar.days_from_civil 2020 1 1) (Calendar.days_from_civil 2020 1 3) 42
       (mkWorld _ _ [] [])).
Proof.
  exact (rows_from_lists (list Z) (list Q) tape_randbelow tape_normal sin_month_table
           tape_randbelow_in_range (fun _ => [3; 6; 7; 0; 1; 2; 3; 9; 9; 4]%Z)
           (fun _ => [1; -1]%Q)
           (Calendar.days_from_civil 2020 1 1) (Calendar.days_from_civil 2020 1 3) 42
           (mkWorld _ _ [] [])).
Defined.

(** A base of 1000 on Saturday 2020-09-19, 262 days after the start. *)
Lemma seasonal_amount_bounds_witness :
  let trended := add_trend 1000 262 in
  (1000 <= trended /\
   0.68 * trended
     <= add_seasonality sin_month_table trended (Calendar.days_from_civil 2020 9 19)
     <= 1.92 * trended)%Q.
Proof.
  exact (seasonal_amount_bounds sin_month_table 1000 262 (Calendar.days_from_civil 2020 9 19)
           ltac:(vm_compute; split; discriminate) ltac:(vm_compute; discriminate)
           ltac:(lia)).
Defined.

Example three_days_rows :
  length (fst (generate_sales_data (list Z) (list Q) tape_randbelow tape_normal
                 sin_month_table (fst three_days) (snd three_days))) = 18%nat.
Proof. reflexivity. Qed.

End GeneratorExtras.

(* ===================================================================== *)
(** * Group-by and sorting, in general *)
(* ===================================================================== *)

Module GroupByProps.
Import Frame PyNum InsightEngine.
Local Open Scope Q_scope.

(** ** The order of strings *)

Lemma ascii_compare_refl (a : ascii) : Ascii.compare a a = Eq.
Proof. unfold Ascii.compare. apply N.compare_refl. Qed.

Lemma ascii_compare_lt_trans (a b c : ascii) :
  Ascii.compare a b = Lt -> Ascii.compare b c = Lt -> Ascii.compare a c = Lt.
Proof.
  unfold Ascii.compare. rewrite !N.compare_lt_iff. apply N.lt_trans.
Qed.

Lemma string_compare_lt_trans (a b c : string) :
  String.compare a b = Lt -> String.compare b c = Lt -> String.compare a c = Lt.
Proof.
  revert b c. induction a as [|x a IH]; intros [|y b] [|z c]; simpl; try congruence.
  destruct (Ascii.compare x y) eqn:Exy; destruct (Ascii.compare y z) eqn:Eyz;
    try congruence; intros Hab Hbc.
  - apply Ascii.compare_eq_iff in Exy, Eyz. subst. rewrite ascii_compare_refl.
    eapply IH; eassumption.
  - apply Ascii.compare_eq_iff in Exy. subst. rewrite Eyz. reflexivity.
  - apply Ascii.compare_eq_iff in Eyz. subst. rewrite Exy. reflexivity.
  - rewrite (ascii_compare_lt_trans x y z Exy Eyz). reflexivity.
Qed.

(** ** Groups of an ordered key *)

Section Ordered.
Context {K : Type} `{EqDecision K} (cmp : K -> K -> comparison).
Hypothesis cmp_eq : forall a b, cmp a b = Eq <-> a = b.
Hypothesis cmp_antisym : forall a b, cmp a b = CompOpp (cmp b a).
Hypothesis cmp_lt_trans : forall a b c, cmp a b = Lt -> cmp b c = Lt -> cmp a c = Lt.

Definition key_lt (a b : K) : Prop := cmp a b = Lt.

Lemma key_lt_irrefl (a : K) : ~ key_lt a a.
Proof. unfold key_lt. rewrite (proj2 (cmp_eq a a) eq_refl). discriminate. Qed.

Lemma sorted_keys_NoDup (l : list K) : StronglySorted key_lt l -> NoDup l.
Proof.
  induction 1 as [|x l Hs IH Hall]; constructor; [|exact IH].
  intros Hin. rewrite Forall_forall in Hall. apply (key_lt_irrefl x). apply Hall. exact Hin.
Qed.

Section Merge.
Context {V : Type} (op : V -> V -> V).

Lemma group_insert_member (k x : K) (v : V) (acc : list (K * V)) :
  In x (map fst (group_insert cmp op k v acc)) <-> x = k \/ In x (map fst acc).
Proof.
  induction acc as [|[k' v'] rest IH]; simpl.
  - intuition.
  - destruct (cmp k k') eqn:E; simpl.
    + apply cmp_eq in E. subst. intuition.
    + intuition.
    + rewrite IH. intuition.
Qed.

Lemma group_insert_keeps_order (k : K) (v : V) (acc : list (K * V)) :
  StronglySorted key_lt (map fst acc) ->
  StronglySorted key_lt (map fst (group_insert cmp op k v acc)).
Proof.
  induction acc as [|[k' v'] rest IH]; intros Hs; simpl.
  - repeat constructor.
  - inversion Hs as [|? ? Hrest Hall]; subst.
    destruct (cmp k k') eqn:E; simpl.
    + exact Hs.
    + constructor; [exact Hs|]. constructor; [exact E|].
      eapply Forall_impl; [exact Hall|]. intros y Hy. exact (cmp_lt_trans _ _ _ E Hy).
    + constructor; [apply IH; exact Hrest|].
      apply Forall_forall. intros y Hy. apply list_elem_of_In, group_insert_member in Hy.
      destruct Hy as [->|Hy].
      * unfold key_lt. rewrite cmp_antisym, E. reflexivity.
      * rewrite Forall_forall in Hall. apply Hall, list_elem_of_In. exact Hy.
Qed.

Lemma groupby_from_order (rows acc : list (K * V)) :
  StronglySorted key_lt (map fst acc) ->
  StronglySorted key_lt
    (map fst (fold_left (fun a kv => group_insert cmp op (fst kv) (snd kv) a) rows acc)).
Proof.
  revert acc. induction rows as [|[k v] rows IH]; intros acc Hs; simpl; [exact Hs|].
  apply IH. apply group_insert_keeps_order. exact Hs.
Qed.

Lemma groupby_from_member (x : K) (rows acc : list (K * V)) :
  In x (map fst (fold_left (fun a kv => group_insert cmp op (fst kv) (snd kv) a) rows acc))
  <-> In x (map fst rows) \/ In x (map fst acc).
Proof.
  revert acc. induction rows as [|[k v] rows IH]; intros acc; simpl.
  - intuition.
  - rewrite IH, group_insert_member. simpl. intuition.
Qed.

(** The keys of the groups are strictly increasing, so each occurs once,
    and they are the keys of the rows. *)
Lemma groupby_key_set (rows : list (K * V)) :
  StronglySorted key_lt (map fst (groupby cmp op rows)) /\
  NoDup (map fst (groupby cmp op rows)) /\
  forall x, In x (map fst (groupby cmp op rows)) <-> In x (map fst rows).
Proof.
  assert (Hs : StronglySorted key_lt (map fst (groupby cmp op rows))).
  { apply groupby_from_order. constructor. }
  split; [exact Hs|]. split; [apply sorted_keys_NoDup; exact Hs|].
  intros x. unfold groupby. rewrite groupby_from_member. simpl. intuition.
Qed.

End Merge.

(** ** The value of a group *)

(** Sum of the values of the rows with key [k]. *)
Definition key_total (k : K) (rows : list (K * Q)) : Q :=
  Qsum (map snd (filter (fun p => fst p = k) rows)).

Lemma key_total_app (k : K) (a b : list (K * Q)) :
  key_total k (a ++ b) == key_total k a + key_total k b.
Proof.
  unfold key_total. rewrite filter_app, map_app.
  induction (map snd (filter (fun p => fst p = k) a)) as [|x l IH]; simpl; [lra|].
  rewrite IH. lra.
Qed.

Lemma key_total_one (k k' : K) (v : Q) :
  key_total k [(k', v)] == if decide (k' = k) then v else 0.
Proof.
  unfold key_total. rewrite filter_cons. simpl.
  destruct (decide (k' = k)); simpl; lra.
Qed.

(** Every group holds the total of the rows seen so far with its key. *)
Definition totals_of (seen acc : list (K * Q)) : Prop :=
  forall k v, In (k, v) acc -> v == key_total k seen.

Lemma key_total_absent (k : K) (seen : list (K * Q)) :
  ~ In k (map fst seen) -> key_total k seen == 0.
Proof.
  intros Hk. unfold key_total.
  induction seen as [|[k' v'] seen IH]; [reflexivity|].
  rewrite filter_cons. simpl in *. destruct (decide (k' = k)) as [->|Hne]; [tauto|].
  apply IH. tauto.
Qed.

Lemma sorted_head_below (k : K) (keys : list K) (x : K) :
  StronglySorted key_lt (k :: keys) -> In x keys -> x <> k.
Proof.
  intros Hs Hin ->. inversion Hs as [|? ? _ Hall]; subst.
  rewrite Forall_forall in Hall. apply (key_lt_irrefl k), Hall, list_elem_of_In, Hin.
Qed.

(** Where an entry of the merged groups comes from. *)
Lemma group_insert_entry (k x : K) (v w : Q) (acc : list (K * Q)) :
  StronglySorted key_lt (map fst acc) ->
  In (x, w) (group_insert cmp Qplus k v acc) ->
  (x <> k /\ In (x, w) acc) \/
  (x = k /\ ((exists v', In (k, v') acc /\ w = v' + v) \/
             (~ In k (map fst acc) /\ w = v))).
Proof.
  induction acc as [|[k' v'] rest IH]; intros Hs Hin; simpl in Hin.
  - destruct Hin as [[= -> ->]|[]]. right. split; [reflexivity|]. right. auto.
  - assert (Hrest : StronglySorted key_lt (map fst rest)) by (inversion Hs; assumption).
    destruct (cmp k k') eqn:E.
    + apply cmp_eq in E. subst k'. destruct Hin as [[= <- <-]|Hin].
      * right. split; [reflexivity|]. left. exists v'. split; [left|]; reflexivity.
      * left. split; [|right; exact Hin].
        apply (sorted_head_below k (map fst rest)); [exact Hs|].
        apply in_map_iff. exists (x, w). auto.
    + assert (Hk : ~ In k (map fst ((k', v') :: rest))).
      { intros Hk. apply (group_insert_keeps_order Qplus k v) in Hs.
        simpl in Hs. rewrite E in Hs. simpl in Hs.
        exact (sorted_head_below k _ k Hs Hk eq_refl). }
      destruct Hin as [[= -> ->]|Hin].
      * right. split; [reflexivity|]. right. auto.
      * left. split; [|exact Hin]. intros ->. apply Hk.
        apply in_map_iff. exists (k, w). auto.
    + assert (Hne : k' <> k).
      { intros ->. rewrite (proj2 (cmp_eq k k) eq_refl) in E. discriminate E. }
      destruct Hin as [[= -> ->]|Hin].
      * left. split; [exact Hne | left; reflexivity].
      * destruct (IH Hrest Hin) as [[Hx Hi]|[-> [[v0 [Hi ->]]|[Hk ->]]]].
        -- left. split; [exact Hx | right; exact Hi].
        -- right. split; [reflexivity|]. left. exists v0. split; [right; exact Hi | reflexivity].
        -- right. split; [reflexivity|]. right. split; [|reflexivity].
           simpl. intros [H|H]; [exact (Hne H) | exact (Hk H)].
Qed.

(** The groups built from the rows seen so far: ordered keys, covering the
    keys seen, each with the total of its rows. *)
Definition groups_of (seen acc : list (K * Q)) : Prop :=
  StronglySorted key_lt (map fst acc) /\
  (forall x, In x (map fst seen) -> In x (map fst acc)) /\
  forall k v, In (k, v) acc -> v == key_total k seen.

Lemma group_insert_groups (k : K) (v : Q) (seen acc : list (K * Q)) :
  groups_of seen acc -> groups_of (seen ++ [(k, v)]) (group_insert cmp Qplus k v acc).
Proof.
  intros (Hs & Hcover & Htot). split; [|split].
  - apply group_insert_keeps_order. exact Hs.
  - intros x. rewrite map_app, in_app_iff, group_insert_member. simpl.
    intros [Hx|[->|[]]]; auto.
  - intros x w Hin. rewrite key_total_app, key_total_one.
    destruct (group_insert_entry k x v w acc Hs Hin)
      as [[Hx Hi]|[-> [[v0 [Hi ->]]|[Hk ->]]]].
    + destruct (decide (k = x)) as [->|_]; [contradiction|]. rewrite (Htot x w Hi). lra.
    + destruct (decide (k = k)); [|contradiction]. rewrite (Htot k v0 Hi). lra.
    + destruct (decide (k = k)); [|contradiction].
      rewrite key_total_absent; [lra|]. intros Hin'. apply Hk, Hcover, Hin'.
Qed.

Lemma groupby_from_groups (rows seen acc : list (K * Q)) :
  groups_of seen acc ->
  groups_of (seen ++ rows)
    (fold_left (fun a kv => group_insert cmp Qplus (fst kv) (snd kv) a) rows acc).
Proof.
  revert seen acc. induction rows as [|[k v] rows IH]; intros seen acc H; simpl.
  - rewrite app_nil_r. exact H.
  - replace (seen ++ (k, v) :: rows) with ((seen ++ [(k, v)]) ++ rows)
      by (rewrite <- app_assoc; reflexivity).
    apply IH, group_insert_groups, H.
Qed.

(** Every group of [groupby(key)[value].sum()] holds the sum of the values
    of the rows that have its key. *)
Lemma groupby_sum_value (rows : list (K * Q)) (k : K) (v : Q) :
  In (k, v) (groupby_sum cmp rows) -> v == key_total k rows.
Proof.
  assert (H : groups_of ([] ++ rows) (groupby_sum cmp rows)).
  { apply groupby_from_groups. split; [constructor|]. split; [intros x []|intros ? ? []]. }
  destruct H as (_ & _ & Htot). apply Htot.
Qed.

End Ordered.

(** The two key orders in use. *)

Lemma Z_compare_eq (a b : Z) : Z.compare a b = Eq <-> a = b.
Proof. apply Z.compare_eq_iff. Qed.

Lemma Z_compare_lt_trans (a b c : Z) :
  Z.compare a b = Lt -> Z.compare b c = Lt -> Z.compare a c = Lt.
Proof. rewrite !Z.compare_lt_iff. apply Z.lt_trans. Qed.

Lemma string_compare_refl (a : string) : String.compare a a = Eq.
Proof. induction a as [|x a IH]; simpl; [reflexivity|]. rewrite ascii_compare_refl. exact IH. Qed.

Lemma string_compare_eq (a b : string) : String.compare a b = Eq <-> a = b.
Proof. split; [apply String.compare_eq_iff | intros ->; apply string_compare_refl]. Qed.


(** ** Sorting by value *)

Section SortDescending.
Context {K : Type}.

Definition descending (a b : K * Q) : Prop := snd b <= snd a.

Lemma insert_sorted_perm (before : Q -> Q -> bool) (x : K * Q) (l : list (K * Q)) :
  Permutation (insert_sorted before x l) (x :: l).
Proof.
  induction l as [|y l IH]; simpl; [reflexivity|].
  destruct (before (snd y) (snd x)); [|reflexivity].
  rewrite IH. apply perm_swap.
Qed.

Lemma sort_by_perm (before : Q -> Q -> bool) (l : list (K * Q)) :
  Permutation (sort_by before l) l.
Proof.
  unfold sort_by.
  assert (H : forall acc, Permutation (fold_left (fun a x => insert_sorted before x a) l acc)
                            (acc ++ l)).
  { induction l as [|x l IH]; intros acc; simpl; [rewrite app_nil_r; reflexivity|].
    rewrite IH, insert_sorted_perm. apply Permutation_middle. }
  apply (H []).
Qed.

Lemma insert_descending (x : K * Q) (l : list (K * Q)) :
  StronglySorted descending l ->
  StronglySorted descending (insert_sorted (fun a b => Qle_bool b a) x l).
Proof.
  induction l as [|y l IH]; intros Hs; simpl; [repeat constructor|].
  inversion Hs as [|? ? Hl Hall]; subst.
  destruct (Qle_bool (snd x) (snd y)) eqn:E.
  - apply Qle_bool_iff in E. constructor; [apply IH; exact Hl|].
    apply Forall_forall. intros z Hz.
    apply list_elem_of_In in Hz.
    apply (Permutation_in _ (insert_sorted_perm _ x l)) in Hz.
    destruct Hz as [<-|Hz]; [exact E|].
    rewrite Forall_forall in Hall. apply Hall, list_elem_of_In, Hz.
  - assert (Hlt : snd y < snd x).
    { apply Qnot_le_lt. intros H. apply Qle_bool_iff in H. congruence. }
    constructor; [exact Hs|]. constructor; [unfold descending; lra|].
    eapply Forall_impl; [exact Hall|]. intros z Hz. unfold descending in *. lra.
Qed.

Lemma sort_descending_sorted (l : list (K * Q)) : StronglySorted descending (sort_descending l).
Proof.
  unfold sort_descending, sort_by.
  assert (H : forall acc, StronglySorted descending acc ->
                          StronglySorted descending
                            (fold_left (fun a x => insert_sorted (fun a b => Qle_bool b a) x a)
                               l acc)).
  { induction l as [|x l IH]; intros acc Hacc; simpl; [exact Hacc|].
    apply IH, insert_descending, Hacc. }
  apply H. constructor.
Qed.

End SortDescending.

(** ** Totals of a column *)

(** Total sales of the transactions whose column [col] is [k]. *)
Definition column_total {K : Type} `{EqDecision K} (col : Transaction -> K)
    (table : list Transaction) (k : K) : Q :=
  Qsum (map total_sales (filter (fun t => col t = k) table)).

Lemma key_total_column {K : Type} `{EqDecision K} (col : Transaction -> K)
    (table : list Transaction) (k : K) :
  key_total k (map (fun t => (col t, total_sales t)) table) = column_total col table k.
Proof.
  unfold key_total, column_total. induction table as [|t table IH]; [reflexivity|].
  cbn [map]. rewrite !filter_cons. cbn [fst].
  destruct (decide (col t = k)); [|exact IH].
  cbn [map snd]. unfold Qsum in *. cbn [fold_right]. rewrite IH. reflexivity.
Qed.

Lemma round2_Qeq (x y : Q) : x == y -> round2 x == round2 y.
Proof. intros H. apply Qle_antisym; apply round2_mono; lra. Qed.

End GroupByProps.

(* ===================================================================== *)
(** * Further properties of the aggregation and of the forecaster *)
(* ===================================================================== *)

Module ForecasterExtras.
Import Float Frame Numpy NumpyProps PyNum GroupByProps.
Local Open Scope Q_scope.

(** ** The daily series *)

Lemma daily_sales_keys (df : list Transaction) (d : Calendar.date) :
  In d (map fst (daily_sales df)) <-> exists t, In t df /\ date t = d.
Proof.
  unfold daily_sales.
  destruct (groupby_key_set Z.compare Z_compare_eq (fun a b => Z.compare_antisym b a)
              Z_compare_lt_trans Qplus (map (fun t => (date t, total_sales t)) df))
    as (_ & _ & Hin).
  unfold groupby_sum. rewrite Hin, map_map. simpl. rewrite in_map_iff.
  split; intros [t H]; exists t; tauto.
Qed.

(** X5. The daily series has its dates in strictly increasing order; a date
    occurs in it exactly when some transaction of the table has it (days
    without transactions are left out, not filled with zero), and its amount
    is the sum of the transactions of that day. *)
Theorem daily_sales_per_day (df : list Transaction) :
  StronglySorted Z.lt (map fst (daily_sales df)) /\
  (forall d, In d (map fst (daily_sales df)) <-> exists t, In t df /\ date t = d) /\
  forall d v, In (d, v) (daily_sales df) -> v == column_total date df d.
Proof.
  split; [apply AggregationProps.daily_sales_dates_increasing|].
  split; [apply daily_sales_keys|].
  intros d v Hin. rewrite <- key_total_column.
  apply (groupby_sum_value Z.compare Z_compare_eq (fun a b => Z.compare_antisym b a)
           Z_compare_lt_trans _ d v Hin).
Qed.

(** ** [prepare_data] *)

Lemma slices_partition {A : Type} (k : Z) (l : list A) : slice_to k l ++ slice_from k l = l.
Proof. unfold slice_to, slice_from. destruct (0 <=? k)%Z; apply take_drop. Qed.

Section WithLibraries.
Context `{PL : Prophet.Lib} `{NL : Numpy.Lib}.

(** X6. Whatever the test size, [prepare_data] splits the daily series into
    a training part followed by a test part: no day is lost or used twice,
    and the model attribute is not touched. *)
Theorem prepare_data_partition (df : list Transaction) (test_size : Z)
    (self : SalesForecaster.SalesForecaster) :
  exists train test,
    SalesForecaster.df_train (SalesForecaster.prepare_data df test_size self) = Some train /\
    SalesForecaster.df_test (SalesForecaster.prepare_data df test_size self) = Some test /\
    train ++ test = daily_sales df /\
    SalesForecaster.model (SalesForecaster.prepare_data df test_size self)
      = SalesForecaster.model self.
Proof.
  do 2 eexists. repeat split. apply slices_partition.
Qed.

(** X7. With a test size between zero and the number of days, the test part
    is the last [test_size] days. *)
Theorem prepare_data_test_size (df : list Transaction) (test_size : Z)
    (self : SalesForecaster.SalesForecaster)
    (Hrange : (0 <= test_size <= Z.of_nat (length (daily_sales df)))%Z) :
  SalesForecaster.df_test (SalesForecaster.prepare_data df test_size self)
  = Some (drop (length (daily_sales df) - Z.to_nat test_size) (daily_sales df)) /\
  length (drop (length (daily_sales df) - Z.to_nat test_size) (daily_sales df))
  = Z.to_nat test_size.
Proof.
  split.
  - unfold SalesForecaster.prepare_data. simpl. unfold slice_from.
    destruct (Z.leb_spec 0 (Z.of_nat (length (daily_sales df)) - test_size)) as [_|H]; [|lia].
    f_equal. f_equal. lia.
  - rewrite length_drop. lia.
Qed.

(** X8. A test size larger than the series of [n] days does not make the
    whole series the test part: the split index turns negative and counts
    from the end.  The training part is the first [2n - test_size] days and
    the test part the rest; so below [2n] the training part is not empty and
    the test part has [test_size - n] days, and from [2n] on the training
    part is empty and the test part is the whole series. *)
Theorem prepare_data_oversized_test (df : list Transaction) (test_size : Z)
    (self : SalesForecaster.SalesForecaster)
    (Hover : (Z.of_nat (length (daily_sales df)) < test_size)%Z) :
  let n := length (daily_sales df) in
  let kept := (2 * n - Z.to_nat test_size)%nat in
  SalesForecaster.df_train (SalesForecaster.prepare_data df test_size self)
  = Some (take kept (daily_sales df)) /\
  SalesForecaster.df_test (SalesForecaster.prepare_data df test_size self)
  = Some (drop kept (daily_sales df)) /\
  ((test_size < 2 * Z.of_nat n)%Z ->
   take kept (daily_sales df) <> [] /\
   length (drop kept (daily_sales df)) = (Z.to_nat test_size - n)%nat) /\
  ((2 * Z.of_nat n <= test_size)%Z ->
   take kept (daily_sales df) = [] /\ drop kept (daily_sales df) = daily_sales df).
Proof.
  intros n kept. subst n kept. unfold SalesForecaster.prepare_data.
  cbn [SalesForecaster.df_train SalesForecaster.df_test].
  unfold slice_from, slice_to.
  destruct (Z.leb_spec 0 (Z.of_nat (length (daily_sales df)) - test_size)) as [H|_]; [lia|].
  split; [f_equal; f_equal; lia|]. split; [f_equal; f_equal; lia|]. split.
  - intros Hlt. split.
    + intros Hnil. apply (f_equal (@length _)) in Hnil. rewrite length_take in Hnil.
      cbn [length] in Hnil. lia.
    + rewrite length_drop. lia.
  - intros Hge.
    replace (2 * length (daily_sales df) - Z.to_nat test_size)%nat with 0%nat by lia.
    split; reflexivity.
Qed.

(** ** [evaluate_model] *)

(** X9. With an empty test part (as [prepare_data] leaves it for
    [test_size = 0]) a trained forecaster's [evaluate_model] does not return
    metrics: the prediction succeeds, and the first metric, given no true
    value, raises [ValueError]. *)
Theorem evaluate_model_empty_test (self : SalesForecaster.SalesForecaster)
    (train : list (Calendar.date * Q)) (m : Prophet.Model) (fc : list Prophet.ForecastRow)
    (Hempty : SalesForecaster.df_test self = Some [])
    (Htrain : SalesForecaster.df_train self = Some train)
    (Hmodel : SalesForecaster.model self = Some m)
    (Hpredict : Prophet.predict m (map fst train ++ []) = Ok fc) :
  exists msg, SalesForecaster.evaluate_model self = Raise (ValueError msg).
Proof.
  unfold SalesForecaster.evaluate_model. rewrite Hempty, Htrain, Hmodel.
  cbn [mbind result_bind map]. rewrite Hpredict. cbn [mbind result_bind].
  unfold mean_absolute_error at 1, check_targets.
  destruct (negb (_ =? _)%nat); [eexists; reflexivity|].
  cbn [of_Q map length Nat.eqb mbind result_bind]. eexists. reflexivity.
Qed.



End WithLibraries.

(** ** Four days of sales and the naive forecaster *)

Definition four_days : list Transaction := Naive.table_of [10; 20; 30; 40].



(** A test size of one day out of four. *)
Lemma prepare_data_test_size_witness :
  SalesForecaster.df_test
    (@SalesForecaster.prepare_data Naive.prophet four_days 1 (@SalesForecaster.new Naive.prophet))
  = Some (drop (length (daily_sales four_days) - Z.to_nat 1) (daily_sales four_days)) /\
  length (drop (length (daily_sales four_days) - Z.to_nat 1) (daily_sales four_days))
  = Z.to_nat 1.
Proof.
  apply (@prepare_data_test_size Naive.prophet four_days 1 (@SalesForecaster.new Naive.prophet)).
  vm_compute. split; discriminate.
Defined.

(** A test size of six days out of four: the first two days are the
    training part, the last two the test part. *)
Lemma prepare_data_oversized_test_witness :
  SalesForecaster.df_train
    (@SalesForecaster.prepare_data Naive.prophet four_days 6 (@SalesForecaster.new Naive.prophet))
  = Some (take 2 (daily_sales four_days)) /\
  SalesForecaster.df_test
    (@SalesForecaster.prepare_data Naive.prophet four_days 6 (@SalesForecaster.new Naive.prophet))
  = Some (drop 2 (daily_sales four_days)) /\
  take 2 (daily_sales four_days) <> [] /\
  length (drop 2 (daily_sales four_days)) = 2%nat.
Proof.
  destruct (@prepare_data_oversized_test Naive.prophet four_days 6
              (@SalesForecaster.new Naive.prophet) ltac:(vm_compute; reflexivity))
    as (Htrain & Htest & Hbelow & _).
  destruct (Hbelow ltac:(vm_compute; reflexivity)) as [Hne Hlen].
  split; [exact Htrain|]. split; [exact Htest|]. split; [exact Hne | exact Hlen].
Defined.

(** [prepare_data(df, test_size=0)], then [train_model()]: the four days are
    the training part and the test part is empty. *)
Definition untested_forecaster : @SalesForecaster.SalesForecaster Naive.prophet :=
  fst (@SalesForecaster.train_model Naive.prophet true true false 0.05
         (@SalesForecaster.prepare_data Naive.prophet four_days 0
            (@SalesForecaster.new Naive.prophet))).

Lemma evaluate_model_empty_test_witness :
  exists msg,
    @SalesForecaster.evaluate_model Naive.prophet Naive.numpy untested_forecaster
    = Raise (ValueError msg).
Proof.
  eapply (@evaluate_model_empty_test Naive.prophet Naive.numpy untested_forecaster).
  - vm_compute. reflexivity.
  - vm_compute. reflexivity.
  - vm_compute. reflexivity.
  - vm_compute. reflexivity.
Defined.

Example untested_forecaster_error :
  @SalesForecaster.evaluate_model Naive.prophet Naive.numpy untested_forecaster
  = Raise (ValueError "Found input variables with inconsistent numbers of samples: [0, 4]").
Proof. vm_compute. reflexivity. Qed.


End ForecasterExtras.

(* ===================================================================== *)
(** * [src/forecasting_model.py]: get_forecast_summary *)
(* ===================================================================== *)

Module ForecastSummary.
Import Frame.
Local Open Scope Q_scope.

Record Summary := mkSummary {
  total_forecasted_sales : Q;
  avg_daily_sales : Q;
  min_daily_sales : Q;
  max_daily_sales : Q;
  trend : string
}.

(** [Series.min()] and [Series.max()] of a series with first value [x]. *)
Definition Qmin_list (x : Q) (l : list Q) : Q :=
  fold_left (fun m y => if Qle_bool y m then y else m) l x.

Definition Qmax_list (x : Q) (l : list Q) : Q :=
  fold_left (fun m y => if Qle_bool m y then y else m) l x.

(** [get_forecast_summary(forecast_df)]: the last 90 rows.  On an empty
    frame the sum, mean, minimum and maximum are computed without error and
    [iloc[-1]] then raises.  Sum and mean are the exact ones; the doubles
    the code computes are their roundings. *)
Definition get_forecast_summary (forecast_df : list Prophet.ForecastRow) : result Summary :=
  let future_forecast := slice_from (-90) forecast_df in
  let ys := map Prophet.yhat future_forecast in
  match ys, last ys with
  | first :: rest, Some final =>
      Ok (mkSummary (Qsum ys) (Qsum ys / inject_Z (Z.of_nat (length ys)))
            (Qmin_list first rest) (Qmax_list first rest)
            (if Qle_bool final first then "decreasing" else "increasing"))
  | _, _ => Raise (IndexError "single positional indexer is out-of-bounds")
  end.

(** ** Properties *)

Lemma Qmin_list_le (x : Q) (l : list Q) :
  Qmin_list x l <= x /\ Forall (fun y => Qmin_list x l <= y) l.
Proof.
  unfold Qmin_list. revert x. induction l as [|y l IH]; intros x; simpl.
  - split; [lra | constructor].
  - destruct (Qle_bool y x) eqn:E.
    + apply Qle_bool_iff in E. destruct (IH y) as [H1 H2].
      split; [lra|]. constructor; assumption.
    + assert (Hxy : x < y).
      { apply Qnot_le_lt. intros H. apply Qle_bool_iff in H. congruence. }
      destruct (IH x) as [H1 H2]. split; [exact H1|]. constructor; [lra | exact H2].
Qed.

Lemma Qmax_list_ge (x : Q) (l : list Q) :
  x <= Qmax_list x l /\ Forall (fun y => y <= Qmax_list x l) l.
Proof.
  unfold Qmax_list. revert x. induction l as [|y l IH]; intros x; simpl.
  - split; [lra | constructor].
  - destruct (Qle_bool x y) eqn:E.
    + apply Qle_bool_iff in E. destruct (IH y) as [H1 H2].
      split; [lra|]. constructor; assumption.
    + assert (Hxy : y < x).
      { apply Qnot_le_lt. intros H. apply Qle_bool_iff in H. congruence. }
      destruct (IH x) as [H1 H2]. split; [exact H1|]. constructor; [lra | exact H2].
Qed.

Lemma Qmin_list_In (x : Q) (l : list Q) : In (Qmin_list x l) (x :: l).
Proof.
  unfold Qmin_list. revert x. induction l as [|y l IH]; intros x; simpl; [left; reflexivity|].
  destruct (Qle_bool y x).
  - right. apply IH.
  - destruct (IH x) as [H|H]; [left; exact H | right; right; exact H].
Qed.

Lemma Qmax_list_In (x : Q) (l : list Q) : In (Qmax_list x l) (x :: l).
Proof.
  unfold Qmax_list. revert x. induction l as [|y l IH]; intros x; simpl; [left; reflexivity|].
  destruct (Qle_bool x y).
  - right. apply IH.
  - destruct (IH x) as [H|H]; [left; exact H | right; right; exact H].
Qed.

(** X11. On a forecast with at least one row the summary is returned; it
    covers the last 90 rows (all of them when there are fewer), and its
    minimum and its maximum are predictions among those rows that bound
    every one of them.  On an empty forecast the call raises [IndexError]. *)
Theorem forecast_summary_extremes (forecast_df : list Prophet.ForecastRow) :
  match get_forecast_summary forecast_df with
  | Ok s =>
      forecast_df <> [] /\
      let ys := map Prophet.yhat (slice_from (-90) forecast_df) in
      length ys = Nat.min 90 (length forecast_df) /\
      In (min_daily_sales s) ys /\ In (max_daily_sales s) ys /\
      Forall (fun y => min_daily_sales s <= y <= max_daily_sales s) ys
  | Raise e => forecast_df = [] /\ exists msg, e = IndexError msg
  end.
Proof.
  unfold get_forecast_summary.
  assert (Hlen : length (map Prophet.yhat (slice_from (-90) forecast_df))
                 = Nat.min 90 (length forecast_df)).
  { rewrite length_map. unfold slice_from. change (0 <=? -90)%Z with false.
    cbv iota. rewrite length_drop. lia. }
  destruct (map Prophet.yhat (slice_from (-90) forecast_df)) as [|first rest] eqn:E.
  - split; [|eauto]. destruct forecast_df; [reflexivity|]. simpl in Hlen. lia.
  - destruct (last (first :: rest)) as [final|] eqn:El.
    + cbn [min_daily_sales max_daily_sales].
      split; [intros ->; discriminate E|].
      destruct (Qmin_list_le first rest) as [Hm1 Hm2].
      destruct (Qmax_list_ge first rest) as [HM1 HM2].
      split; [exact Hlen|]. split; [apply Qmin_list_In|]. split; [apply Qmax_list_In|].
      constructor; [split; assumption|].
      rewrite Forall_forall in Hm2, HM2. apply Forall_forall. intros y Hy.
      split; [apply Hm2 | apply HM2]; exact Hy.
    + exfalso. apply last_None in El. discriminate El.
Qed.

(** X12. The trend label is "increasing" only for a strict rise from the
    first to the last summarised day: a flat forecast, and a forecast of a
    single day, are labelled "decreasing". *)
Theorem forecast_summary_flat_is_decreasing (forecast_df : list Prophet.ForecastRow)
    (s : Summary) (first final : Q)
    (Hsummary : get_forecast_summary forecast_df = Ok s)
    (Hfirst : head (map Prophet.yhat (slice_from (-90) forecast_df)) = Some first)
    (Hfinal : last (map Prophet.yhat (slice_from (-90) forecast_df)) = Some final)
    (Hflat : final <= first) :
  trend s = "decreasing".
Proof.
  unfold get_forecast_summary in Hsummary.
  destruct (map Prophet.yhat (slice_from (-90) forecast_df)) as [|x rest]; [discriminate Hfirst|].
  rewrite Hfinal in Hsummary. injection Hfirst as ->. injection Hsummary as <-. simpl.
  apply Qle_bool_iff in Hflat. rewrite Hflat. reflexivity.
Qed.

(** ** A flat forecast of two days *)

Definition flat_forecast : list Prophet.ForecastRow :=
  [Prophet.mkForecastRow 18300%Z 5 4 6; Prophet.mkForecastRow 18301%Z 5 4 6].

Definition flat_summary : Summary :=
  Eval vm_compute in
    match get_forecast_summary flat_forecast with
    | Ok s => s
    | Raise _ => mkSummary 0 0 0 0 ""
    end.

Lemma forecast_summary_flat_is_decreasing_witness : trend flat_summary = "decreasing".
Proof.
  apply (forecast_summary_flat_is_decreasing flat_forecast flat_summary 5 5).
  - vm_compute. reflexivity.
  - reflexivity.
  - reflexivity.
  - vm_compute. discriminate.
Defined.

End ForecastSummary.

(* ===================================================================== *)
(** * [src/forecasting_model.py]: CategoryForecaster *)
(* ===================================================================== *)

Module CategoryForecaster.
Import Frame.

(** [Series.unique()]: the distinct values in order of first appearance. *)
Fixpoint unique_from (seen : list string) (l : list string) : list string :=
  match l with
  | [] => []
  | x :: rest =>
      if bool_decide (x ∈ seen) then unique_from seen rest
      else x :: unique_from (x :: seen) rest
  end.

Definition unique (l : list string) : list string := unique_from [] l.

(** [d[k] = v] on a dictionary kept in insertion order: an existing key keeps
    its place and takes the new value, a new key goes to the end. *)
Fixpoint dict_set {V : Type} (k : string) (v : V) (d : list (string * V))
  : list (string * V) :=
  match d with
  | [] => [(k, v)]
  | (k', v') :: rest =>
      if String.eqb k' k then (k', v) :: rest else (k', v') :: dict_set k v rest
  end.

Section WithLibraries.
Context `{PL : Prophet.Lib}.

(** The object's attributes; [category_col] is kept as the column accessor. *)
Record CategoryForecaster := mkCategoryForecaster {
  df : list Transaction;
  category_col : Transaction -> string;
  models : list (string * SalesForecaster.SalesForecaster);
  forecasts : list (string * list Prophet.ForecastRow)
}.

(** [__init__(df, category_col='product_category')]. *)
Definition new (table : list Transaction) (col : Transaction -> string) : CategoryForecaster :=
  mkCategoryForecaster table col [] [].

Definition rows_of (self : CategoryForecaster) (category : string) : list Transaction :=
  filter (fun t => String.eqb (category_col self t) category) (df self).

(** One turn of the loop of [train_all_categories]: the forecaster is stored
    only after its training has returned. *)
Definition train_category (test_size : Z) (category : string) (self : CategoryForecaster)
  : CategoryForecaster * result unit :=
  let df_cat := rows_of self category in
  let forecaster := SalesForecaster.prepare_data df_cat test_size SalesForecaster.new in
  match SalesForecaster.train_model true true false 0.05 forecaster with
  | (_, Raise e) => (self, Raise e)
  | (trained, Ok _) =>
      (mkCategoryForecaster (df self) (category_col self)
         (dict_set category trained (models self)) (forecasts self), Ok tt)
  end.

Fixpoint train_loop (test_size : Z) (categories : list string) (self : CategoryForecaster)
  : CategoryForecaster * result unit :=
  match categories with
  | [] => (self, Ok tt)
  | c :: rest =>
      match train_category test_size c self with
      | (self', Ok _) => train_loop test_size rest self'
      | (self', Raise e) => (self', Raise e)
      end
  end.

(** [train_all_categories(test_size=...)]. *)
Definition train_all_categories (test_size : Z) (self : CategoryForecaster)
  : CategoryForecaster * result unit :=
  train_loop test_size (unique (map (category_col self) (df self))) self.

Fixpoint forecast_loop (periods : Z)
    (items : list (string * SalesForecaster.SalesForecaster)) (self : CategoryForecaster)
  : CategoryForecaster * result unit :=
  match items with
  | [] => (self, Ok tt)
  | (category, forecaster) :: rest =>
      match SalesForecaster.forecast periods forecaster with
      | Raise e => (self, Raise e)
      | Ok fc =>
          forecast_loop periods rest
            (mkCategoryForecaster (df self) (category_col self) (models self)
               (dict_set category fc (forecasts self)))
      end
  end.

(** [forecast_all_categories(periods=...)]: the dictionary it returns is
    [self.forecasts]. *)
Definition forecast_all_categories (periods : Z) (self : CategoryForecaster)
  : CategoryForecaster * result (list (string * list Prophet.ForecastRow)) :=
  match forecast_loop periods (models self) self with
  | (self', Ok _) => (self', Ok (forecasts self'))
  | (self', Raise e) => (self', Raise e)
  end.

(** [get_combined_forecast()]: rows [(ds, yhat, category)]. *)
Definition get_combined_forecast (self : CategoryForecaster)
  : list (Calendar.date * Q * string) :=
  concat (map (fun '(category, fc) =>
                 map (fun r => (Prophet.ds r, Prophet.yhat r, category)) fc)
              (forecasts self)).

End WithLibraries.

End CategoryForecaster.

(* ===================================================================== *)
(** * Properties of the category forecaster *)
(* ===================================================================== *)

Module CategoryProps.
Import Frame CategoryForecaster.

Lemma unique_from_spec (seen l : list string) :
  NoDup (unique_from seen l) /\
  forall x, In x (unique_from seen l) <-> In x l /\ ~ In x seen.
Proof.
  revert seen. induction l as [|y l IH]; intros seen; simpl.
  - split; [constructor | intuition].
  - destruct (bool_decide_reflect (y ∈ seen)) as [Hy|Hy]; rewrite list_elem_of_In in Hy.
    + destruct (IH seen) as [Hnd Hin]. split; [exact Hnd|].
      intros x. rewrite Hin. split; [intuition|].
      intros [[->|Hx] Hns]; [contradiction | auto].
    + destruct (IH (y :: seen)) as [Hnd Hin]. split.
      * constructor; [|exact Hnd]. rewrite list_elem_of_In, Hin. simpl. intuition.
      * intros x. simpl. rewrite Hin. simpl. split.
        -- intros [->|[Hx Hns]]; [auto | intuition].
        -- intros [[->|Hx] Hns]; [auto|].
           destruct (String.eqb_spec y x) as [->|Hne]; [auto|]. right. intuition.
Qed.

Lemma unique_NoDup (l : list string) : NoDup (unique l).
Proof. apply unique_from_spec. Qed.

Lemma unique_In (l : list string) (x : string) : In x (unique l) <-> In x l.
Proof. unfold unique. rewrite (proj2 (unique_from_spec [] l)). simpl. intuition. Qed.

Lemma dict_set_fresh {V : Type} (k : string) (v : V) (d : list (string * V)) :
  ~ In k (map fst d) -> dict_set k v d = d ++ [(k, v)].
Proof.
  induction d as [|[k' v'] d IH]; simpl; intros Hk; [reflexivity|].
  destruct (String.eqb_spec k' k) as [->|Hne]; [exfalso; auto|].
  rewrite IH; [reflexivity | auto].
Qed.

Section WithLibraries.
Context `{PL : Prophet.Lib}.

(** A forecaster prepared on the rows of one category and fitted. *)
Definition trained_on (table : list Transaction) (col : Transaction -> string)
    (entry : string * SalesForecaster.SalesForecaster) : Prop :=
  let '(category, forecaster) := entry in
  exists train test m f,
    SalesForecaster.df_train forecaster = Some train /\
    SalesForecaster.df_test forecaster = Some test /\
    train ++ test
      = daily_sales (filter (fun t => String.eqb (col t) category) table) /\
    SalesForecaster.model forecaster = Some m /\
    Prophet.state m = Some f.

Lemma train_category_ok (test_size : Z) (c : string) (self self' : CategoryForecaster) :
  train_category test_size c self = (self', Ok tt) ->
  exists forecaster,
    self' = mkCategoryForecaster (df self) (category_col self)
              (dict_set c forecaster (models self)) (forecasts self) /\
    trained_on (df self) (category_col self) (c, forecaster).
Proof.
  unfold train_category, SalesForecaster.train_model. simpl.
  destruct (Prophet.fit _ _) as [f|e]; intros H; [|discriminate H].
  injection H as <-. eexists. split; [reflexivity|].
  do 4 eexists. repeat split. apply ForecasterExtras.slices_partition.
Qed.

Lemma train_category_raise (test_size : Z) (c : string) (self self' : CategoryForecaster)
    (e : exn) :
  train_category test_size c self = (self', Raise e) -> self' = self.
Proof.
  unfold train_category, SalesForecaster.train_model. simpl.
  destruct (Prophet.fit _ _) as [f|e']; intros H; [discriminate H|].
  injection H as <- _. reflexivity.
Qed.

(** What the loop has done when it stops: the categories [done] trained and
    stored in order, the categories [rest] untouched. *)
Lemma train_loop_spec (test_size : Z) (categories : list string)
    (self self' : CategoryForecaster) (r : result unit) :
  NoDup categories ->
  (forall c, In c categories -> ~ In c (map fst (models self))) ->
  train_loop test_size categories self = (self', r) ->
  exists done rest added,
    categories = done ++ rest /\
    models self' = models self ++ added /\
    map fst added = done /\
    Forall (trained_on (df self) (category_col self)) added /\
    df self' = df self /\ category_col self' = category_col self /\
    forecasts self' = forecasts self /\
    (is_ok r = true -> rest = []) /\ (is_ok r = false -> rest <> []).
Proof.
  revert self. induction categories as [|c cats IH]; intros self Hnd Hfresh Hrun; simpl in Hrun.
  - injection Hrun as <- <-. exists [], [], []. simpl. rewrite app_nil_r.
    repeat split; try reflexivity; [constructor | discriminate].
  - inversion Hnd as [|? ? Hc Hnd']; subst. rewrite list_elem_of_In in Hc.
    destruct (train_category test_size c self) as [self1 [[]|e]] eqn:Ec.
    + destruct (train_category_ok _ _ _ _ Ec) as [fc [-> Htr]].
      rewrite dict_set_fresh in Hrun by (apply Hfresh; left; reflexivity).
      apply IH in Hrun; [|exact Hnd'|].
      * destruct Hrun as (done & rest & added & -> & Hm & Hk & Hall & Hdf & Hcol & Hfo & Hok & Hko).
        simpl in *. exists (c :: done), rest, ((c, fc) :: added).
        repeat split; auto.
        -- rewrite Hm, <- app_assoc. reflexivity.
        -- simpl. rewrite Hk. reflexivity.
      * simpl. intros c' Hc' Hin. rewrite map_app, in_app_iff in Hin. simpl in Hin.
        destruct Hin as [Hin|[->|[]]]; [|contradiction].
        apply (Hfresh c'); [right; exact Hc' | exact Hin].
    + injection Hrun as <- <-. apply train_category_raise in Ec. subst self1.
      exists [], (c :: cats), []. simpl. rewrite app_nil_r.
      repeat split; try reflexivity; [constructor | discriminate | discriminate].
Qed.

(** The loop run on a new object. *)
Lemma train_all_new (table : list Transaction) (col : Transaction -> string)
    (test_size : Z) (self' : CategoryForecaster) (r : result unit) :
  train_all_categories test_size (new table col) = (self', r) ->
  exists rest,
    unique (map col table) = map fst (models self') ++ rest /\
    Forall (trained_on table col) (models self') /\
    forecasts self' = [] /\
    (is_ok r = true -> rest = []) /\ (is_ok r = false -> rest <> []).
Proof.
  intros Hrun. unfold train_all_categories in Hrun. simpl in Hrun.
  apply train_loop_spec in Hrun; [|apply unique_NoDup | intros c _ []].
  destruct Hrun as (done & rest & added & Hc & Hm & Hk & Hall & _ & _ & Hfo & Hok & Hko).
  cbn [new models forecasts app] in Hm, Hfo.
  exists rest. rewrite Hm, Hk, Hc. auto.
Qed.

(** X13. When [train_all_categories] returns on a new category forecaster,
    it holds exactly one model per category of the table, in order of first
    appearance, and the model of a category was prepared on the daily series
    of that category's rows alone and is fitted. *)
Theorem train_all_categories_models (table : list Transaction) (col : Transaction -> string)
    (test_size : Z) (self' : CategoryForecaster)
    (Htrained : train_all_categories test_size (new table col) = (self', Ok tt)) :
  map fst (models self') = unique (map col table) /\
  Forall (trained_on table col) (models self').
Proof.
  apply train_all_new in Htrained.
  destruct Htrained as (rest & Hc & Hall & _ & Hok & _).
  rewrite (Hok eq_refl), app_nil_r in Hc. auto.
Qed.

(** X14. When the training of some category raises, [train_all_categories]
    stops there: the models of the categories before it are kept, and neither
    that category nor any later one has a model. *)
Theorem train_all_categories_stops (table : list Transaction) (col : Transaction -> string)
    (test_size : Z) (self' : CategoryForecaster) (e : exn)
    (Hraised : train_all_categories test_size (new table col) = (self', Raise e)) :
  exists failed later,
    unique (map col table) = map fst (models self') ++ failed :: later /\
    Forall (trained_on table col) (models self') /\
    forecasts self' = [].
Proof.
  apply train_all_new in Hraised.
  destruct Hraised as (rest & Hc & Hall & Hfo & _ & Hko).
  specialize (Hko eq_refl). destruct rest as [|failed later]; [contradiction|].
  exists failed, later. auto.
Qed.

Lemma forecast_loop_spec (periods : Z)
    (items : list (string * SalesForecaster.SalesForecaster))
    (self self' : CategoryForecaster) :
  NoDup (map fst items) ->
  (forall c, In c (map fst items) -> ~ In c (map fst (forecasts self))) ->
  forecast_loop periods items self = (self', Ok tt) ->
  exists added,
    forecasts self' = forecasts self ++ added /\
    models self' = models self /\
    Forall2 (fun item entry =>
               fst entry = fst item /\
               SalesForecaster.forecast periods (snd item) = Ok (snd entry))
            items added.
Proof.
  revert self. induction items as [|[c f] items IH]; intros self Hnd Hfresh Hrun;
    simpl in Hrun.
  - injection Hrun as <-. exists []. rewrite app_nil_r. repeat split. constructor.
  - simpl in Hnd. inversion Hnd as [|? ? Hc Hnd']; subst. rewrite list_elem_of_In in Hc.
    destruct (SalesForecaster.forecast periods f) as [fc|e] eqn:Ef; [|discriminate Hrun].
    rewrite dict_set_fresh in Hrun by (apply Hfresh; left; reflexivity).
    apply IH in Hrun; [|exact Hnd'|].
    + destruct Hrun as (added & Hfo & Hm & Hall). simpl in *.
      exists ((c, fc) :: added). repeat split; auto.
      rewrite Hfo, <- app_assoc. reflexivity.
    + simpl. intros c' Hc' Hin. rewrite map_app, in_app_iff in Hin. simpl in Hin.
      destruct Hin as [Hin|[->|[]]]; [|contradiction].
      apply (Hfresh c'); [right; exact Hc' | exact Hin].
Qed.

(** X15. After a successful [train_all_categories] on a new object, a
    successful [forecast_all_categories] returns one forecast per category of
    the table, in order of first appearance, each being what [forecast]
    returns on that category's model. *)
Theorem forecast_all_categories_per_category (table : list Transaction)
    (col : Transaction -> string) (test_size periods : Z)
    (trained self' : CategoryForecaster)
    (out : list (string * list Prophet.ForecastRow))
    (Htrained : train_all_categories test_size (new table col) = (trained, Ok tt))
    (Hforecast : forecast_all_categories periods trained = (self', Ok out)) :
  out = forecasts self' /\
  map fst out = unique (map col table) /\
  Forall2 (fun item entry =>
             fst entry = fst item /\
             SalesForecaster.forecast periods (snd item) = Ok (snd entry))
          (models trained) out.
Proof.
  apply train_all_new in Htrained.
  destruct Htrained as (rest & Hkeys & _ & Hfo & Hok & _).
  rewrite (Hok eq_refl), app_nil_r in Hkeys. symmetry in Hkeys.
  unfold forecast_all_categories in Hforecast.
  destruct (forecast_loop periods (models trained) trained) as [s [[]|e]] eqn:El;
    [|discriminate Hforecast].
  injection Hforecast as <- <-.
  apply forecast_loop_spec in El.
  - destruct El as (added & Ha & _ & Hall). rewrite Hfo in Ha. simpl in Ha. rewrite Ha.
    split; [reflexivity|]. split; [|exact Hall].
    rewrite <- Hkeys. clear -Hall. induction Hall as [|item entry ? ? [H _] _ IH]; simpl;
      [reflexivity | rewrite H, IH; reflexivity].
  - rewrite Hkeys. apply unique_NoDup.
  - rewrite Hfo. intros c _ [].
Qed.

(** X16. In the combined forecast the rows tagged with a category are that
    category's forecast, row for row and in order, as long as the forecast
    dictionary has each category once. *)
Theorem combined_forecast_of_category (self : CategoryForecaster) (category : string)
    (fc : list Prophet.ForecastRow)
    (Hkeys : NoDup (map fst (forecasts self)))
    (Hentry : In (category, fc) (forecasts self)) :
  filter (fun row => String.eqb (snd row) category) (get_combined_forecast self)
  = map (fun r => (Prophet.ds r, Prophet.yhat r, category)) fc.
Proof.
  unfold get_combined_forecast.
  assert (Hsame : forall (c : string) (l : list Prophet.ForecastRow),
             filter (fun row : Calendar.date * Q * string => String.eqb (snd row) c)
               (map (fun r => (Prophet.ds r, Prophet.yhat r, c)) l)
             = map (fun r => (Prophet.ds r, Prophet.yhat r, c)) l).
  { intros c l. induction l as [|r l IH]; [reflexivity|]. simpl.
    rewrite filter_cons. simpl. rewrite String.eqb_refl. simpl. rewrite IH. reflexivity. }
  assert (Hother : forall (c c' : string) (l : list Prophet.ForecastRow), c' <> c ->
             filter (fun row : Calendar.date * Q * string => String.eqb (snd row) c)
               (map (fun r => (Prophet.ds r, Prophet.yhat r, c')) l) = []).
  { intros c c' l Hne. induction l as [|r l IH]; [reflexivity|]. simpl.
    rewrite filter_cons. simpl.
    destruct (String.eqb_spec c' c); [contradiction|]. simpl. exact IH. }
  induction (forecasts self) as [|[c l] rest IH]; [destruct Hentry|].
  simpl in *. inversion Hkeys as [|? ? Hc Hnd]; subst. rewrite list_elem_of_In in Hc.
  rewrite filter_app. destruct Hentry as [[= -> ->]|Hin].
  - rewrite Hsame.
    assert (Hrest : filter (fun row : Calendar.date * Q * string => String.eqb (snd row) category)
                      (concat (map (fun '(c, fc0) =>
                                      map (fun r => (Prophet.ds r, Prophet.yhat r, c)) fc0)
                                   rest)) = []).
    { clear -Hc Hother. induction rest as [|[c' l'] rest IH]; [reflexivity|].
      simpl in *. rewrite filter_app, Hother, IH; [reflexivity | tauto | ].
      intros ->. tauto. }
    rewrite Hrest, app_nil_r. reflexivity.
  - rewrite Hother, (IH Hnd Hin); [reflexivity|].
    intros ->. apply Hc. apply in_map_iff. exists (category, fc). split; [reflexivity | exact Hin].
Qed.

End WithLibraries.

(** ** Two categories and the naive forecaster *)

Definition sale (day : Z) (category : string) (amount : Q) : Transaction :=
  mkTransaction (1000 + day)%Z (Calendar.days_from_civil 2020 1 1 + day)%Z
    "Amhara" category "Retail" 1%Z amount amount "ETB".

(** Three days of coffee and of teff. *)
Definition two_categories : list Transaction :=
  [sale 0 "Coffee" 10; sale 0 "Teff" 5; sale 1 "Coffee" 20; sale 1 "Teff" 6;
   sale 2 "Coffee" 30; sale 2 "Teff" 7].

(** Three days of coffee, a single day of teff and of honey. *)
Definition one_day_of_teff : list Transaction :=
  [sale 0 "Coffee" 10; sale 0 "Teff" 5; sale 1 "Coffee" 20; sale 2 "Coffee" 30;
   sale 2 "Honey" 3].

Definition trained_two : @CategoryForecaster Naive.prophet :=
  fst (@train_all_categories Naive.prophet 1
         (@new Naive.prophet two_categories product_category)).

Definition forecast_two : @CategoryForecaster Naive.prophet :=
  fst (@forecast_all_categories Naive.prophet 2 trained_two).

Lemma train_all_categories_models_witness :
  map fst (models trained_two) = unique (map product_category two_categories) /\
  Forall (trained_on two_categories product_category) (models trained_two).
Proof.
  apply (@train_all_categories_models Naive.prophet two_categories product_category 1
           trained_two).
  vm_compute. reflexivity.
Defined.

(** Teff has too few days for a fit: coffee keeps its model, teff and honey
    get none. *)
Lemma train_all_categories_stops_witness :
  exists failed later,
    unique (map product_category one_day_of_teff)
    = map fst (models (fst (@train_all_categories Naive.prophet 1
                              (@new Naive.prophet one_day_of_teff product_category))))
        ++ failed :: later /\
    Forall (trained_on one_day_of_teff product_category)
      (models (fst (@train_all_categories Naive.prophet 1
                      (@new Naive.prophet one_day_of_teff product_category)))) /\
    forecasts (fst (@train_all_categories Naive.prophet 1
                      (@new Naive.prophet one_day_of_teff product_category))) = [].
Proof.
  apply (@train_all_categories_stops Naive.prophet one_day_of_teff product_category 1 _
           (ValueError "Dataframe has less than 2 non-NaN rows.")).
  vm_compute. reflexivity.
Defined.

Lemma forecast_all_categories_per_category_witness :
  forecasts forecast_two = forecasts forecast_two /\
  map fst (forecasts forecast_two) = unique (map product_category two_categories) /\
  Forall2 (fun item entry =>
             fst entry = fst item /\
             SalesForecaster.forecast 2 (snd item) = Ok (snd entry))
          (models trained_two) (forecasts forecast_two).
Proof.
  apply (@forecast_all_categories_per_category Naive.prophet two_categories product_category
           1 2 trained_two forecast_two (forecasts forecast_two)).
  - vm_compute. reflexivity.
  - vm_compute. reflexivity.
Defined.

Lemma combined_forecast_of_category_witness :
  filter (fun row => String.eqb (snd row) "Teff") (get_combined_forecast forecast_two)
  = map (fun r => (Prophet.ds r, Prophet.yhat r, "Teff"))
      (default [] (snd <$> forecasts forecast_two !! 1%nat)).
Proof.
  apply (@combined_forecast_of_category Naive.prophet forecast_two "Teff").
  - vm_compute. repeat constructor; intros H; inversion H as [|? ? ? H']; inversion H'.
  - vm_compute. right. left. reflexivity.
Defined.

End CategoryProps.

(* ===================================================================== *)
(** * [backend/model.py]: statistics, trends, categories, insights *)
(* ===================================================================== *)

Module ServiceStats.
Import Float Frame PyNum InsightEngine ForecastingService.
Local Open Scope Q_scope.

(** One entry of [get_product_stats] / [get_region_stats]; [key] is the
    ['product'] or ['region'] of the dictionary. *)
Record StatRow := mkStat {
  key : string;
  stat_total_sales : Q;
  avg_sales : Q;
  num_transactions : Z
}.


Record Trends := mkTrends {
  periods : list Z;
  sales : list Q
}.

(** [groupby(col).agg({'total_sales': ['sum', 'mean', 'count']}).round(2)]
    followed by [sort_values('total_sales', ascending=False)]: per group the
    sum, the mean and the number of its rows.  Groups of equal total keep
    their key order here; pandas leaves the order of ties to its sorting
    algorithm, and nothing proved below depends on it. *)
Definition group_stats (col : Transaction -> string) (table : list Transaction)
  : list StatRow :=
  let sums := groupby_sum String.compare (map (fun t => (col t, total_sales t)) table) in
  let rows :=
    map (fun '(k, s) =>
           let n := length (filter (fun t => col t = k) table) in
           (mkStat k (round2 s) (round2 (s / inject_Z (Z.of_nat n))) (Z.of_nat n),
            round2 s))
        sums in
  map fst (sort_descending rows).

(** The key of a date under [get_trends]: the day, the Monday-to-Sunday week
    ([to_period('W')]) or the month ([to_period('M')]); any other period name
    is handled as the monthly one. *)
Definition period_key (period : string) (d : Calendar.date) : Z :=
  if String.eqb period "daily" then d
  else if String.eqb period "weekly" then ((d + 3) / 7)%Z
  else Calendar.to_period_M d.

(** [idxmax()] of a series: the label of the first largest value. *)
Definition idxmax (l : list (string * Q)) : result string :=
  match l with
  | [] => Raise (ValueError "attempt to get argmax of an empty sequence")
  | first :: rest =>
      Ok (fst (fold_left (fun best p => if Qle_bool (snd p) (snd best) then best else p)
                 rest first))
  end.



(** [sorted(list)] on strings. *)
Fixpoint insert_string (x : string) (l : list string) : list string :=
  match l with
  | [] => [x]
  | y :: rest => if String.leb y x then y :: insert_string x rest else x :: l
  end.

Definition sorted_strings (l : list string) : list string :=
  fold_left (fun acc x => insert_string x acc) l [].

Section WithLibraries.
Context `{PL : Prophet.Lib}.

(** What an attribute access or a subscript on [self.df] does while it is
    still [None]. *)
Definition df_attr (attr : string) (self : ForecastingService) : result (list Transaction) :=
  match df self with
  | Some table => Ok table
  | None => Raise (AttributeError ("'NoneType' object has no attribute '" ++ attr ++ "'"))
  end.

Definition df_item (self : ForecastingService) : result (list Transaction) :=
  match df self with
  | Some table => Ok table
  | None => Raise (TypeError "'NoneType' object is not subscriptable")
  end.


(** [get_product_stats()]. *)
Definition get_product_stats (self : ForecastingService) : result (list StatRow) :=
  table ← df_attr "groupby" self; Ok (group_stats product_category table).

(** [get_region_stats()]. *)
Definition get_region_stats (self : ForecastingService) : result (list StatRow) :=
  table ← df_attr "groupby" self; Ok (group_stats region table).

(** [get_trends(period)]; the period labels stay numbers (day number, week
    number, month number) instead of their string rendering. *)
Definition get_trends (period : string) (self : ForecastingService) : result Trends :=
  table ← df_attr "copy" self;
  let trends :=
    groupby_sum Z.compare (map (fun t => (period_key period (date t), total_sales t)) table) in
  Ok (mkTrends (map fst trends) (map snd trends)).

(** [get_categories()]. *)
Definition get_categories (self : ForecastingService) : result (list string) :=
  table ← df_item self;
  Ok (sorted_strings (CategoryForecaster.unique (map product_category table))).

Section WithFormat.
Variable fmt_1f : fnum -> string.

(** [generate_insights()]. *)
Definition generate_insights (self : ForecastingService) : result (list Insight) :=
  table ← df_attr "groupby" self;
  let monthly_sales :=
    map snd (groupby_sum Z.compare
               (map (fun t => (Calendar.to_period_M (date t), total_sales t)) table)) in
  let growth_rate := fmul (series_mean (pct_change monthly_sales)) (Fin 100) in
  let insights :=
    if fgt growth_rate (Fin 5) then
      [mkInsight "Growth" "positive" "Strong Growth Trend"
         ("Average monthly growth of " ++ fmt_1f growth_rate ++ "%")
         "Scale operations to meet increasing demand"]
    else [] in
  top_product ←
    idxmax (groupby_sum String.compare
              (map (fun t => (product_category t, total_sales t)) table));
  let insights :=
    insights ++
    [mkInsight "Products" "info" (top_product ++ " - Top Performer")
       (top_product ++ " generates highest revenue")
       ("Expand " ++ top_product ++ " product line")] in
  top_region ←
    idxmax (groupby_sum String.compare (map (fun t => (region t, total_sales t)) table));
  Ok (insights ++
      [mkInsight "Geography" "info" (top_region ++ " - Leading Market")
         (top_region ++ " shows strongest performance")
         ("Use " ++ top_region ++ " strategy as template")]).

End WithFormat.

End WithLibraries.

End ServiceStats.

(* ===================================================================== *)
(** * Properties of the statistics, trends, categories and insights *)
(* ===================================================================== *)

Module ServiceStatsProps.
Import Float Frame PyNum InsightEngine ForecastingService ServiceStats GroupByProps.
Local Open Scope Q_scope.

Abbreviation string_lt := (key_lt String.compare).

(** Total sales of the rows whose column [col] is [k]. *)
Definition Zsum (l : list Z) : Z := fold_right Z.add 0%Z l.

Lemma Zsum_perm (l l' : list Z) : Permutation l l' -> Zsum l = Zsum l'.
Proof. induction 1; simpl; lia. Qed.

(** Each row is counted under exactly one of the distinct keys. *)
Lemma count_by_key (col : Transaction -> string) (table : list Transaction)
    (keys : list string) :
  NoDup keys -> (forall t, In t table -> In (col t) keys) ->
  Zsum (map (fun k => Z.of_nat (length (filter (fun t => col t = k) table))) keys)
  = Z.of_nat (length table).
Proof.
  intros Hnd. induction table as [|t table IH]; intros Hin.
  - clear. induction keys as [|k ks IHk]; [reflexivity|].
    cbn [map Zsum fold_right]. unfold Zsum in IHk. rewrite IHk. reflexivity.
  - assert (Hsplit : forall ks, NoDup ks ->
              Zsum (map (fun k => Z.of_nat (length (filter (fun t => col t = k) (t :: table)))) ks)
              = (Zsum (map (fun k => Z.of_nat (length (filter (fun t => col t = k) table))) ks)
                 + (if bool_decide (col t ∈ ks) then 1 else 0))%Z).
    { clear. induction ks as [|k ks IHk]; intros Hnd; [reflexivity|].
      inversion Hnd as [|? ? Hk Hnd']; subst.
      cbn [map Zsum fold_right].
      fold (Zsum (map (fun k => Z.of_nat (length (filter (fun t0 => col t0 = k) (t :: table)))) ks)).
      fold (Zsum (map (fun k => Z.of_nat (length (filter (fun t0 => col t0 = k) table))) ks)).
      rewrite (IHk Hnd'). rewrite filter_cons.
      destruct (decide (col t = k)) as [E|E].
      - subst k. rewrite (bool_decide_eq_true_2 (col t ∈ col t :: ks)) by (left).
        rewrite (bool_decide_eq_false_2 (col t ∈ ks)) by exact Hk.
        cbn [length]. lia.
      - destruct (bool_decide_reflect (col t ∈ ks)) as [Hi|Hi].
        + rewrite (bool_decide_eq_true_2 (col t ∈ k :: ks)) by (right; exact Hi).
          lia.
        + rewrite (bool_decide_eq_false_2 (col t ∈ k :: ks)).
          * lia.
          * intros H. inversion H as [|? ? ? H2]; subst; [exact (E eq_refl) | exact (Hi H2)]. }
    rewrite (Hsplit keys Hnd), IH by (intros; apply Hin; right; assumption).
    rewrite bool_decide_eq_true_2 by (apply list_elem_of_In, Hin; left; reflexivity).
    cbn [length]. lia.
Qed.

Section Stats.
Variable col : Transaction -> string.
Variable table : list Transaction.

Let sums := groupby_sum String.compare (map (fun t => (col t, total_sales t)) table).

Let unsorted : list (StatRow * Q) :=
  map (fun '(k, s) =>
         let n := length (filter (fun t => col t = k) table) in
         (mkStat k (round2 s) (round2 (s / inject_Z (Z.of_nat n))) (Z.of_nat n), round2 s))
      sums.

Lemma sums_keys :
  NoDup (map fst sums) /\
  forall k, In k (map fst sums) <-> exists t, In t table /\ col t = k.
Proof.
  destruct (groupby_key_set String.compare string_compare_eq String.compare_antisym
              string_compare_lt_trans Qplus (map (fun t => (col t, total_sales t)) table))
    as (_ & Hnd & Hin).
  split; [exact Hnd|]. intros k. subst sums. unfold groupby_sum. rewrite Hin.
  rewrite map_map. simpl. rewrite in_map_iff. split.
  - intros [t [Ht Hi]]. eauto.
  - intros [t [Hi Ht]]. eauto.
Qed.

Lemma group_stats_perm : Permutation (group_stats col table) (map fst unsorted).
Proof.
  unfold group_stats. apply Permutation_map. apply sort_by_perm.
Qed.

Lemma unsorted_keys : map key (map fst unsorted) = map fst sums.
Proof.
  subst unsorted. rewrite !map_map. apply map_ext. intros [k s]. reflexivity.
Qed.

Definition well_formed_row (r : StatRow) : Prop :=
  stat_total_sales r == round2 (column_total col table (key r)) /\
  num_transactions r = Z.of_nat (length (filter (fun t => col t = key r) table)) /\
  (0 < num_transactions r)%Z.

Lemma unsorted_rows : Forall well_formed_row (map fst unsorted).
Proof.
  subst unsorted. rewrite map_map. apply Forall_forall. intros r Hr.
  apply list_elem_of_In, in_map_iff in Hr. destruct Hr as [[k s] [<- Hin]]. simpl.
  split; [|split].
  - apply round2_Qeq. rewrite <- key_total_column.
    apply (groupby_sum_value String.compare string_compare_eq String.compare_antisym
             string_compare_lt_trans _ k s Hin).
  - reflexivity.
  - assert (Hk : In k (map fst sums)) by (apply in_map_iff; exists (k, s); auto).
    apply sums_keys in Hk. destruct Hk as [t [Ht Hc]].
    assert (Hin' : t ∈ filter (fun t => col t = k) table).
    { apply list_elem_of_filter. split; [exact Hc | apply list_elem_of_In; exact Ht]. }
    destruct (filter (fun t => col t = k) table); [inversion Hin' | simpl; lia].
Qed.

Lemma group_stats_sorted :
  StronglySorted (fun a b => stat_total_sales b <= stat_total_sales a) (group_stats col table).
Proof.
  unfold group_stats. fold sums. fold unsorted.
  pose proof (sort_descending_sorted unsorted) as Hs.
  assert (Hpair : Forall (fun p : StatRow * Q => snd p = stat_total_sales (fst p))
                    (sort_descending unsorted)).
  { eapply Permutation_Forall; [symmetry; apply sort_by_perm|].
    subst unsorted. apply Forall_forall. intros p Hp.
    apply list_elem_of_In, in_map_iff in Hp. destruct Hp as [[k s] [<- _]]. reflexivity. }
  induction Hs as [|p l Hl IH Hall]; [constructor|].
  inversion Hpair as [|? ? Hp Hpl]; subst. simpl. constructor; [apply IH; exact Hpl|].
  rewrite Forall_forall in Hall, Hpl. apply Forall_forall. intros r Hr.
  apply list_elem_of_In, in_map_iff in Hr. destruct Hr as [q [<- Hq]].
  apply list_elem_of_In in Hq. specialize (Hall q Hq). unfold descending in Hall.
  rewrite <- Hp, <- (Hpl q Hq). exact Hall.
Qed.

Lemma group_stats_spec :
  StronglySorted (fun a b => stat_total_sales b <= stat_total_sales a) (group_stats col table) /\
  NoDup (map key (group_stats col table)) /\
  (forall k, In k (map key (group_stats col table)) <-> exists t, In t table /\ col t = k) /\
  Forall well_formed_row (group_stats col table) /\
  Zsum (map num_transactions (group_stats col table)) = Z.of_nat (length table).
Proof.
  pose proof group_stats_perm as Hperm.
  pose proof (Permutation_map key Hperm) as Hkeys. rewrite unsorted_keys in Hkeys.
  destruct sums_keys as [Hnd Hin].
  split; [apply group_stats_sorted|]. split; [|split; [|split]].
  - rewrite Hkeys. exact Hnd.
  - intros k. rewrite <- Hin. split; intros H.
    + eapply Permutation_in; [exact Hkeys | exact H].
    + eapply Permutation_in; [symmetry; exact Hkeys | exact H].
  - eapply Permutation_Forall; [symmetry; exact Hperm | apply unsorted_rows].
  - rewrite (Zsum_perm _ _ (Permutation_map num_transactions Hperm)).
    subst unsorted. rewrite !map_map.
    rewrite <- (count_by_key col table (map fst sums) Hnd).
    + rewrite map_map. f_equal. apply map_ext. intros [k s]. reflexivity.
    + intros t Ht. apply Hin. eauto.
Qed.

End Stats.

(** ** [idxmax] *)

Lemma idxmax_fold (rest : list (string * Q)) (first : string * Q) :
  let best := fold_left (fun best p => if Qle_bool (snd p) (snd best) then best else p)
                rest first in
  In best (first :: rest) /\ forall p, In p (first :: rest) -> snd p <= snd best.
Proof.
  revert first. induction rest as [|q rest IH]; intros first; simpl.
  - split; [left; reflexivity|]. intros p [<-|[]]. lra.
  - destruct (Qle_bool (snd q) (snd first)) eqn:E.
    + apply Qle_bool_iff in E. destruct (IH first) as [Hin Hmax]. split.
      * destruct Hin as [Hin|Hin]; [left; exact Hin | right; right; exact Hin].
      * intros p [<-|[<-|Hp]].
        -- apply Hmax. left. reflexivity.
        -- specialize (Hmax first (or_introl eq_refl)). lra.
        -- apply Hmax. right. exact Hp.
    + assert (Hlt : snd first < snd q).
      { apply Qnot_le_lt. intros H. apply Qle_bool_iff in H. congruence. }
      destruct (IH q) as [Hin Hmax]. split.
      * right. exact Hin.
      * intros p [<-|[<-|Hp]].
        -- specialize (Hmax q (or_introl eq_refl)). lra.
        -- apply Hmax. left. reflexivity.
        -- apply Hmax. right. exact Hp.
Qed.

Lemma idxmax_spec (l : list (string * Q)) :
  match idxmax l with
  | Ok k => exists v, In (k, v) l /\ forall p, In p l -> snd p <= v
  | Raise _ => l = []
  end.
Proof.
  destruct l as [|first rest]; [reflexivity|]. unfold idxmax.
  destruct (idxmax_fold rest first) as [Hin Hmax].
  remember (fold_left _ rest first) as best. destruct best as [k v]. simpl.
  exists v. split; [exact Hin | exact Hmax].
Qed.

(** The key [idxmax] picks from the totals per value of a column: a value of
    the column whose rows add up to at least as much as those of any other. *)
Definition top_of (col : Transaction -> string) (table : list Transaction) (k : string)
  : Prop :=
  (exists t, In t table /\ col t = k) /\
  forall t, In t table -> column_total col table (col t) <= column_total col table k.

Lemma top_of_column (col : Transaction -> string) (table : list Transaction) :
  match idxmax (groupby_sum String.compare (map (fun t => (col t, total_sales t)) table)) with
  | Ok k => top_of col table k
  | Raise _ => table = []
  end.
Proof.
  pose proof (idxmax_spec (groupby_sum String.compare
                             (map (fun t => (col t, total_sales t)) table))) as H.
  destruct (sums_keys col table) as [_ Hkeys].
  destruct (idxmax _) as [k|e].
  - destruct H as [v [Hin Hmax]].
    assert (Hv := groupby_sum_value String.compare string_compare_eq String.compare_antisym
                    string_compare_lt_trans _ k v Hin).
    rewrite key_total_column in Hv. split.
    + apply Hkeys. apply in_map_iff. exists (k, v). auto.
    + intros t Ht.
      assert (Hk : In (col t) (map fst (groupby_sum String.compare
                                          (map (fun t => (col t, total_sales t)) table)))).
      { apply Hkeys. eauto. }
      apply in_map_iff in Hk. destruct Hk as [[k' v'] [Hk' Hin']]. simpl in Hk'. subst k'.
      assert (Hv' := groupby_sum_value String.compare string_compare_eq String.compare_antisym
                       string_compare_lt_trans _ (col t) v' Hin').
      rewrite key_total_column in Hv'. specialize (Hmax _ Hin'). simpl in Hmax.
      rewrite <- Hv, <- Hv'. exact Hmax.
  - destruct table as [|t table]; [reflexivity|]. exfalso.
    assert (Hk : In (col t) (map fst (groupby_sum String.compare
                      (map (fun t => (col t, total_sales t)) (t :: table))))).
    { apply Hkeys. exists t. split; [left; reflexivity | reflexivity]. }
    rewrite H in Hk. exact Hk.
Qed.

(** ** [sorted] *)

Definition string_le (a b : string) : Prop := String.compare a b <> Gt.

Lemma string_leb_le (a b : string) : String.leb a b = true <-> string_le a b.
Proof.
  unfold String.leb, string_le. destruct (String.compare a b); split; congruence.
Qed.

Lemma string_le_total (a b : string) : String.leb a b = false -> string_le b a.
Proof.
  unfold String.leb, string_le. rewrite (String.compare_antisym a b).
  destruct (String.compare b a); simpl; congruence.
Qed.

Lemma string_le_trans (a b c : string) : string_le a b -> string_le b c -> string_le a c.
Proof.
  unfold string_le. intros Hab Hbc.
  destruct (String.compare a b) eqn:Eab; [| |congruence].
  - apply string_compare_eq in Eab. subst. exact Hbc.
  - destruct (String.compare b c) eqn:Ebc; [| |congruence].
    + apply string_compare_eq in Ebc. subst. rewrite Eab. discriminate.
    + rewrite (string_compare_lt_trans a b c Eab Ebc). discriminate.
Qed.

Lemma insert_string_perm (x : string) (l : list string) :
  Permutation (insert_string x l) (x :: l).
Proof.
  induction l as [|y l IH]; simpl; [reflexivity|].
  destruct (String.leb y x); [|reflexivity].
  rewrite IH. apply perm_swap.
Qed.

Lemma insert_string_sorted (x : string) (l : list string) :
  StronglySorted string_le l -> StronglySorted string_le (insert_string x l).
Proof.
  induction l as [|y l IH]; intros Hs; simpl; [repeat constructor|].
  inversion Hs as [|? ? Hl Hall]; subst.
  destruct (String.leb y x) eqn:E.
  - apply string_leb_le in E. constructor; [apply IH; exact Hl|].
    rewrite (insert_string_perm x l). constructor; assumption.
  - apply string_le_total in E. constructor; [exact Hs|].
    constructor; [exact E|]. eapply Forall_impl; [exact Hall|].
    intros z Hz. eapply string_le_trans; eassumption.
Qed.

Lemma sorted_strings_spec (l : list string) :
  Permutation (sorted_strings l) l /\ StronglySorted string_le (sorted_strings l).
Proof.
  unfold sorted_strings.
  assert (H : forall acc, StronglySorted string_le acc ->
            Permutation (fold_left (fun acc x => insert_string x acc) l acc) (l ++ acc) /\
            StronglySorted string_le (fold_left (fun acc x => insert_string x acc) l acc)).
  { induction l as [|x l IH]; intros acc Hacc; simpl; [split; [reflexivity | exact Hacc]|].
    destruct (IH (insert_string x acc) (insert_string_sorted x acc Hacc)) as [Hp Hs].
    split; [|exact Hs]. rewrite Hp, insert_string_perm. symmetry. apply Permutation_middle. }
  destruct (H [] ltac:(constructor)) as [Hp Hs]. rewrite app_nil_r in Hp. auto.
Qed.

Lemma sorted_distinct_strict (l : list string) :
  NoDup l -> StronglySorted string_le l -> StronglySorted string_lt l.
Proof.
  intros Hnd Hs. induction Hs as [|x l Hl IH Hall]; [constructor|].
  inversion Hnd as [|? ? Hx Hnd']; subst. constructor; [apply IH; exact Hnd'|].
  rewrite Forall_forall in Hall. apply Forall_forall. intros y Hy.
  specialize (Hall y Hy). unfold string_le in Hall. unfold key_lt.
  destruct (String.compare x y) eqn:E; [|reflexivity|congruence].
  apply string_compare_eq in E. subst. contradiction.
Qed.

(** ** The service methods *)

Definition product_insight (p : string) : Insight :=
  mkInsight "Products" "info" (p ++ " - Top Performer") (p ++ " generates highest revenue")
    ("Expand " ++ p ++ " product line").

Definition region_insight (r : string) : Insight :=
  mkInsight "Geography" "info" (r ++ " - Leading Market") (r ++ " shows strongest performance")
    ("Use " ++ r ++ " strategy as template").

Definition growth_insight (description : string) : Insight :=
  mkInsight "Growth" "positive" "Strong Growth Trend" description
    "Scale operations to meet increasing demand".

Definition within (start stop : option Calendar.date) (d : Calendar.date) : Prop :=
  match start with Some s => (s <= d)%Z | None => True end /\
  match stop with Some e => (d <= e)%Z | None => True end.

Definition selected (category : option string) (t : Transaction) : Prop :=
  truthy category = true -> category = Some (product_category t).

Lemma filter_by_In (proj : Transaction -> string) (arg : option string)
    (table : list Transaction) (t : Transaction) :
  In t (filter_by proj arg table) <->
  In t table /\ (truthy arg = true -> arg = Some (proj t)).
Proof.
  unfold filter_by. destruct arg as [x|]; simpl.
  - destruct (String.eqb x "") eqn:E; simpl.
    + split; [intros H; split; [exact H | discriminate] | intros [H _]; exact H].
    + rewrite <- list_elem_of_In, list_elem_of_filter, list_elem_of_In. split.
      * intros [Hx Hin]. apply Is_true_true, String.eqb_eq in Hx. subst. auto.
      * intros [Hin Hx]. specialize (Hx eq_refl). injection Hx as ->.
        split; [apply Is_true_true, String.eqb_refl | exact Hin].
  - split; [intros H; split; [exact H | discriminate] | intros [H _]; exact H].
Qed.

Lemma bounded_In (start stop : option Calendar.date) (table : list Transaction)
    (t : Transaction) :
  In t (match stop with
        | Some d => filter (fun t => (date t <=? d)%Z)
                      (match start with
                       | Some d => filter (fun t => (d <=? date t)%Z) table
                       | None => table
                       end)
        | None => match start with
                  | Some d => filter (fun t => (d <=? date t)%Z) table
                  | None => table
                  end
        end)
  <-> In t table /\ within start stop (date t).
Proof.
  unfold within.
  destruct stop as [e|], start as [s|];
    rewrite <- ?list_elem_of_In, ?list_elem_of_filter, ?Is_true_true, ?Z.leb_le; tauto.
Qed.

(** ** Extremes of a date column *)



Section WithLibraries.
Context `{PL : Prophet.Lib}.


(** X18. The product statistics (and the region statistics, which differ in
    the column only) list every value of the column that occurs in the
    table exactly once, largest rounded total first; an entry's total is
    the rounded sum of its rows, its count their number, never zero, and the
    counts add up to the number of transactions. *)
Theorem stats_cover_table (self : ForecastingService) (table : list Transaction) :
  df self = Some table ->
  get_product_stats self = Ok (group_stats product_category table) /\
  get_region_stats self = Ok (group_stats region table) /\
  forall col,
    let rows := group_stats col table in
    StronglySorted (fun a b => stat_total_sales b <= stat_total_sales a) rows /\
    NoDup (map key rows) /\
    (forall k, In k (map key rows) <-> exists t, In t table /\ col t = k) /\
    Forall (well_formed_row col table) rows /\
    Zsum (map num_transactions rows) = Z.of_nat (length table).
Proof.
  intros Hdf. unfold get_product_stats, get_region_stats, df_attr. rewrite Hdf.
  split; [reflexivity|]. split; [reflexivity|].
  intros col. apply group_stats_spec.
Qed.

(** X19. Whatever the period, the trend groups every sale under its
    period: the period labels are strictly increasing, each is the period of
    some transaction and every transaction's period is listed, and each
    label comes with one amount, the sum of the transactions of that
    period. *)
Theorem trends_group_by_period (period : string) (self : ForecastingService)
    (table : list Transaction) :
  df self = Some table ->
  exists tr,
    get_trends period self = Ok tr /\
    StronglySorted Z.lt (periods tr) /\
    (forall p, In p (periods tr) <->
               exists t, In t table /\ period_key period (date t) = p) /\
    Forall2 (fun p v => v == column_total (fun t => period_key period (date t)) table p)
      (periods tr) (sales tr).
Proof.
  intros Hdf. unfold get_trends, df_attr. rewrite Hdf. cbn [mbind result_bind].
  eexists. split; [reflexivity|]. cbn [periods sales].
  destruct (groupby_key_set Z.compare Z_compare_eq (fun a b => Z.compare_antisym b a)
              Z_compare_lt_trans Qplus
              (map (fun t => (period_key period (date t), total_sales t)) table))
    as (Hs & _ & Hin).
  split; [exact Hs|]. split.
  - intros p. unfold groupby_sum. rewrite Hin, map_map. simpl. rewrite in_map_iff.
    split; intros [t H]; exists t; tauto.
  - assert (Hall : forall k v,
              In (k, v) (groupby_sum Z.compare
                           (map (fun t => (period_key period (date t), total_sales t)) table)) ->
              v == column_total (fun t => period_key period (date t)) table k).
    { intros k v Hkv. rewrite <- key_total_column.
      apply (groupby_sum_value Z.compare Z_compare_eq (fun a b => Z.compare_antisym b a)
               Z_compare_lt_trans _ k v Hkv). }
    revert Hall. generalize (groupby_sum Z.compare
                     (map (fun t => (period_key period (date t), total_sales t)) table)).
    intros l. induction l as [|[k v] l IH]; intros Hall; simpl; constructor.
    + apply Hall. left. reflexivity.
    + apply IH. intros k' v' H. apply Hall. right. exact H.
Qed.

(** X20. The category list is strictly increasing in string order, so free
    of duplicates, and holds exactly the product categories of the table. *)
Theorem categories_sorted_distinct (self : ForecastingService) (table : list Transaction) :
  df self = Some table ->
  exists cats,
    get_categories self = Ok cats /\
    StronglySorted string_lt cats /\
    forall c, In c cats <-> exists t, In t table /\ product_category t = c.
Proof.
  intros Hdf. unfold get_categories, df_item. rewrite Hdf. cbn [mbind result_bind].
  eexists. split; [reflexivity|].
  destruct (sorted_strings_spec (CategoryForecaster.unique (map product_category table)))
    as [Hp Hs].
  split.
  - apply sorted_distinct_strict; [|exact Hs]. rewrite Hp. apply CategoryProps.unique_NoDup.
  - intros c. split.
    + intros H. apply (Permutation_in _ Hp), CategoryProps.unique_In, in_map_iff in H.
      destruct H as [t [Ht Hin]]. eauto.
    + intros [t [Hin Ht]]. apply (Permutation_in _ (Permutation_sym Hp)).
      apply CategoryProps.unique_In, in_map_iff. eauto.
Qed.

(** X21. On a table with at least one transaction [generate_insights]
    returns at most one growth insight followed by the top product and the
    top region, each a value of its column whose transactions add up to no
    less than those of any other value; on an empty table it raises the
    [ValueError] of [idxmax]. *)
Theorem insights_name_the_largest (fmt_1f : fnum -> string) (self : ForecastingService)
    (table : list Transaction) :
  df self = Some table ->
  match generate_insights fmt_1f self with
  | Ok insights =>
      exists growth p r,
        insights = growth ++ [product_insight p; region_insight r] /\
        (growth = [] \/ exists description, growth = [growth_insight description]) /\
        top_of product_category table p /\ top_of region table r
  | Raise e =>
      table = [] /\ e = ValueError "attempt to get argmax of an empty sequence"
  end.
Proof.
  intros Hdf. unfold generate_insights, df_attr. rewrite Hdf. cbn [mbind result_bind].
  pose proof (top_of_column product_category table) as Hp.
  pose proof (top_of_column region table) as Hr.
  destruct (idxmax (groupby_sum String.compare
                      (map (fun t => (product_category t, total_sales t)) table)))
    as [p|e] eqn:Ep.
  - destruct (idxmax (groupby_sum String.compare
                        (map (fun t => (region t, total_sales t)) table)))
      as [r|e] eqn:Er.
    + cbn [mbind result_bind]. eexists _, p, r. rewrite <- app_assoc.
      split; [reflexivity|]. split; [|split; assumption].
      destruct (fgt _ _); [right; eexists; reflexivity | left; reflexivity].
    + subst table. discriminate Ep.
  - cbn [mbind result_bind]. subst table. split; [reflexivity|].
    cbn in Ep. congruence.
Qed.

(** X22. The dates of the historical response are strictly increasing, and
    a date is listed exactly when a transaction of that day lies within the
    requested bounds and has the requested category; an empty category
    string selects every category. *)
Theorem historical_dates_selected (start stop : option Calendar.date)
    (category : option string) (self : ForecastingService) (table : list Transaction) :
  df self = Some table ->
  exists h,
    get_historical_data start stop category self = Ok h /\
    length (h_dates h) = length (h_sales h) /\
    StronglySorted Z.lt (h_dates h) /\
    forall d, In d (h_dates h) <->
              exists t, In t table /\ date t = d /\ within start stop d /\ selected category t.
Proof.
  intros Hdf. unfold get_historical_data, read_df. rewrite Hdf. cbn [mbind result_bind].
  eexists. split; [reflexivity|]. cbn [h_dates h_sales].
  split; [rewrite !length_map; reflexivity|].
  split; [apply AggregationProps.daily_sales_dates_increasing|].
  intros d. rewrite ForecasterExtras.daily_sales_keys.
  split.
  - intros [t [Hin Hd]]. exists t. apply filter_by_In in Hin. destruct Hin as [Hin Hsel].
    apply bounded_In in Hin. destruct Hin as [Hin Hw]. subst d. auto.
  - intros [t (Hin & Hd & Hw & Hsel)]. exists t. split; [|exact Hd].
    apply filter_by_In. split; [|exact Hsel]. apply bounded_In. subst d. auto.
Qed.

End WithLibraries.

(** ** A shop with two categories *)

Definition shop : @ForecastingService Naive.prophet :=
  @load_data Naive.prophet (Ok CategoryProps.two_categories) (@new Naive.prophet).

Lemma stats_cover_table_witness :
  @get_product_stats Naive.prophet shop
  = Ok (group_stats product_category CategoryProps.two_categories) /\
  map key (group_stats product_category CategoryProps.two_categories) = ["Coffee"; "Teff"] /\
  Zsum (map num_transactions (group_stats product_category CategoryProps.two_categories))
  = 6%Z.
Proof.
  destruct (@stats_cover_table Naive.prophet shop CategoryProps.two_categories eq_refl)
    as (Hp & _ & Hrows).
  destruct (Hrows product_category) as (_ & _ & _ & _ & Hcount).
  split; [exact Hp|]. split; [reflexivity | exact Hcount].
Defined.

Lemma trends_group_by_period_witness :
  exists tr,
    @get_trends Naive.prophet "weekly" shop = Ok tr /\
    StronglySorted Z.lt (periods tr) /\
    (forall p, In p (periods tr) <->
               exists t, In t CategoryProps.two_categories /\
                         period_key "weekly" (date t) = p) /\
    Forall2 (fun p v => v == column_total (fun t => period_key "weekly" (date t))
                               CategoryProps.two_categories p)
      (periods tr) (sales tr).
Proof.
  exact (@trends_group_by_period Naive.prophet "weekly" shop CategoryProps.two_categories
           eq_refl).
Defined.

Lemma categories_sorted_distinct_witness :
  exists cats,
    @get_categories Naive.prophet shop = Ok cats /\
    StronglySorted string_lt cats /\
    forall c, In c cats <->
              exists t, In t CategoryProps.two_categories /\ product_category t = c.
Proof.
  exact (@categories_sorted_distinct Naive.prophet shop CategoryProps.two_categories eq_refl).
Defined.

Lemma insights_name_the_largest_witness :
  match @generate_insights Naive.prophet (fmt_fixed 1) shop with
  | Ok insights =>
      exists growth p r,
        insights = growth ++ [product_insight p; region_insight r] /\
        (growth = [] \/ exists description, growth = [growth_insight description]) /\
        top_of product_category CategoryProps.two_categories p /\
        top_of region CategoryProps.two_categories r
  | Raise e =>
      CategoryProps.two_categories = [] /\
      e = ValueError "attempt to get argmax of an empty sequence"
  end.
Proof.
  exact (@insights_name_the_largest Naive.prophet (fmt_fixed 1) shop
           CategoryProps.two_categories eq_refl).
Defined.

Example shop_insights :
  @generate_insights Naive.prophet (fmt_fixed 1) shop
  = Ok [product_insight "Coffee"; region_insight "Amhara"].
Proof. vm_compute. reflexivity. Qed.

Lemma historical_dates_selected_witness :
  exists h,
    @get_historical_data Naive.prophet (Some (Calendar.days_from_civil 2020 1 2)) None
      (Some "Teff") shop = Ok h /\
    length (h_dates h) = length (h_sales h) /\
    StronglySorted Z.lt (h_dates h) /\
    forall d, In d (h_dates h) <->
              exists t, In t CategoryProps.two_categories /\ date t = d /\
                        within (Some (Calendar.days_from_civil 2020 1 2)) None d /\
                        selected (Some "Teff") t.
Proof.
  exact (@historical_dates_selected Naive.prophet (Some (Calendar.days_from_civil 2020 1 2))
           None (Some "Teff") shop CategoryProps.two_categories eq_refl).
Defined.

End ServiceStatsProps.

(* ===================================================================== *)
(** * Further properties of [generate_forecast] *)
(* ===================================================================== *)

Module ServiceForecastProps.
Import Float Frame Numpy PyNum ForecastingService.
Local Open Scope Q_scope.

Section WithLibraries.
Context `{PL : Prophet.Lib}.

(** The rows of a response, cut from the predicted frame [fc]. *)
Definition cut_from (periods : Z) (fc : list Prophet.ForecastRow) (resp : ForecastResponse)
  : Prop :=
  let rows := slice_from (- periods) fc in
  dates resp = map Prophet.ds rows /\
  predictions resp = map (fun r => round2 (Prophet.yhat r)) rows /\
  lower_bound resp = map (fun r => round2 (Prophet.yhat_lower r)) rows /\
  upper_bound resp = map (fun r => round2 (Prophet.yhat_upper r)) rows.

(** What a successful call went through. *)
Lemma generate_forecast_ok (periods : Z) (category rg : option string)
    (self : ForecastingService) (resp : ForecastResponse) :
  generate_forecast periods category rg self = Ok resp ->
  exists table m future fc,
    df self = Some table /\
    Prophet.make_future_dataframe m periods = Ok future /\
    Prophet.predict m future = Ok fc /\
    cut_from periods fc resp /\
    history_metrics (slice_to (- periods) fc)
      (daily_sales (filter_by region rg (filter_by product_category category table)))
    = Ok (mae (metrics resp), mape (metrics resp)).
Proof.
  unfold generate_forecast, read_df. destruct (negb (model_trained self)); [discriminate|].
  destruct (df self) as [table|]; [|discriminate]. cbn [mbind result_bind].
  match goal with |- (?x ≫= _) = _ -> _ => destruct x as [m|e] end; [|discriminate].
  cbn [mbind result_bind].
  destruct (Prophet.make_future_dataframe m periods) as [future|e] eqn:Ef; [|discriminate].
  cbn [mbind result_bind].
  destruct (Prophet.predict m future) as [fc|e] eqn:Ep; [|discriminate].
  cbn [mbind result_bind].
  destruct (history_metrics _ _) as [[a b]|e] eqn:Eh; [|discriminate].
  cbn [mbind result_bind]. intros [= <-]. exists table, m, future, fc.
  repeat split; auto.
Qed.

(** X23. With [periods = 0] nothing is cut off: the response lists every
    row of the predicted frame, history included, and since no row is left
    to compare with the history both error measures are reported as 0. *)
Theorem zero_periods_returns_whole_frame (category rg : option string)
    (self : ForecastingService) (resp : ForecastResponse) :
  generate_forecast 0 category rg self = Ok resp ->
  mae (metrics resp) = Fin 0 /\ mape (metrics resp) = Fin 0 /\
  exists m future fc,
    Prophet.make_future_dataframe m 0 = Ok future /\
    Prophet.predict m future = Ok fc /\
    dates resp = map Prophet.ds fc /\
    predictions resp = map (fun r => round2 (Prophet.yhat r)) fc.
Proof.
  intros H. apply generate_forecast_ok in H.
  destruct H as (table & m & future & fc & _ & Hf & Hp & Hcut & Hm).
  change (- 0)%Z with 0%Z in *. unfold cut_from in Hcut.
  change (slice_from 0 fc) with fc in Hcut. change (slice_to 0 fc) with (@nil Prophet.ForecastRow) in Hm.
  cbn in Hm. injection Hm as <- <-.
  split; [reflexivity|]. split; [reflexivity|].
  exists m, future, fc. tauto.
Qed.

Lemma slice_from_last {A : Type} (periods : Z) (l : list A) :
  (0 < periods)%Z ->
  exists before, l = before ++ slice_from (- periods) l /\
    Z.of_nat (length (slice_from (- periods) l)) = Z.min periods (Z.of_nat (length l)).
Proof.
  intros Hp. unfold slice_from.
  replace (0 <=? - periods)%Z with false by (symmetry; apply Z.leb_gt; lia).
  exists (take (Z.to_nat (Z.of_nat (length l) + - periods)) l).
  split; [symmetry; apply take_drop|]. rewrite length_drop. lia.
Qed.

(** X24. For a positive horizon the response holds the last rows of the
    predicted frame: [periods] of them, or all when the frame is shorter;
    predictions and bounds come one per date. *)
Theorem positive_periods_returns_last_rows (periods : Z) (category rg : option string)
    (self : ForecastingService) (resp : ForecastResponse) :
  (0 < periods)%Z ->
  generate_forecast periods category rg self = Ok resp ->
  exists m future fc before,
    Prophet.make_future_dataframe m periods = Ok future /\
    Prophet.predict m future = Ok fc /\
    map Prophet.ds fc = before ++ dates resp /\
    Z.of_nat (length (dates resp)) = Z.min periods (Z.of_nat (length fc)) /\
    length (predictions resp) = length (dates resp) /\
    length (lower_bound resp) = length (dates resp) /\
    length (upper_bound resp) = length (dates resp).
Proof.
  intros Hpos H. apply generate_forecast_ok in H.
  destruct H as (table & m & future & fc & _ & Hf & Hp & (Hd & Hy & Hl & Hu) & _).
  destruct (slice_from_last periods fc Hpos) as [before [Hsplit Hlen]].
  exists m, future, fc, (map Prophet.ds before).
  rewrite Hd, Hy, Hl, Hu, !length_map, <- map_app, <- Hsplit. repeat split; auto.
Qed.

(** X25. With a category or a region filter [self.model] is not consulted:
    a forecast that is returned was predicted by a model fitted on the spot,
    with the configuration of the temporary model (no monthly seasonality),
    to the daily series of the filtered table. *)
Theorem filtered_forecast_uses_temporary_model (periods : Z) (category rg : option string)
    (self : ForecastingService) (table : list Transaction) (response : ForecastResponse) :
  truthy category || truthy rg = true ->
  df self = Some table ->
  generate_forecast periods category rg self = Ok response ->
  exists f future fc,
    Prophet.fit filtered_config
      (daily_sales (filter_by region rg (filter_by product_category category table)))
    = Ok f /\
    Prophet.future_dates f periods = Ok future /\
    Prophet.predict_fitted f future = Ok fc /\
    cut_from periods fc response.
Proof.
  intros Hf Hdf H. unfold generate_forecast, read_df in H.
  destruct (negb (model_trained self)); [discriminate H|].
  rewrite Hdf, Hf in H. cbn [mbind result_bind] in H.
  destruct (Prophet.fit filtered_config _) as [f|e] eqn:Efit; [|discriminate H].
  cbn [mbind result_bind] in H.
  unfold Prophet.make_future_dataframe, Prophet.predict in H.
  cbn [Prophet.state] in H.
  destruct (Prophet.future_dates f periods) as [future|e] eqn:Efuture; [|discriminate H].
  cbn [mbind result_bind] in H.
  destruct (Prophet.predict_fitted f future) as [fc|e] eqn:Epredict; [|discriminate H].
  cbn [mbind result_bind] in H.
  destruct (history_metrics _ _) as [[a b]|e]; [|discriminate H].
  cbn [mbind result_bind] in H. injection H as <-.
  exists f, future, fc. repeat split; assumption.
Qed.

End WithLibraries.

(** ** The coffee service *)

(** What [generate_forecast(periods=0)] returns on the coffee service. *)
Definition whole_frame_response : @ForecastResponse :=
  Eval vm_compute in
    match @generate_forecast Naive.prophet 0 None None ServiceProps.coffee_service with
    | Ok r => r
    | Raise _ => mkResponse [] [] [] [] (mkResponseMetrics NaN NaN NaN NaN)
    end.

Lemma zero_periods_returns_whole_frame_witness :
  mae (metrics whole_frame_response) = Fin 0 /\
  mape (metrics whole_frame_response) = Fin 0 /\
  exists m future fc,
    @Prophet.make_future_dataframe Naive.prophet m 0 = Ok future /\
    @Prophet.predict Naive.prophet m future = Ok fc /\
    dates whole_frame_response = map Prophet.ds fc /\
    predictions whole_frame_response = map (fun r => round2 (Prophet.yhat r)) fc.
Proof.
  apply (@zero_periods_returns_whole_frame Naive.prophet None None
           ServiceProps.coffee_service whole_frame_response).
  vm_compute. reflexivity.
Defined.

Example whole_frame_has_the_history : length (dates whole_frame_response) = 3%nat.
Proof. reflexivity. Qed.

Lemma positive_periods_returns_last_rows_witness :
  exists m future fc before,
    @Prophet.make_future_dataframe Naive.prophet m 2 = Ok future /\
    @Prophet.predict Naive.prophet m future = Ok fc /\
    map Prophet.ds fc = before ++ dates ServiceProps.coffee_response /\
    Z.of_nat (length (dates ServiceProps.coffee_response))
    = Z.min 2 (Z.of_nat (length fc)) /\
    length (predictions ServiceProps.coffee_response)
    = length (dates ServiceProps.coffee_response) /\
    length (lower_bound ServiceProps.coffee_response)
    = length (dates ServiceProps.coffee_response) /\
    length (upper_bound ServiceProps.coffee_response)
    = length (dates ServiceProps.coffee_response).
Proof.
  apply (@positive_periods_returns_last_rows Naive.prophet 2 None None
           ServiceProps.coffee_service ServiceProps.coffee_response).
  - reflexivity.
  - vm_compute. reflexivity.
Defined.

(** A service marked as trained that holds the coffee table and no model. *)
Definition modelless_service : @ForecastingService Naive.prophet :=
  @mkService Naive.prophet (Some ServiceProps.coffee_table) None true true.

(** What [generate_forecast(periods=2, category='Coffee')] returns on it. *)
Definition modelless_response : @ForecastResponse :=
  Eval vm_compute in
    match @generate_forecast Naive.prophet 2 (Some "Coffee") None modelless_service with
    | Ok r => r
    | Raise _ => mkResponse [] [] [] [] (mkResponseMetrics NaN NaN NaN NaN)
    end.

Lemma filtered_forecast_uses_temporary_model_witness :
  exists f future fc,
    @Prophet.fit Naive.prophet filtered_config
      (daily_sales (filter_by region None
                      (filter_by product_category (Some "Coffee") ServiceProps.coffee_table)))
    = Ok f /\
    @Prophet.future_dates Naive.prophet f 2 = Ok future /\
    @Prophet.predict_fitted Naive.prophet f future = Ok fc /\
    cut_from 2 fc modelless_response.
Proof.
  apply (@filtered_forecast_uses_temporary_model Naive.prophet 2 (Some "Coffee") None
           modelless_service ServiceProps.coffee_table modelless_response).
  - reflexivity.
  - reflexivity.
  - vm_compute. reflexivity.
Defined.

End ServiceForecastProps.

(* ===================================================================== *)
(** * Further properties of the insight engine *)
(* ===================================================================== *)

Module InsightExtras.
Import Float Frame PyNum InsightEngine InsightProps GroupByProps.
Local Open Scope engine_scope.

(** ** The list of insights only grows *)

Definition grows (st st' : State) : Prop :=
  forecast_df (engine st') = forecast_df (engine st) /\
  exists added, insights (engine st') = insights (engine st) ++ added.

Lemma grows_refl (st : State) : grows st st.
Proof. split; [reflexivity|]. exists []. rewrite app_nil_r. reflexivity. Qed.

Lemma grows_trans (a b c : State) : grows a b -> grows b c -> grows a c.
Proof.
  intros [Hf1 [l1 H1]] [Hf2 [l2 H2]]. split; [congruence|].
  exists (l1 ++ l2). rewrite H2, H1, app_assoc. reflexivity.
Qed.

Lemma grows_set (name : string) (values : list cell) (st : State) :
  grows st (fst (set_sales_col name values st)).
Proof. split; [reflexivity|]. exists []. simpl. rewrite app_nil_r. reflexivity. Qed.

Lemma grows_append (l : list Insight) (st : State) : grows st (fst (append_all l st)).
Proof. split; [reflexivity|]. exists l. reflexivity. Qed.

(** A computation that hands back [self.insights]. *)
Definition returns_insights (m : M (list Insight)) : Prop :=
  forall st st' l, m st = (st', Ok l) -> l = insights (engine st').

Lemma returns_insights_bind {A : Type} (m : M A) (k : A -> M (list Insight)) :
  (forall a, returns_insights (k a)) -> returns_insights (bind m k).
Proof.
  intros Hk st st' l. unfold bind. destruct (m st) as [st1 [a|e]]; [apply Hk | discriminate].
Qed.

Section Accumulation.
Variable to_datetime : cell -> result Calendar.date.
Variable fmt_1f : fnum -> string.
Variable fmt_2f : fnum -> string.

Lemma generate_all_insights_returns :
  returns_insights (generate_all_insights to_datetime fmt_1f fmt_2f).
Proof.
  unfold generate_all_insights.
  repeat (apply returns_insights_bind; intros _).
  intros st st' l [= <- <-]. reflexivity.
Qed.

(** X26. [generate_all_insights] never drops or rewrites an insight: the
    insights the engine held before the call are the beginning of those it
    holds afterwards, also when the call raises half-way; and the list a
    successful call returns is that whole list, earlier insights included. *)
Theorem insights_accumulate (st : State) :
  let run := generate_all_insights to_datetime fmt_1f fmt_2f st in
  (exists added, insights (engine (fst run)) = insights (engine st) ++ added) /\
  forall l, snd run = Ok l -> l = insights (engine (fst run)).
Proof.
  cbn zeta.
  assert (H : grows st (fst (generate_all_insights to_datetime fmt_1f fmt_2f st))).
  { apply (generate_all_insights_respects grows (fun _ => True)).
    - apply grows_refl.
    - apply grows_trans.
    - apply grows_set.
    - intros l s _. apply grows_append.
    - intros; exact I.
    - intros; exact I. }
  destruct H as [_ [added Hadd]]. split; [exists added; exact Hadd|].
  intros l Hl.
  destruct (generate_all_insights to_datetime fmt_1f fmt_2f st) as [st' r] eqn:E.
  simpl in *. subst r. apply generate_all_insights_returns in E. exact E.
Qed.

End Accumulation.

(** ** What a successful pass appends *)

(** [m], when it ends normally, has appended a list of insights that
    satisfies [S], and has left [self.forecast_df] alone. *)
Definition emits {A : Type} (m : M A) (S : list Insight -> Prop) : Prop :=
  forall st st' a, m st = (st', Ok a) ->
    forecast_df (engine st') = forecast_df (engine st) /\
    exists added, insights (engine st') = insights (engine st) ++ added /\ S added.

Definition quiet {A : Type} (m : M A) : Prop := emits m (fun l => l = []).

Lemma emits_weaken {A : Type} (m : M A) (S S' : list Insight -> Prop) :
  emits m S -> (forall l, S l -> S' l) -> emits m S'.
Proof.
  intros Hm HS st st' a E. destruct (Hm st st' a E) as [Hf [added [Hi Ha]]].
  split; [exact Hf|]. exists added. auto.
Qed.

Lemma emits_bind {A B : Type} (m : M A) (k : A -> M B) (S1 S2 : list Insight -> Prop) :
  emits m S1 -> (forall a, emits (k a) S2) ->
  emits (bind m k) (fun l => exists l1 l2, l = l1 ++ l2 /\ S1 l1 /\ S2 l2).
Proof.
  intros Hm Hk st st' b. unfold bind.
  destruct (m st) as [st1 [a|e]] eqn:E; [|discriminate]. intros E2.
  destruct (Hm st st1 a E) as [Hf1 [l1 [Hi1 H1]]].
  destruct (Hk a st1 st' b E2) as [Hf2 [l2 [Hi2 H2]]].
  split; [congruence|]. exists (l1 ++ l2). split.
  - rewrite Hi2, Hi1, app_assoc. reflexivity.
  - exists l1, l2. auto.
Qed.

Lemma quiet_bind {A B : Type} (m : M A) (k : A -> M B) (S : list Insight -> Prop) :
  quiet m -> (forall a, emits (k a) S) -> emits (bind m k) S.
Proof.
  intros Hm Hk. eapply emits_weaken; [apply (emits_bind m k _ S Hm Hk)|].
  intros l (l1 & l2 & -> & -> & H). exact H.
Qed.

Lemma quiet_ret {A : Type} (a : A) : quiet (ret a).
Proof.
  intros st st' x [= <- _]. split; [reflexivity|]. exists []. rewrite app_nil_r. auto.
Qed.

Lemma quiet_lift {A : Type} (r : result A) : quiet (lift r).
Proof.
  intros st st' x [= <- _]. split; [reflexivity|]. exists []. rewrite app_nil_r. auto.
Qed.

Lemma quiet_sales_frame : quiet sales_frame.
Proof.
  intros st st' x [= <- _]. split; [reflexivity|]. exists []. rewrite app_nil_r. auto.
Qed.

Lemma quiet_set (name : string) (values : list cell) : quiet (set_sales_col name values).
Proof.
  intros st st' x [= <- _]. split; [reflexivity|]. exists []. simpl. rewrite app_nil_r. auto.
Qed.

Lemma emits_append_all (l : list Insight) : emits (append_all l) (fun added => added = l).
Proof. intros st st' x [= <- _]. split; [reflexivity|]. exists l. auto. Qed.

Lemma emits_append (i : Insight) : emits (append i) (fun added => added = [i]).
Proof. intros st st' x [= <- _]. split; [reflexivity|]. exists [i]. auto. Qed.

Lemma emits_append_then {B : Type} (i : Insight) (k : M B) (S : list Insight -> Prop) :
  emits k S -> emits (bind (append i) (fun _ => k)) (fun l => exists rest, l = i :: rest /\ S rest).
Proof.
  intros Hk. eapply emits_weaken.
  - apply (emits_bind _ _ _ S (emits_append i)). intros _. exact Hk.
  - intros l (l1 & l2 & -> & -> & H). exists l2. auto.
Qed.

Ltac quiet_step :=
  first [ apply quiet_ret | apply quiet_lift | apply quiet_sales_frame | apply quiet_set ].

Ltac skip_quiet := repeat (apply quiet_bind; [quiet_step | intros ?]).

(** Category and severity of an insight. *)
Definition kind (i : Insight) : string * string := (category i, severity i).

Definition growth_kinds : list (list (string * string)) :=
  [ []; [("Growth", "positive")]; [("Growth", "warning")];
    [("Growth", "positive"); ("Growth", "positive")];
    [("Growth", "warning"); ("Growth", "positive")] ].

Definition product_kinds : list (list (string * string)) :=
  [ [("Products", "positive")]; [("Products", "positive"); ("Products", "warning")] ].

Definition forecast_kinds (forecast : option positive) : list (list (string * string)) :=
  match forecast with
  | None => [ [] ]
  | Some _ => [ [("Forecast", "positive")]; [("Forecast", "warning")]; [("Forecast", "info")] ]
  end.

Section Shape.
Variable to_datetime : cell -> result Calendar.date.
Variable fmt_1f : fnum -> string.
Variable fmt_2f : fnum -> string.

Lemma trend_insights_kinds (monthly : list Q) :
  In (map kind (trend_insights fmt_1f monthly)) growth_kinds.
Proof.
  unfold trend_insights, growth_kinds.
  destruct (fgt (avg_growth monthly) (Fin 5));
    [|destruct (flt (avg_growth monthly) (Fin (-5)))];
    destruct (fgt (recent_growth monthly) _); simpl; tauto.
Qed.

Lemma analyze_trends_emits :
  emits (analyze_trends to_datetime fmt_1f) (fun l => In (map kind l) growth_kinds).
Proof.
  unfold analyze_trends. skip_quiet.
  eapply emits_weaken; [apply emits_append_all|].
  intros l ->. apply trend_insights_kinds.
Qed.

Lemma analyze_seasonality_emits :
  emits (analyze_seasonality to_datetime)
    (fun l => map kind l = [("Seasonality", "info"); ("Seasonality", "info")]).
Proof.
  unfold analyze_seasonality. skip_quiet.
  eapply emits_weaken; [apply emits_append_then, emits_append|].
  intros l (rest & -> & ->). reflexivity.
Qed.

Lemma analyze_products_emits :
  emits (analyze_products fmt_2f) (fun l => In (map kind l) product_kinds).
Proof.
  unfold analyze_products. skip_quiet.
  destruct a2 as [top_product top_revenue], a3 as [bottom_product bottom_revenue].
  destruct (fgt _ _).
  - eapply emits_weaken; [apply emits_append_then, emits_append|].
    intros l (rest & -> & ->). right. left. reflexivity.
  - eapply emits_weaken; [apply emits_append_then, quiet_ret|].
    intros l (rest & -> & ->). left. reflexivity.
Qed.

Lemma analyze_regions_emits :
  emits (analyze_regions fmt_2f)
    (fun l => map kind l = [("Geography", "positive"); ("Geography", "warning")]).
Proof.
  unfold analyze_regions. skip_quiet.
  destruct a2 as [top_region top_total], a3 as [bottom_region bottom_total].
  eapply emits_weaken; [apply emits_append_then, emits_append|].
  intros l (rest & -> & ->). reflexivity.
Qed.

Lemma analyze_customer_segments_emits :
  emits (analyze_customer_segments fmt_2f) (fun l => map kind l = [("Customers", "info")]).
Proof.
  unfold analyze_customer_segments. skip_quiet.
  destruct a2 as [top_segment top_total].
  eapply emits_weaken; [apply emits_append|].
  intros l ->. reflexivity.
Qed.

Lemma forecast_insight_kind (recent_avg forecast_avg : fnum) :
  In [kind (forecast_insight fmt_1f recent_avg forecast_avg)] (forecast_kinds (Some 1%positive)).
Proof.
  unfold forecast_insight. destruct (fgt _ _); [left; reflexivity|].
  destruct (flt _ _); [right; left; reflexivity | right; right; left; reflexivity].
Qed.

Lemma analyze_forecast_with_emits (fdf : DataFrame) (fl : positive) :
  emits (analyze_forecast_with fmt_1f fdf)
    (fun l => In (map kind l) (forecast_kinds (Some fl))).
Proof.
  unfold analyze_forecast_with. skip_quiet.
  eapply emits_weaken; [apply emits_append|].
  intros l ->. apply forecast_insight_kind.
Qed.

Lemma analyze_forecast_emits (st st' : State) (a : unit) :
  analyze_forecast fmt_1f st = (st', Ok a) ->
  forecast_df (engine st') = forecast_df (engine st) /\
  exists added, insights (engine st') = insights (engine st) ++ added /\
                In (map kind added) (forecast_kinds (forecast_df (engine st))).
Proof.
  unfold analyze_forecast. destruct (forecast_df (engine st)) as [fl|] eqn:Ef.
  - intros E. destruct (analyze_forecast_with_emits _ fl st st' a E) as [Hf H].
    split; [congruence | exact H].
  - intros [= <- _]. split; [congruence|]. exists []. rewrite app_nil_r.
    split; [reflexivity | left; reflexivity].
Qed.

Lemma bind_ok {A B : Type} (m : M A) (k : A -> M B) (st st' : State) (b : B) :
  bind m k st = (st', Ok b) -> exists st1 a, m st = (st1, Ok a) /\ k a st1 = (st', Ok b).
Proof.
  unfold bind. destruct (m st) as [st1 [a|e]]; [|discriminate]. intros H. eauto.
Qed.

(** X27. A pass that ends normally has appended, in this order: up to two
    Growth insights, two Seasonality notes, the top product and possibly a
    warning about the weakest one, the top region and a warning about the
    weakest region, the primary customer segment, and one Forecast insight
    exactly when the engine holds a forecast frame: between six and ten
    insights after those held before, one of them always a warning. *)
Theorem insights_in_category_order (st st' : State) (l : list Insight) :
  generate_all_insights to_datetime fmt_1f fmt_2f st = (st', Ok l) ->
  exists growth products forecast,
    In growth growth_kinds /\ In products product_kinds /\
    In forecast (forecast_kinds (forecast_df (engine st))) /\
    map kind l
    = map kind (insights (engine st)) ++ growth
        ++ [("Seasonality", "info"); ("Seasonality", "info")] ++ products
        ++ [("Geography", "positive"); ("Geography", "warning"); ("Customers", "info")]
        ++ forecast /\
    (length (insights (engine st)) + 6 <= length l <= length (insights (engine st)) + 10)%nat.
Proof.
  intros H. unfold generate_all_insights in H.
  apply bind_ok in H. destruct H as (s1 & [] & E1 & H).
  apply bind_ok in H. destruct H as (s2 & [] & E2 & H).
  apply bind_ok in H. destruct H as (s3 & [] & E3 & H).
  apply bind_ok in H. destruct H as (s4 & [] & E4 & H).
  apply bind_ok in H. destruct H as (s5 & [] & E5 & H).
  apply bind_ok in H. destruct H as (s6 & [] & E6 & H).
  injection H as <- <-.
  apply analyze_trends_emits in E1. destruct E1 as [F1 (l1 & I1 & K1)].
  apply analyze_seasonality_emits in E2. destruct E2 as [F2 (l2 & I2 & K2)].
  apply analyze_products_emits in E3. destruct E3 as [F3 (l3 & I3 & K3)].
  apply analyze_regions_emits in E4. destruct E4 as [F4 (l4 & I4 & K4)].
  apply analyze_customer_segments_emits in E5. destruct E5 as [F5 (l5 & I5 & K5)].
  apply analyze_forecast_emits in E6. destruct E6 as [F6 (l6 & I6 & K6)].
  rewrite F5, F4, F3, F2, F1 in K6.
  exists (map kind l1), (map kind l3), (map kind l6).
  split; [exact K1|]. split; [exact K3|]. split; [exact K6|].
  assert (Hl : insights (engine s6)
               = insights (engine st) ++ l1 ++ l2 ++ l3 ++ l4 ++ l5 ++ l6).
  { rewrite I6, I5, I4, I3, I2, I1, <- !app_assoc. reflexivity. }
  assert (Hk : map kind (insights (engine s6))
               = map kind (insights (engine st)) ++ map kind l1
                   ++ [("Seasonality", "info"); ("Seasonality", "info")] ++ map kind l3
                   ++ [("Geography", "positive"); ("Geography", "warning"); ("Customers", "info")]
                   ++ map kind l6).
  { rewrite Hl, !map_app, K2, K4, K5. reflexivity. }
  split; [exact Hk|].
  apply (f_equal (@length _)) in Hk. rewrite !length_app, !length_map in Hk.
  assert (H1 : (length l1 <= 2)%nat).
  { rewrite <- (length_map kind). unfold growth_kinds in K1. simpl in K1.
    destruct K1 as [<-|[<-|[<-|[<-|[<-|[]]]]]]; simpl; lia. }
  assert (H3 : (1 <= length l3 <= 2)%nat).
  { rewrite <- (length_map kind). unfold product_kinds in K3. simpl in K3.
    destruct K3 as [<-|[<-|[]]]; simpl; lia. }
  assert (H6 : (length l6 <= 1)%nat).
  { rewrite <- (length_map kind). destruct (forecast_df (engine st)); simpl in K6.
    - destruct K6 as [<-|[<-|[<-|[]]]]; simpl; lia.
    - destruct K6 as [<-|[]]; simpl; lia. }
  simpl in Hk. lia.
Qed.

End Shape.

(** ** The regions named by [analyze_regions] *)

Lemma descending_first {K : Type} (x : K * Q) (l : list (K * Q)) :
  StronglySorted descending (x :: l) -> forall y, In y (x :: l) -> (snd y <= snd x)%Q.
Proof.
  intros Hs y [<-|Hy]; [apply Qle_refl|].
  inversion Hs as [|? ? _ Hall]; subst. rewrite Forall_forall in Hall.
  apply (Hall y). apply list_elem_of_In. exact Hy.
Qed.

Lemma descending_last {K : Type} (l : list (K * Q)) (z : K * Q) :
  StronglySorted descending l -> last l = Some z -> forall y, In y l -> (snd z <= snd y)%Q.
Proof.
  induction 1 as [|x l Hs IH Hall]; intros Hlast y Hy; [destruct Hy|].
  destruct l as [|x' l'].
  - injection Hlast as <-. destruct Hy as [<-|[]]. apply Qle_refl.
  - change (last (x' :: l') = Some z) in Hlast.
    destruct Hy as [<-|Hy]; [|apply IH; assumption].
    rewrite Forall_forall in Hall. apply (Hall z).
    apply list_elem_of_In. clear -Hlast. revert x' Hlast.
    induction l' as [|w l' IHl]; intros x' Hlast.
    + injection Hlast as <-. left. reflexivity.
    + right. apply (IHl w). exact Hlast.
Qed.

(** The rounded total of the rows with key [k]. *)
Definition rounded_total (keys : list string) (vals : list Q) (k : string) : Q :=
  round2 (key_total k (zip keys vals)).

Lemma ranked_totals_spec (keys : list string) (vals : list Q) :
  length keys = length vals ->
  StronglySorted descending (ranked_totals keys vals) /\
  (forall k v, In (k, v) (ranked_totals keys vals) ->
               In k keys /\ (v == rounded_total keys vals k)%Q) /\
  (forall k, In k keys -> exists v, In (k, v) (ranked_totals keys vals)).
Proof.
  intros Hlen. unfold ranked_totals.
  set (sums := groupby_sum String.compare (zip keys vals)).
  destruct (groupby_key_set String.compare string_compare_eq String.compare_antisym
              string_compare_lt_trans Qplus (zip keys vals)) as (_ & _ & Hkeys).
  fold (groupby_sum String.compare (zip keys vals)) in Hkeys. fold sums in Hkeys.
  rewrite fst_zip in Hkeys by lia.
  pose proof (sort_by_perm (fun a b => Qle_bool b a)
                (map (fun '(k, v) => (k, round2 v)) sums)) as Hperm.
  split; [apply sort_descending_sorted|]. split.
  - intros k v Hin. apply (Permutation_in _ Hperm), in_map_iff in Hin.
    destruct Hin as [[k0 v0] [[= <- <-] Hin]]. split.
    + apply Hkeys, in_map_iff. exists (k0, v0). auto.
    + apply round2_Qeq.
      apply (groupby_sum_value String.compare string_compare_eq String.compare_antisym
               string_compare_lt_trans _ k0 v0 Hin).
  - intros k Hk. apply Hkeys, in_map_iff in Hk. destruct Hk as [[k0 v0] [<- Hin]].
    exists (round2 v0). apply (Permutation_in _ (Permutation_sym Hperm)), in_map_iff.
    exists (k0, v0). auto.
Qed.

Definition top_market (fmt_2f : fnum -> string) (r : string) (total : Q) : Insight :=
  mkInsight "Geography" "positive" (r ++ " - Top Regional Market")
    ("Leading region with ETB " ++ fmt_2f (Fin total) ++ " in sales")
    ("Use " ++ r ++ " as model for other regions").

Definition growth_opportunity (fmt_2f : fnum -> string) (r : string) (total : Q) : Insight :=
  mkInsight "Geography" "warning" (r ++ " - Growth Opportunity")
    ("Underdeveloped market with only ETB " ++ fmt_2f (Fin total))
    ("Increase marketing and distribution efforts in " ++ r).

(** X28. On a frame with at least one row [analyze_regions] appends two
    insights: the region with the largest rounded total as the top market,
    and the one with the smallest as a growth opportunity, with a warning
    whatever the gap between them.  When all rows have one region, that
    region is both. *)
Theorem regions_extremes (fmt_2f : fnum -> string) (st : State)
    (keys : list string) (vals : list Q) :
  let df := default (∅ : DataFrame) (objects st !! sales_df (engine st)) in
  str_col df "region" = Ok keys ->
  float_col df "total_sales" = Ok vals ->
  length keys = length vals -> keys <> [] ->
  exists top top_total bottom bottom_total,
    analyze_regions fmt_2f st
    = (mkState (objects st)
         (mkEngine (sales_df (engine st)) (forecast_df (engine st))
            (insights (engine st)
               ++ [top_market fmt_2f top top_total;
                   growth_opportunity fmt_2f bottom bottom_total])),
       Ok tt) /\
    In top keys /\ (top_total == rounded_total keys vals top)%Q /\
    In bottom keys /\ (bottom_total == rounded_total keys vals bottom)%Q /\
    (forall k, In k keys ->
       (bottom_total <= rounded_total keys vals k <= top_total)%Q) /\
    (forall r, Forall (fun k => k = r) keys -> top = r /\ bottom = r).
Proof.
  intros df Hk Hv Hlen Hne.
  destruct (ranked_totals_spec keys vals Hlen) as (Hs & Hin & Hcover).
  destruct (ranked_totals keys vals) as [|[top top_total] rest] eqn:Er.
  { destruct keys as [|k keys]; [congruence|].
    destruct (Hcover k (or_introl eq_refl)) as [v []]. }
  destruct (last ((top, top_total) :: rest)) as [[bottom bottom_total]|] eqn:El;
    [|apply last_None in El; discriminate].
  exists top, top_total, bottom, bottom_total.
  assert (Hbin : In (bottom, bottom_total) ((top, top_total) :: rest)).
  { apply list_elem_of_In, last_Some_elem_of. exact El. }
  destruct (Hin top top_total (or_introl eq_refl)) as [Htk Htv].
  destruct (Hin bottom bottom_total Hbin) as [Hbk Hbv].
  split; [|repeat split; auto].
  - unfold analyze_regions, bind, sales_frame, lift. fold df. rewrite Hk, Hv, Er.
    unfold first_row, last_row. rewrite El.
    unfold append. cbn [engine objects sales_df forecast_df insights].
    rewrite <- app_assoc. reflexivity.
  - destruct (Hcover k H) as [v Hkv]. destruct (Hin k v Hkv) as [_ Hv'].
    rewrite <- Hv'. apply (descending_last _ _ Hs El (k, v) Hkv).
  - destruct (Hcover k H) as [v Hkv]. destruct (Hin k v Hkv) as [_ Hv'].
    rewrite <- Hv'. apply (descending_first _ _ Hs (k, v) Hkv).
  - rewrite Forall_forall in H. apply H, list_elem_of_In, Htk.
  - rewrite Forall_forall in H. apply H, list_elem_of_In, Hbk.
Qed.

(** ** Degenerate averages in [analyze_forecast] *)

Definition stable_sales : Insight :=
  mkInsight "Forecast" "info" "Stable Sales Expected"
    "Forecasted sales remain within Â±10% of current levels"
    "Maintain current operations and monitor for changes".

Lemma forecast_insight_nan (fmt_1f : fnum -> string) (recent_avg forecast_avg : fnum) :
  recent_avg = NaN \/ forecast_avg = NaN ->
  forecast_insight fmt_1f recent_avg forecast_avg = stable_sales.
Proof.
  intros [->| ->]; [destruct forecast_avg | destruct recent_avg]; try reflexivity.
Qed.

(** X29. When the forecast frame has no rows (or the sales frame has none)
    an average is NaN, neither threshold test succeeds, and
    [analyze_forecast] reports stable sales. *)
Theorem empty_forecast_reported_stable (fmt_1f : fnum -> string) (st : State)
    (fl : positive) (fdf : DataFrame) (col : list cell) (vals daily yh : list Q) :
  let df := default (∅ : DataFrame) (objects st !! sales_df (engine st)) in
  forecast_df (engine st) = Some fl -> objects st !! fl = Some fdf ->
  get_col df "date" = Ok col -> float_col df "total_sales" = Ok vals ->
  daily_totals col vals = Ok daily -> float_col fdf "yhat" = Ok yh ->
  daily = [] \/ yh = [] ->
  analyze_forecast fmt_1f st
  = (mkState (objects st)
       (mkEngine (sales_df (engine st)) (forecast_df (engine st))
          (insights (engine st) ++ [stable_sales])),
     Ok tt).
Proof.
  intros df Hf Hfdf Hcol Hvals Hdaily Hyh Hempty.
  unfold analyze_forecast. rewrite Hf, Hfdf.
  change (default (∅ : DataFrame) (Some fdf)) with fdf.
  unfold analyze_forecast_with, bind, sales_frame, lift. fold df.
  rewrite Hcol, Hvals, Hdaily, Hyh. unfold append.
  rewrite forecast_insight_nan; [rewrite Hf; reflexivity|].
  destruct Hempty as [-> | ->]; [left | right]; reflexivity.
Qed.

(** ** The engine on the frame read from a file *)

Definition csv_state : State := init 1%positive None csv_heap.

Definition csv_final : State :=
  fst (generate_all_insights iso_to_datetime (fmt_fixed 1) (fmt_fixed 2) csv_state).

Lemma insights_in_category_order_witness :
  exists growth products forecast,
    In growth growth_kinds /\ In products product_kinds /\
    In forecast (forecast_kinds (forecast_df (engine csv_state))) /\
    map kind (insights (engine csv_final))
    = map kind (insights (engine csv_state)) ++ growth
        ++ [("Seasonality", "info"); ("Seasonality", "info")] ++ products
        ++ [("Geography", "positive"); ("Geography", "warning"); ("Customers", "info")]
        ++ forecast /\
    (length (insights (engine csv_state)) + 6 <= length (insights (engine csv_final))
     <= length (insights (engine csv_state)) + 10)%nat.
Proof.
  apply (insights_in_category_order iso_to_datetime (fmt_fixed 1) (fmt_fixed 2)
           csv_state csv_final (insights (engine csv_final))).
  vm_compute. reflexivity.
Defined.

Lemma regions_extremes_witness :
  exists top top_total bottom bottom_total,
    analyze_regions (fmt_fixed 2) csv_state
    = (mkState (objects csv_state)
         (mkEngine (sales_df (engine csv_state)) (forecast_df (engine csv_state))
            (insights (engine csv_state)
               ++ [top_market (fmt_fixed 2) top top_total;
                   growth_opportunity (fmt_fixed 2) bottom bottom_total])),
       Ok tt) /\
    In top ["Amhara"; "Afar"; "Amhara"] /\
    (top_total == rounded_total ["Amhara"; "Afar"; "Amhara"] [100; 101; 102] top)%Q /\
    In bottom ["Amhara"; "Afar"; "Amhara"] /\
    (bottom_total == rounded_total ["Amhara"; "Afar"; "Amhara"] [100; 101; 102] bottom)%Q /\
    (forall k, In k ["Amhara"; "Afar"; "Amhara"] ->
       (bottom_total <= rounded_total ["Amhara"; "Afar"; "Amhara"] [100; 101; 102] k
        <= top_total)%Q) /\
    (forall r, Forall (fun k => k = r) ["Amhara"; "Afar"; "Amhara"] -> top = r /\ bottom = r).
Proof.
  apply (regions_extremes (fmt_fixed 2) csv_state ["Amhara"; "Afar"; "Amhara"]
           [100; 101; 102]%Q).
  - vm_compute. reflexivity.
  - vm_compute. reflexivity.
  - reflexivity.
  - discriminate.
Defined.

(** The same sales frame beside a forecast frame without rows. *)
Definition empty_forecast_state : State :=
  init 1%positive (Some 2%positive)
    (<[2%positive := frame_of_forecast []]> csv_heap).

Lemma empty_forecast_reported_stable_witness :
  insights (engine (fst (analyze_forecast (fmt_fixed 1) empty_forecast_state)))
  = [stable_sales].
Proof.
  pose proof (empty_forecast_reported_stable (fmt_fixed 1) empty_forecast_state 2%positive
                (frame_of_forecast [])
                [CStr "2020-01-15"; CStr "2020-02-15"; CStr "2020-03-15"]
                [100; 101; 102]%Q [100; 101; 102]%Q []
                eq_refl ltac:(vm_compute; reflexivity) ltac:(vm_compute; reflexivity)
                ltac:(vm_compute; reflexivity) ltac:(vm_compute; reflexivity)
                ltac:(vm_compute; reflexivity) (or_intror eq_refl)) as H.
  rewrite H. reflexivity.
Defined.

End InsightExtras.
